(** * Credential vault and OAuth token lifecycle of the TikTok Kit CLIs

    A shallow embedding of the vault / OAuth / token-refresh code of
    [src/eldoore1.1.py], [src/TTKv1.py] and [src/tiktok_kit_cli.py].

    - [Py]      : the Python values the vault document is made of
                  (dicts are insertion-ordered association lists;
                  floats are not part of the embedding);
    - [Json]    : what [json.dumps] and [json.loads] do to those values;
    - [Runtime] : the process state (vault file, clock, token endpoint,
                  terminal) and the monad the embedded functions run in;
                  an execution is one in which the process receives no
                  signal ([KeyboardInterrupt] is not an outcome);
    - [Eldoore], [TTKv1], [KitCli] : the three CLI variants;
    - [KeyManager] : the key file at the start of the three programs. *)

From Stdlib Require Import List String Ascii ZArith Bool Lia.
From Stdlib Require Import DecimalString.
Import ListNotations.

Local Open Scope string_scope.
Local Open Scope Z_scope.

Set Warnings "-register-all".

(* ================================================================= *)
(** * Python values *)

Module Py.

(** Objects used as dict keys.  [KObj] is an object hashed by identity. *)
Inductive pykey : Type :=
| KNone
| KStr (s : string)
| KInt (n : Z)
| KBool (b : bool)
| KObj (id : nat).

(** The values the program stores in the vault document.  [PObj] is an
    instance of a class [json] knows nothing about (a [datetime], a numpy
    scalar): truthy, hashable, not serialisable.  Floats are not
    modelled; JSON numbers are integers here. *)
Inductive pyval : Type :=
| PNone
| PBool (b : bool)
| PInt (n : Z)
| PStr (s : string)
| PList (l : list pyval)
| PDict (d : list (pykey * pyval))
| PObj (id : nat).

Definition dict := list (pykey * pyval).

(** [hash]/[==] on keys: [True == 1] and [False == 0], so a bool and an
    int can name the same slot. *)
Inductive hkey : Type :=
| HNone
| HStr (s : string)
| HNum (n : Z)
| HObj (id : nat).

Definition key_norm (k : pykey) : hkey :=
  match k with
  | KNone => HNone
  | KStr s => HStr s
  | KInt n => HNum n
  | KBool b => HNum (if b then 1 else 0)
  | KObj i => HObj i
  end.

Definition hkey_eqb (a b : hkey) : bool :=
  match a, b with
  | HNone, HNone => true
  | HStr s, HStr t => String.eqb s t
  | HNum n, HNum m => Z.eqb n m
  | HObj i, HObj j => Nat.eqb i j
  | _, _ => false
  end.

Definition key_eqb (a b : pykey) : bool := hkey_eqb (key_norm a) (key_norm b).

(** [d.get(k)] at the level of the association list. *)
Fixpoint dict_lookup (k : pykey) (d : dict) : option pyval :=
  match d with
  | [] => None
  | (k', v) :: d' => if key_eqb k k' then Some v else dict_lookup k d'
  end.

(** [d[k] = v]: an existing slot keeps its key object and its position,
    a new key is appended. *)
Fixpoint dict_set (k : pykey) (v : pyval) (d : dict) : dict :=
  match d with
  | [] => [(k, v)]
  | (k', v') :: d' =>
      if key_eqb k k' then (k', v) :: d' else (k', v') :: dict_set k v d'
  end.

(** [del d[k]] for a key that is present. *)
Fixpoint dict_del (k : pykey) (d : dict) : dict :=
  match d with
  | [] => []
  | (k', v') :: d' => if key_eqb k k' then d' else (k', v') :: dict_del k d'
  end.

Definition dict_mem (k : pykey) (d : dict) : bool :=
  match dict_lookup k d with Some _ => true | None => false end.

(** Python truthiness ([if x:], [not x], [x or y]). *)
Definition truthy (v : pyval) : bool :=
  match v with
  | PNone => false
  | PBool b => b
  | PInt n => negb (Z.eqb n 0)
  | PStr s => negb (String.eqb s "")
  | PList l => match l with [] => false | _ => true end
  | PDict d => match d with [] => false | _ => true end
  | PObj _ => true
  end.

(** The key a value denotes when used as a subscript of a dict; lists and
    dicts are unhashable. *)
Definition as_key (v : pyval) : option pykey :=
  match v with
  | PNone => Some KNone
  | PBool b => Some (KBool b)
  | PInt n => Some (KInt n)
  | PStr s => Some (KStr s)
  | PObj i => Some (KObj i)
  | PList _ | PDict _ => None
  end.

(** Python [==] on values, as far as the program needs it ([!=] between
    the callback's state and the username). *)
Fixpoint py_eqb (a b : pyval) : bool :=
  match a, b with
  | PNone, PNone => true
  | PBool x, PBool y => Bool.eqb x y
  | PBool x, PInt n | PInt n, PBool x => Z.eqb n (if x then 1 else 0)
  | PInt n, PInt m => Z.eqb n m
  | PStr s, PStr t => String.eqb s t
  | PObj i, PObj j => Nat.eqb i j
  | PList l, PList m =>
      (fix go (l m : list pyval) : bool :=
         match l, m with
         | [], [] => true
         | x :: l', y :: m' => py_eqb x y && go l' m'
         | _, _ => false
         end) l m
  | PDict d, PDict e =>
      Nat.eqb (List.length d) (List.length e) &&
      (fix go (d : dict) : bool :=
         match d with
         | [] => true
         | (k, v) :: d' =>
             match dict_lookup k e with
             | Some w => py_eqb v w && go d'
             | None => false
             end
         end) d
  | _, _ => false
  end.

End Py.
Export Py.

(* ================================================================= *)
(** * [json.dumps] and [json.loads] *)

Module Json.

(** The two exceptions of the encoder. *)
Inductive exn_kind : Type := Type_error | Value_error.

(** The syntax of a JSON text: object members are a list of pairs, in the
    order of the text, and a text may repeat a member name. *)
Inductive json : Type :=
| JNull
| JBool (b : bool)
| JNum (n : Z)
| JStr (s : string)
| JArr (l : list json)
| JObj (m : list (string * json)).

Definition int_str (n : Z) : string := NilZero.string_of_int (Z.to_int n).

(** [sys.get_int_max_str_digits()] of Python 3.11 and later: an [int] of
    more decimal digits is neither written nor read as a decimal
    ([ValueError]). *)
Definition MAX_STR_DIGITS : Z := 4300.

Definition fits (n : Z) : bool := Z.abs n <? 10 ^ MAX_STR_DIGITS.
Arguments fits : simpl never.

(** The encoder coerces the keys of a dict to strings: [str] as it is,
    [True]/[False]/[None] to their JSON spelling, an [int] to its
    decimal; any other key is a [TypeError]. *)
Definition key_str (k : pykey) : option string :=
  match k with
  | KStr s => Some s
  | KBool true => Some "true"
  | KBool false => Some "false"
  | KNone => Some "null"
  | KInt n => if fits n then Some (int_str n) else None
  | KObj _ => None
  end.

(** [json.dumps(v)], up to the concrete spelling of the text; [None]
    stands for the exception of a value that cannot be encoded: the
    [TypeError] of an object that is not serialisable, the [ValueError]
    of an [int] of too many digits. *)
Fixpoint dumps (v : pyval) : option json :=
  match v with
  | PNone => Some JNull
  | PBool b => Some (JBool b)
  | PInt n => if fits n then Some (JNum n) else None
  | PStr s => Some (JStr s)
  | PList l =>
      option_map JArr
        ((fix go (l : list pyval) : option (list json) :=
            match l with
            | [] => Some []
            | x :: l' =>
                match dumps x, go l' with
                | Some j, Some js => Some (j :: js)
                | _, _ => None
                end
            end) l)
  | PDict d =>
      option_map JObj
        ((fix go (d : dict) : option (list (string * json)) :=
            match d with
            | [] => Some []
            | (k, x) :: d' =>
                match key_str k, dumps x, go d' with
                | Some s, Some j, Some m => Some ((s, j) :: m)
                | _, _, _ => None
                end
            end) d)
  | PObj _ => None
  end.

(** [dict(pairs)]: members are inserted in order, a repeated name keeps
    its first position and its last value. *)
Definition dict_of_pairs (m : list (string * pyval)) : dict :=
  fold_left (fun acc kv => dict_set (KStr (fst kv)) (snd kv) acc) m [].

(** The exception of a [json.dumps(v)] that fails: the one of the first
    item, in the order of the encoder, that cannot be encoded. *)
Fixpoint first_error (v : pyval) : option exn_kind :=
  match v with
  | PNone | PBool _ | PStr _ => None
  | PInt n => if fits n then None else Some Value_error
  | PList l =>
      (fix go (l : list pyval) : option exn_kind :=
         match l with
         | [] => None
         | x :: l' =>
             match first_error x with
             | Some e => Some e
             | None => go l'
             end
         end) l
  | PDict d =>
      (fix go (d : dict) : option exn_kind :=
         match d with
         | [] => None
         | (k, x) :: d' =>
             match k with
             | KObj _ => Some Type_error
             | KInt n =>
                 if fits n then
                   match first_error x with
                   | Some e => Some e
                   | None => go d'
                   end
                 else Some Value_error
             | _ =>
                 match first_error x with
                 | Some e => Some e
                 | None => go d'
                 end
             end
         end) d
  | PObj _ => Some Type_error
  end.

(** [json.loads] on a text it accepts. *)
Fixpoint loads (j : json) : pyval :=
  match j with
  | JNull => PNone
  | JBool b => PBool b
  | JNum n => PInt n
  | JStr s => PStr s
  | JArr l => PList (map loads l)
  | JObj m => PDict (dict_of_pairs (map (fun kv => (fst kv, loads (snd kv))) m))
  end.

(** [json.loads] accepts the text: none of its numbers has too many
    digits. *)
Fixpoint parses (j : json) : bool :=
  match j with
  | JNull | JBool _ | JStr _ => true
  | JNum n => fits n
  | JArr l =>
      (fix all (l : list json) : bool :=
         match l with
         | [] => true
         | x :: l' => parses x && all l'
         end) l
  | JObj m =>
      (fix all (m : list (string * json)) : bool :=
         match m with
         | [] => true
         | (_, x) :: m' => parses x && all m'
         end) m
  end.

End Json.

(* ================================================================= *)
(** * Fernet and the vault file *)

Module Fernet.

(** A key is identified by its generation: rotating the key file yields
    a key that differs from every earlier one. *)
Definition key := nat.

(** What [fernet.decrypt(...).decode()] can hand to [json.loads]: a
    well-formed JSON text, or bytes that are not one (undecodable, or
    rejected by the parser). *)
Inductive plaintext : Type :=
| JsonText (j : Json.json)
| NotJson (raw : list Byte.byte).

(** The bytes of a file, seen through Fernet: a token made under some
    key, or anything else. Fernet authenticates its tokens, so a token
    opens only under the key that made it. *)
Inductive filebytes : Type :=
| Token (k : key) (p : plaintext)
| Garbage (raw : list Byte.byte).

Definition encrypt (k : key) (p : plaintext) : filebytes := Token k p.

(** [None] is [InvalidToken]. *)
Definition decrypt (k : key) (c : filebytes) : option plaintext :=
  match c with
  | Token k' p => if Nat.eqb k k' then Some p else None
  | Garbage _ => None
  end.

End Fernet.

(* ================================================================= *)
(** * The running process *)

Module Runtime.

(** Exceptions deriving from [Exception].  [HTTPError],
    [ConnectionError], [ResponseJSONError] (the body of a response is
    not JSON) and [InvalidJSONError] (the body of a request holds a
    number that cannot be written) derive from
    [requests.RequestException]. *)
Inductive exn : Type :=
| KeyError
| IndexError
| TypeError
| AttributeError
| ValueError
| EOFError
| OSError
| InvalidToken
| JSONDecodeError
| HTTPError (status : Z)
| ConnectionError
| ResponseJSONError
| InvalidJSONError
| OverflowError
| RetryError.

Definition is_http_error (e : exn) : bool :=
  match e with HTTPError _ => true | _ => false end.

Definition is_request_exception (e : exn) : bool :=
  match e with
  | HTTPError _ | ConnectionError | ResponseJSONError | InvalidJSONError => true
  | _ => false
  end.

(** Lines printed on the terminal (colour codes and the text of the
    exception left out). *)
Inductive msg : Type :=
| Msg_encryption_error        (* "Encryption error: ..." *)
| Msg_data_load_error         (* "Data load error: ... Resetting data." *)
| Msg_refresh_http_error      (* "HTTP error during token refresh: ..." *)
| Msg_refresh_request_error   (* "Request error during token refresh: ..." *)
| Msg_field_required          (* "Field required!" *)
| Msg_set_credentials_first   (* "Set credentials first in menu 9!" *)
| Msg_auto_refreshed (username : pyval) (* "Token auto-refreshed for ...!" *)
| Msg_oauth_login             (* "=== OAUTH LOGIN ===" *)
| Msg_opening_browser (url_state : string) (* "Opening browser for authorization..." *)
| Msg_state_mismatch          (* "State mismatch in OAuth callback." *)
| Msg_spinner (text : string)
| Msg_login_successful (username : string) (* "Login successful! Welcome, ..." *)
| Msg_oauth_http_error        (* "HTTP error in OAuth: ..." *)
| Msg_oauth_request_error     (* "Request error in OAuth: ..." *)
| Msg_oauth_error             (* "OAuth error: ..." *)
| Msg_logged_out              (* "Logged out." / "Logout berhasil." *)
| Msg_logout_error            (* "Logout error: ..." *)
| Msg_credentials_missing     (* "Required TikTok credentials missing!" *)
| Msg_credentials_saved       (* "Credentials saved!" *)
| Msg_set_credentials_error   (* "Set credentials error: ..." *)
| Msg_text (text : string).

(** What the token endpoint does with one request: the connection fails,
    or a response with a status arrives whose body is a JSON text
    ([Some]) or not ([None]). *)
Inductive reply : Type :=
| NetworkError
| Response (status : Z) (body : option Json.json).

(** The [TCPServer] object of the callback listener, with the two
    attributes the program adds to it. *)
Record server : Type := mkServer {
  socket_open : bool;          (* the listening socket is bound and open *)
  serving : bool;              (* the [serve_forever] thread was started
                                  and [shutdown()] was not called *)
  auth_code : option string;
  auth_state : option string;
  answered : list Z            (* statuses the handler has sent *)
}.

Record world : Type := mkWorld {
  data_file : option Fernet.filebytes; (* DATA_FILE, [None] when absent *)
  disk_ok : bool;              (* DATA_FILE can be opened for writing *)
  fernet : Fernet.key;         (* the module-level [fernet] *)
  clock : Z;                   (* wall clock, in seconds *)
  endpoint : list reply;       (* what the provider will answer, in order *)
  posted : list pyval;         (* bodies of the requests sent so far *)
  slept : list Z;              (* arguments of the [time.sleep] calls *)
  stdin : list string;         (* lines the user will type *)
  stdout : list msg;           (* lines printed so far *)
  port_free : bool;            (* LOCAL_PORT can be bound *)
  httpd : option server;       (* the callback server of the running
                                  login, once it was created *)
  user_data : pyval            (* the dict object bound to the parameter
                                  [user_data] of the running refresh: it
                                  is mutated in place, so retries and the
                                  caller see the writes *)
}.

Definition set_data_file (f : option Fernet.filebytes) (w : world) : world :=
  mkWorld f (disk_ok w) (fernet w) (clock w) (endpoint w) (posted w)
          (slept w) (stdin w) (stdout w) (port_free w) (httpd w) (user_data w).
Definition set_clock (t : Z) (w : world) : world :=
  mkWorld (data_file w) (disk_ok w) (fernet w) t (endpoint w) (posted w)
          (slept w) (stdin w) (stdout w) (port_free w) (httpd w) (user_data w).
Definition set_endpoint (rs : list reply) (w : world) : world :=
  mkWorld (data_file w) (disk_ok w) (fernet w) (clock w) rs (posted w)
          (slept w) (stdin w) (stdout w) (port_free w) (httpd w) (user_data w).
Definition set_posted (ps : list pyval) (w : world) : world :=
  mkWorld (data_file w) (disk_ok w) (fernet w) (clock w) (endpoint w) ps
          (slept w) (stdin w) (stdout w) (port_free w) (httpd w) (user_data w).
Definition set_slept (ds : list Z) (w : world) : world :=
  mkWorld (data_file w) (disk_ok w) (fernet w) (clock w) (endpoint w)
          (posted w) ds (stdin w) (stdout w) (port_free w) (httpd w) (user_data w).
Definition set_stdin (ls : list string) (w : world) : world :=
  mkWorld (data_file w) (disk_ok w) (fernet w) (clock w) (endpoint w)
          (posted w) (slept w) ls (stdout w) (port_free w) (httpd w) (user_data w).
Definition set_stdout (ms : list msg) (w : world) : world :=
  mkWorld (data_file w) (disk_ok w) (fernet w) (clock w) (endpoint w)
          (posted w) (slept w) (stdin w) ms (port_free w) (httpd w) (user_data w).
Definition set_httpd (h : option server) (w : world) : world :=
  mkWorld (data_file w) (disk_ok w) (fernet w) (clock w) (endpoint w)
          (posted w) (slept w) (stdin w) (stdout w) (port_free w) h (user_data w).
Definition set_user_data (v : pyval) (w : world) : world :=
  mkWorld (data_file w) (disk_ok w) (fernet w) (clock w) (endpoint w)
          (posted w) (slept w) (stdin w) (stdout w) (port_free w) (httpd w) v.

(** How a call ends: it returns, an exception propagates, [sys.exit]
    was called ([SystemExit] is not an [Exception]: no handler of the
    program catches it and the interpreter exits with the status), or
    the callback wait was still polling when the fuel ran out. *)
Inductive result (A : Type) : Type :=
| Ok (a : A)
| Raise (e : exn)
| Exit (status : Z)
| Polling.
Arguments Ok {A} a.
Arguments Raise {A} e.
Arguments Exit {A} status.
Arguments Polling {A}.

Definition M (A : Type) : Type := world -> result A * world.

Definition ret {A} (a : A) : M A := fun w => (Ok a, w).

Definition bind {A B} (c : M A) (k : A -> M B) : M B :=
  fun w =>
    match c w with
    | (Ok a, w') => k a w'
    | (Raise e, w') => (Raise e, w')
    | (Exit s, w') => (Exit s, w')
    | (Polling, w') => (Polling, w')
    end.

Declare Scope py_scope.
Delimit Scope py_scope with py.
Notation "x <- c ;; k" := (bind c (fun x => k))
  (at level 61, c at next level, right associativity) : py_scope.
Notation "c ;; k" := (bind c (fun _ => k))
  (at level 61, right associativity) : py_scope.
Local Open Scope py_scope.

Definition raise {A} (e : exn) : M A := fun w => (Raise e, w).
Definition sys_exit {A} (status : Z) : M A := fun w => (Exit status, w).
Definition polling {A} : M A := fun w => (Polling, w).

Definition or_raise {A} (e : exn) (o : option A) : M A :=
  match o with Some a => ret a | None => raise e end.

(** [try: body except ...]: [handler e] is the first clause that matches
    [e], [None] when no clause does.  Every exception of [exn] is an
    [Exception]; [Exit] passes through every clause of the program. *)
Definition try_except {A} (body : M A) (handler : exn -> option (M A)) : M A :=
  fun w =>
    match body w with
    | (Raise e, w') =>
        match handler e with
        | Some h => h w'
        | None => (Raise e, w')
        end
    | other => other
    end.

Definition print (m : msg) : M unit :=
  fun w => (Ok tt, set_stdout (stdout w ++ [m]) w).

Definition now : M Z := fun w => (Ok (clock w), w).

Definition time_sleep (d : Z) : M unit :=
  fun w => (Ok tt, set_slept (slept w ++ [d]) (set_clock (clock w + d) w)).

(** [loading_spinner(msg)]: twenty rounds of four frames, a tenth of a
    second each, then the line with the check mark. *)
Definition loading_spinner (text : string) : M unit :=
  fun w => (Ok tt, set_stdout (stdout w ++ [Msg_spinner text])
                              (set_clock (clock w + 8) w)).

Definition input : M string :=
  fun w =>
    match stdin w with
    | [] => (Raise EOFError, w)
    | l :: ls => (Ok l, set_stdin ls w)
    end.

(** ** The vault file *)

Definition file_exists : M bool :=
  fun w => (Ok (match data_file w with Some _ => true | None => false end), w).

Definition read_file : M Fernet.filebytes :=
  fun w =>
    match data_file w with
    | Some c => (Ok c, w)
    | None => (Raise OSError, w)
    end.

(** [with open(DATA_FILE, 'wb') as f: f.write(c)], and the [os.chmod]
    of [eldoore1.1.py] after it: a save fails at [open], which leaves
    the file as it is, or not at all (a write or a [chmod] that fails
    after the file was opened is not part of the embedding). *)
Definition write_file (c : Fernet.filebytes) : M unit :=
  fun w => if disk_ok w then (Ok tt, set_data_file (Some c) w)
           else (Raise OSError, w).

Definition get_fernet : M Fernet.key := fun w => (Ok (fernet w), w).

(** [json.dumps(data)] *)
Definition json_dumps (data : pyval) : M Json.json :=
  match Json.dumps data with
  | Some j => ret j
  | None =>
      match Json.first_error data with
      | Some Json.Value_error => raise ValueError
      | _ => raise TypeError
      end
  end.

(** [json.loads(text)] *)
Definition json_loads (p : Fernet.plaintext) : M pyval :=
  match p with
  | Fernet.JsonText j =>
      if Json.parses j then ret (Json.loads j) else raise ValueError
  | Fernet.NotJson _ => raise JSONDecodeError
  end.

(** ** The token endpoint *)

(** [requests.post(url, json=payload)]: the payload is encoded, the
    request is sent, the next reply of the provider comes back.  A
    provider with nothing left to say does not answer. *)
Definition requests_post (payload : pyval) : M (Z * option Json.json) :=
  fun w =>
    match Json.dumps payload with
    | None =>
        match Json.first_error payload with
        | Some Json.Value_error => (Raise InvalidJSONError, w)
        | _ => (Raise TypeError, w)
        end
    | Some _ =>
        let w1 := set_posted (posted w ++ [payload]) w in
        match endpoint w with
        | [] => (Raise ConnectionError, w1)
        | NetworkError :: rs => (Raise ConnectionError, set_endpoint rs w1)
        | Response s b :: rs => (Ok (s, b), set_endpoint rs w1)
        end
    end.

(** [resp.raise_for_status()] *)
Definition raise_for_status (resp : Z * option Json.json) : M unit :=
  if (400 <=? fst resp) && (fst resp <? 600) then raise (HTTPError (fst resp))
  else ret tt.

(** [resp.json()] *)
Definition resp_json (resp : Z * option Json.json) : M pyval :=
  match snd resp with
  | Some j => if Json.parses j then ret (Json.loads j) else raise ValueError
  | None => raise ResponseJSONError
  end.

End Runtime.

(* ================================================================= *)
(** * Operations on Python objects *)

Module Builtins.
Import Runtime.
Local Open Scope py_scope.

Definition int_of (v : pyval) : option Z :=
  match v with
  | PInt n => Some n
  | PBool b => Some (if b then 1 else 0)
  | _ => None
  end.

(** The position an integer subscript denotes in a list of [len] items. *)
Definition list_index (n : Z) (len : nat) : option nat :=
  let i := if n <? 0 then n + Z.of_nat len else n in
  if (0 <=? i) && (i <? Z.of_nat len) then Some (Z.to_nat i) else None.

Fixpoint list_put {A} (i : nat) (x : A) (l : list A) : list A :=
  match l, i with
  | [], _ => []
  | _ :: l', O => x :: l'
  | y :: l', S i' => y :: list_put i' x l'
  end.

Fixpoint list_drop_at {A} (i : nat) (l : list A) : list A :=
  match l, i with
  | [], _ => []
  | _ :: l', O => l'
  | y :: l', S i' => y :: list_drop_at i' l'
  end.

(** [o.get(k, dflt)] *)
Definition py_get (o k dflt : pyval) : M pyval :=
  match o with
  | PDict d =>
      key <- or_raise TypeError (as_key k) ;;
      ret (match dict_lookup key d with Some v => v | None => dflt end)
  | _ => raise AttributeError
  end.

(** [o[k]] *)
Definition py_getitem (o k : pyval) : M pyval :=
  match o with
  | PDict d =>
      key <- or_raise TypeError (as_key k) ;;
      or_raise KeyError (dict_lookup key d)
  | PList l =>
      n <- or_raise TypeError (int_of k) ;;
      i <- or_raise IndexError (list_index n (List.length l)) ;;
      or_raise IndexError (nth_error l i)
  | PStr s =>
      n <- or_raise TypeError (int_of k) ;;
      i <- or_raise IndexError (list_index n (String.length s)) ;;
      match String.get i s with
      | Some c => ret (PStr (String c EmptyString))
      | None => raise IndexError
      end
  | _ => raise TypeError
  end.

(** [o[k] = v]; the updated object is returned, since the embedding has
    no references: whoever holds [o] stores the result back. *)
Definition py_setitem (o k v : pyval) : M pyval :=
  match o with
  | PDict d =>
      key <- or_raise TypeError (as_key k) ;;
      ret (PDict (dict_set key v d))
  | PList l =>
      n <- or_raise TypeError (int_of k) ;;
      i <- or_raise IndexError (list_index n (List.length l)) ;;
      ret (PList (list_put i v l))
  | _ => raise TypeError
  end.

(** [del o[k]] *)
Definition py_delitem (o k : pyval) : M pyval :=
  match o with
  | PDict d =>
      key <- or_raise TypeError (as_key k) ;;
      if dict_mem key d then ret (PDict (dict_del key d)) else raise KeyError
  | PList l =>
      n <- or_raise TypeError (int_of k) ;;
      i <- or_raise IndexError (list_index n (List.length l)) ;;
      ret (PList (list_drop_at i l))
  | _ => raise TypeError
  end.

(** [k in o] *)
Definition py_contains (k o : pyval) : M bool :=
  match o with
  | PDict d =>
      key <- or_raise TypeError (as_key k) ;;
      ret (dict_mem key d)
  | PList l => ret (existsb (py_eqb k) l)
  | PStr s =>
      match k with
      | PStr t => ret (match String.index 0 t s with
                       | Some _ => true
                       | None => false
                       end)
      | _ => raise TypeError
      end
  | _ => raise TypeError
  end.

(** [timedelta.max.days] *)
Definition MAX_DELTA_DAYS : Z := 999999999.

(** A [timedelta] of that many seconds exists. *)
Definition timedelta_fits (n : Z) : bool :=
  (- MAX_DELTA_DAYS <=? n / 86400) && (n / 86400 <=? MAX_DELTA_DAYS).

(** [timedelta(seconds=v)], in seconds: an [int] (or a [bool]) within
    the range of [timedelta], [OverflowError] beyond it. *)
Definition timedelta_seconds (v : pyval) : M Z :=
  match int_of v with
  | Some n => if timedelta_fits n then ret n else raise OverflowError
  | None => raise TypeError
  end.

(** The clock counts the seconds since 1970-01-01T00:00:00 of the naive
    local time; [datetime.min] and [datetime.max] on it. *)
Definition DATETIME_MIN : Z := -62135596800.
Definition DATETIME_MAX : Z := 253402300799.

Definition datetime_fits (t : Z) : bool :=
  (DATETIME_MIN <=? t) && (t <=? DATETIME_MAX).

(** [t + delta] on datetimes: [OverflowError] ("date value out of
    range") outside the years 1 to 9999. *)
Definition datetime_add (t delta : Z) : M Z :=
  if datetime_fits (t + delta) then ret (t + delta) else raise OverflowError.

(** ** [tenacity.retry] *)

(** [wait_exponential(multiplier, min, max)] after the given attempt. *)
Definition wait_exponential (multiplier min max : Z) (attempt : nat) : Z :=
  Z.max (Z.max 0 min) (Z.min (multiplier * 2 ^ (Z.of_nat attempt - 1)) max).

(** The decorated function: the body runs; a returned value is returned;
    an exception after the last allowed attempt becomes [RetryError];
    otherwise the wrapper sleeps and runs the body again.  [left] counts
    the attempts still allowed after this one. *)
Fixpoint retry_loop {A} (left attempt : nat) (wait : nat -> Z) (body : M A) : M A :=
  fun w =>
    match body w with
    | (Raise e, w') =>
        match left with
        | O => (Raise RetryError, w')
        | S left' =>
            (time_sleep (wait attempt) ;;
             retry_loop left' (S attempt) wait body) w'
        end
    | other => other
    end.

(** [@retry(stop=stop_after_attempt(n), wait=wait)] *)
Definition retry {A} (n : nat) (wait : nat -> Z) (body : M A) : M A :=
  retry_loop (Nat.pred n) 1 wait body.

End Builtins.

(* ================================================================= *)
(** * [eldoore1.1.py] *)

Module Eldoore.
Import Runtime Builtins.
Local Open Scope py_scope.

Definition MIN_BUDGET : Z := 1790.
Definition LOCAL_PORT : Z := 8000.
Definition REDIRECT_URI : string := "http://localhost:8000/callback".

(** The document [load_data] falls back to. *)
Definition empty_document : pyval :=
  PDict [(KStr "users", PDict []);
         (KStr "analyses", PList []);
         (KStr "creds", PDict []);
         (KStr "current_user", PNone)].

(** [encrypt_data(data)]; the [os.chmod] that follows the write does not
    touch the contents. *)
Definition encrypt_data (data : pyval) : M unit :=
  try_except
    (json_str <- json_dumps data ;;
     k <- get_fernet ;;
     write_file (Fernet.encrypt k (Fernet.JsonText json_str)))
    (fun _ => Some (print Msg_encryption_error ;; sys_exit 1)).

(** [load_data()] *)
Definition load_data : M pyval :=
  present <- file_exists ;;
  if present then
    try_except
      (encrypted <- read_file ;;
       k <- get_fernet ;;
       decrypted <- or_raise InvalidToken (Fernet.decrypt k encrypted) ;;
       json_loads decrypted)
      (fun _ => Some (print Msg_data_load_error ;; ret empty_document))
  else ret empty_document.

(** [get_user_data(username)] *)
Definition get_user_data (username : pyval) : M pyval :=
  data <- load_data ;;
  users <- py_getitem data (PStr "users") ;;
  py_get users username (PDict []).

Section WithLibraries.

(** [str.strip] *)
Variable strip : string -> string.

(** [validate_input(prompt, None, required)]: one iteration per line
    read; the loop ends with the first acceptable line, or with the
    [EOFError] of an exhausted terminal. *)
Fixpoint validate_input_loop (required : bool) (rounds : nat) : M string :=
  match rounds with
  | O => raise EOFError
  | S rounds' =>
      line <- input ;;
      let value := strip line in
      if (required && negb (truthy (PStr value)))%bool
      then print Msg_field_required ;; validate_input_loop required rounds'
      else ret value
  end.

Definition validate_input (required : bool) : M string :=
  fun w => validate_input_loop required (S (List.length (stdin w))) w.

(** [validate_input(prompt, validator, required)] with a validator,
    which is code of the caller. *)
Fixpoint validate_input_with_loop (validator : option (string -> M bool))
    (required : bool) (rounds : nat) : M string :=
  match rounds with
  | O => raise EOFError
  | S rounds' =>
      line <- input ;;
      let value := strip line in
      if (required && negb (truthy (PStr value)))%bool
      then print Msg_field_required ;;
           validate_input_with_loop validator required rounds'
      else
        match validator with
        | Some f =>
            valid <- f value ;;
            if negb valid
            then print (Msg_text "Invalid input!") ;;
                 validate_input_with_loop validator required rounds'
            else ret value
        | None => ret value
        end
  end.

Definition validate_input_with (validator : option (string -> M bool))
    (required : bool) : M string :=
  fun w => validate_input_with_loop validator required (S (List.length (stdin w))) w.

(** [datetime.fromisoformat(s)] as seconds on the program's clock,
    [None] when the string does not denote a naive datetime (the call,
    or the comparison with [datetime.now()], raises), and
    [datetime.isoformat]. *)
Variable fromisoformat : string -> option Z.
Variable isoformat : Z -> string.

(** [os.getenv], fixed once [load_dotenv()] has run. *)
Variable getenv : string -> option string.

Definition datetime_fromisoformat (v : pyval) : M Z :=
  match v with
  | PStr s => or_raise ValueError (fromisoformat s)
  | _ => raise TypeError
  end.

Definition get_arg : M pyval := fun w => (Ok (user_data w), w).

(** [user_data[k] = v] on the caller's dict *)
Definition set_arg_item (k : string) (v : pyval) : M unit :=
  fun w =>
    match py_setitem (user_data w) (PStr k) v w with
    | (Ok ud, w') => (Ok tt, set_user_data ud w')
    | (Raise e, w') => (Raise e, w')
    | (Exit s, w') => (Exit s, w')
    | (Polling, w') => (Polling, w')
    end.

(** The body of [refresh_token_if_needed], without its decorator. *)
Definition refresh_body : M bool :=
  try_except
    (ud <- get_arg ;;
     access_token <- py_get ud (PStr "tiktok_access_token") PNone ;;
     expires_at <- py_get ud (PStr "expires_at") PNone ;;
     if (negb (truthy access_token) || negb (truthy expires_at))%bool
     then ret false
     else
       t <- now ;;
       deadline <- datetime_fromisoformat expires_at ;;
       if t >? deadline then
         refresh_token <- py_get ud (PStr "refresh_token") PNone ;;
         if truthy refresh_token then
           stored <- load_data ;;
           creds <- py_get stored (PStr "creds") (PDict []) ;;
           app_id <- py_get creds (PStr "tiktok_app_id") PNone ;;
           app_secret <- py_get creds (PStr "tiktok_app_secret") PNone ;;
           let exchange_data :=
             PDict [(KStr "client_key", app_id);
                    (KStr "client_secret", app_secret);
                    (KStr "refresh_token", refresh_token);
                    (KStr "grant_type", PStr "refresh_token")] in
           resp <- requests_post exchange_data ;;
           raise_for_status resp ;;
           token_data <- resp_json resp ;;
           new_access <- py_get token_data (PStr "access_token") PNone ;;
           set_arg_item "tiktok_access_token" new_access ;;
           new_refresh <- py_get token_data (PStr "refresh_token") refresh_token ;;
           set_arg_item "refresh_token" new_refresh ;;
           t' <- now ;;
           expires_in <- py_get token_data (PStr "expires_in") (PInt 7200) ;;
           lifetime <- timedelta_seconds expires_in ;;
           expiry <- datetime_add t' lifetime ;;
           set_arg_item "expires_at" (PStr (isoformat expiry)) ;;
           data <- load_data ;;
           ud' <- get_arg ;;
           users <- py_getitem data (PStr "users") ;;
           current <- py_getitem data (PStr "current_user") ;;
           users' <- py_setitem users current ud' ;;
           data' <- py_setitem data (PStr "users") users' ;;
           encrypt_data data' ;;
           ret true
         else ret true
       else ret true)
    (fun e =>
       if is_http_error e
       then Some (print Msg_refresh_http_error ;; ret false)
       else if is_request_exception e
       then Some (print Msg_refresh_request_error ;; ret false)
       else None).

Definition MAX_ATTEMPTS : nat := 3.

(** [refresh_token_if_needed(user_data)], decorated with
    [@retry(stop=stop_after_attempt(3),
            wait=wait_exponential(multiplier=1, min=4, max=10))]. *)
Definition refresh_token_if_needed (ud : pyval) : M bool :=
  fun w => retry MAX_ATTEMPTS (wait_exponential 1 4 10) refresh_body
                 (set_user_data ud w).

(** ** The callback listener *)

(** The [code] and [state] parameters of a request, as [parse_qs] and
    [params.get(..., [None])[0]] give them. *)
Definition query : Type := (option string * option string)%type.

Definition truthy_str (o : option string) : bool :=
  match o with Some s => truthy (PStr s) | None => false end.

(** [OAuthCallbackHandler.do_GET] *)
Definition do_GET (q : query) (srv : server) : server :=
  let (code, state) := q in
  if (truthy_str code && truthy_str state)%bool
  then mkServer (socket_open srv) (serving srv) code state (answered srv ++ [200])
  else mkServer (socket_open srv) (serving srv) (auth_code srv) (auth_state srv)
                (answered srv ++ [400]).

(** [TCPServer.server_close()], which [TCPServer.__exit__] calls. *)
Definition server_close (srv : server) : server :=
  mkServer false (serving srv) (auth_code srv) (auth_state srv) (answered srv).

(** [httpd.shutdown()] *)
Definition shutdown (srv : server) : server :=
  mkServer (socket_open srv) false (auth_code srv) (auth_state srv) (answered srv).

(** [start_local_server()]: the server is built (bound and listening)
    by the [with] statement, gets its two attributes, its serving thread
    is started, and [return httpd] leaves the [with] block, whose
    [__exit__] closes the socket.  The thread has taken no request by
    then: the browser was opened by the statement before the call. *)
Definition start_local_server : M server :=
  fun w =>
    if port_free w then
      let httpd := mkServer true false None None [] in
      let httpd := mkServer (socket_open httpd) true None None (answered httpd) in
      let httpd := server_close httpd in
      (Ok httpd, set_httpd (Some httpd) w)
    else (Raise OSError, w).

(** The requests sent to the port while the caller is not looking: the
    serving thread handles them when the listening socket is open; on
    a closed socket the connections are refused and none reaches the
    handler. *)
Definition deliver (qs : list query) : M unit :=
  fun w =>
    match httpd w with
    | Some srv =>
        if socket_open srv
        then (Ok tt, set_httpd (Some (fold_left (fun s q => do_GET q s) qs srv)) w)
        else (Ok tt, w)
    | None => (Ok tt, w)
    end.

Definition get_httpd : M server :=
  fun w =>
    match httpd w with
    | Some srv => (Ok srv, w)
    | None => (Raise AttributeError, w)
    end.

(** [while not httpd.auth_code: time.sleep(1)].  [arrivals n] are the
    requests sent to the port during the [n]-th sleep. *)
Fixpoint wait_for_code (fuel tick : nat) (arrivals : nat -> list query) : M server :=
  srv <- get_httpd ;;
  if truthy_str (auth_code srv) then ret srv
  else
    match fuel with
    | O => polling
    | S fuel' =>
        time_sleep 1 ;;
        deliver (arrivals tick) ;;
        wait_for_code fuel' (S tick) arrivals
    end.

(** [tiktok_oauth_login()], from the prompt for the username to the end
    of the wait for the callback: the authorization request goes out with
    the username as its [state], the listener is started and polled.
    [arrivals 0] are the requests sent to the port before the first
    look at [httpd.auth_code]. *)
Definition await_callback (fuel : nat) (arrivals : nat -> list query)
    (creds : pyval) : M (string * server) :=
  username <- validate_input true ;;
  print Msg_oauth_login ;;
  let state := username in
  client_key <- py_getitem creds (PStr "tiktok_app_id") ;;
  print (Msg_opening_browser state) ;;
  start_local_server ;;
  deliver (arrivals O) ;;
  srv <- wait_for_code fuel 1 arrivals ;;
  ret (username, srv).

(** [tiktok_oauth_login()], from the check of the callback's state to
    the stored session. *)
Definition complete_login (data creds : pyval) (username : string)
    (srv : server) : M unit :=
  if negb (py_eqb (match auth_state srv with
                   | Some s => PStr s
                   | None => PNone
                   end) (PStr username))
  then print Msg_state_mismatch
  else
    let auth_code := auth_code srv in
    (fun w => (Ok tt, set_httpd (option_map shutdown (httpd w)) w)) ;;
    loading_spinner "Exchanging code..." ;;
    client_key <- py_getitem creds (PStr "tiktok_app_id") ;;
    client_secret <- py_getitem creds (PStr "tiktok_app_secret") ;;
    let exchange_data :=
      PDict [(KStr "client_key", client_key);
             (KStr "client_secret", client_secret);
             (KStr "code", match auth_code with
                           | Some c => PStr c
                           | None => PNone
                           end);
             (KStr "grant_type", PStr "authorization_code");
             (KStr "redirect_uri", PStr REDIRECT_URI)] in
    resp <- requests_post exchange_data ;;
    raise_for_status resp ;;
    token_data <- resp_json resp ;;
    access_token <- py_get token_data (PStr "access_token") PNone ;;
    refresh_token <- py_get token_data (PStr "refresh_token") PNone ;;
    if truthy access_token then
      t <- now ;;
      expires_in <- py_get token_data (PStr "expires_in") (PInt 7200) ;;
      lifetime <- timedelta_seconds expires_in ;;
      expiry <- datetime_add t lifetime ;;
      t' <- now ;;
      let session :=
        PDict [(KStr "tiktok_access_token", access_token);
               (KStr "refresh_token", refresh_token);
               (KStr "expires_at", PStr (isoformat expiry));
               (KStr "tier", PStr "enterprise");
               (KStr "login_time", PStr (isoformat t'))] in
      users <- py_getitem data (PStr "users") ;;
      users' <- py_setitem users (PStr username) session ;;
      data1 <- py_setitem data (PStr "users") users' ;;
      data2 <- py_setitem data1 (PStr "current_user") (PStr username) ;;
      encrypt_data data2 ;;
      print (Msg_login_successful username)
    else ret tt.

(** The three [except] clauses of [tiktok_oauth_login()]. *)
Definition login_handlers (e : exn) : option (M unit) :=
  if is_http_error e then Some (print Msg_oauth_http_error)
  else if is_request_exception e then Some (print Msg_oauth_request_error)
  else Some (print Msg_oauth_error).

(** [tiktok_oauth_login()] *)
Definition tiktok_oauth_login (fuel : nat) (arrivals : nat -> list query) : M unit :=
  data <- load_data ;;
  creds <- py_get data (PStr "creds") (PDict []) ;;
  app_id <- py_get creds (PStr "tiktok_app_id") PNone ;;
  if negb (truthy app_id) then print Msg_set_credentials_first
  else
    current <- py_get data (PStr "current_user") PNone ;;
    refreshed <-
      (if truthy current then
         username <- py_getitem data (PStr "current_user") ;;
         ud <- get_user_data username ;;
         ok <- refresh_token_if_needed ud ;;
         if ok then print (Msg_auto_refreshed username) ;; ret true
         else ret false
       else ret false) ;;
    if (refreshed : bool) then ret tt
    else
      try_except
        (callback <- await_callback fuel arrivals creds ;;
         complete_login data creds (fst callback) (snd callback))
        login_handlers.

(** [logout(username)] *)
Definition logout (username : pyval) : M unit :=
  try_except
    (data <- load_data ;;
     users <- py_getitem data (PStr "users") ;;
     present <- py_contains username users ;;
     data1 <- (if (present : bool) then
                 users' <- py_delitem users username ;;
                 py_setitem data (PStr "users") users'
               else ret data) ;;
     data2 <- py_setitem data1 (PStr "current_user") PNone ;;
     encrypt_data data2 ;;
     print Msg_logged_out)
    (fun _ => Some (print Msg_logout_error)).

(** [os.getenv(name) or validate_input(prompt, required=required)];
    [getpass.getpass] reads a line without stripping it. *)
Definition env_or (name : string) (ask : M string) : M pyval :=
  match getenv name with
  | Some v => if truthy (PStr v) then ret (PStr v)
              else v' <- ask ;; ret (PStr v')
  | None => v' <- ask ;; ret (PStr v')
  end.

(** [set_credentials()] *)
Definition set_credentials : M unit :=
  print (Msg_text "=== SET CREDENTIALS ===") ;;
  try_except
    (data <- load_data ;;
     creds <- py_get data (PStr "creds") (PDict []) ;;
     print (Msg_text "Get from developers.tiktok.com & business.tiktok.com") ;;
     v <- env_or "TIKTOK_APP_ID" (validate_input true) ;;
     creds <- py_setitem creds (PStr "tiktok_app_id") v ;;
     v <- env_or "TIKTOK_APP_SECRET" input ;;
     creds <- py_setitem creds (PStr "tiktok_app_secret") v ;;
     v <- env_or "TIKTOK_ADVERTISER_ID" (validate_input true) ;;
     creds <- py_setitem creds (PStr "tiktok_advertiser_id") v ;;
     v <- env_or "RESEARCH_ACCESS_TOKEN" (validate_input false) ;;
     creds <- py_setitem creds (PStr "research_access_token") v ;;
     v <- env_or "SHOP_APP_ID" (validate_input true) ;;
     creds <- py_setitem creds (PStr "shop_app_id") v ;;
     v <- env_or "SHOP_SECRET" input ;;
     creds <- py_setitem creds (PStr "shop_secret") v ;;
     id <- py_get creds (PStr "tiktok_app_id") PNone ;;
     secret <- py_get creds (PStr "tiktok_app_secret") PNone ;;
     advertiser <- py_get creds (PStr "tiktok_advertiser_id") PNone ;;
     if (negb (truthy id) || negb (truthy secret) || negb (truthy advertiser))%bool
     then print Msg_credentials_missing
     else
       data' <- py_setitem data (PStr "creds") creds ;;
       encrypt_data data' ;;
       print Msg_credentials_saved)
    (fun _ => Some (print Msg_set_credentials_error)).

End WithLibraries.
End Eldoore.

(* ================================================================= *)
(** * [TTKv1.py] *)

Module TTKv1.
Import Runtime Builtins.
Local Open Scope py_scope.

(** The document of a first run. *)
Definition first_run_document : pyval :=
  PDict [(KStr "users", PDict []);
         (KStr "analyses", PList []);
         (KStr "payments", PDict [])].

(** [encrypt_data(data)] *)
Definition encrypt_data (data : pyval) : M unit :=
  json_str <- json_dumps data ;;
  k <- get_fernet ;;
  write_file (Fernet.encrypt k (Fernet.JsonText json_str)).

(** [load_data()] *)
Definition load_data : M pyval :=
  present <- file_exists ;;
  if present then
    encrypted <- read_file ;;
    try_except
      (k <- get_fernet ;;
       decrypted <- or_raise InvalidToken (Fernet.decrypt k encrypted) ;;
       json_loads decrypted)
      (fun _ => Some (ret (PDict [])))
  else ret first_run_document.

(** [get_user_data(username)] *)
Definition get_user_data (username : pyval) : M pyval :=
  data <- load_data ;;
  users <- py_getitem data (PStr "users") ;;
  py_get users username (PDict []).

(** [requests.get(url)] on the provider's user-info endpoint. *)
Definition requests_get (url : string) : M (Z * option Json.json) :=
  fun w =>
    let w1 := set_posted (posted w ++ [PStr url]) w in
    match endpoint w with
    | [] => (Raise ConnectionError, w1)
    | NetworkError :: rs => (Raise ConnectionError, set_endpoint rs w1)
    | Response s b :: rs => (Ok (s, b), set_endpoint rs w1)
    end.

Section WithLibraries.

(** [str.strip] *)
Variable strip : string -> string.

Variable isoformat : Z -> string.

(** The first step of [tiktok_oauth_login()]: the username is asked for
    when the document names no current user, and is written to the
    vault at once. *)
Definition register_username (data : pyval) : M (pyval * pyval) :=
  current <- py_get data (PStr "current_user") PNone ;;
  if negb (truthy current) then
    line <- input ;;
    let username := PStr (strip line) in
    data' <- py_setitem data (PStr "current_user") username ;;
    encrypt_data data' ;;
    ret (username, data')
  else
    username <- py_getitem data (PStr "current_user") ;;
    ret (username, data).

(** [tiktok_oauth_login()] *)
Definition tiktok_oauth_login : M unit :=
  data <- load_data ;;
  creds <- py_get data (PStr "creds") (PDict []) ;;
  app_id <- py_get creds (PStr "tiktok_app_id") PNone ;;
  app_secret <- py_get creds (PStr "tiktok_app_secret") PNone ;;
  if (negb (truthy app_id) || negb (truthy app_secret))%bool
  then print (Msg_text "Set kredensial TikTok dulu di menu 9!")
  else
    named <- register_username data ;;
    let (username, data) := (named : pyval * pyval) in
    print (Msg_text "=== LOGIN TIKTOK OAUTH ===") ;;
    print (Msg_text "Langkah-langkah:") ;;
    print (Msg_text "1. Buka URL berikut di browser Anda.") ;;
    print (Msg_text "2. Login ke akun TikTok Anda.") ;;
    print (Msg_text "3. Salin code authorization dari URL redirect setelah login.") ;;
    print (Msg_text "4. Masukkan code di sini.") ;;
    client_key <- py_getitem creds (PStr "tiktok_app_id") ;;
    print (Msg_text "Buka URL ini") ;;
    input ;;
    line <- input ;;
    let auth_code := strip line in
    if negb (truthy (PStr auth_code))
    then print (Msg_text "Code tidak valid!")
    else
      loading_spinner "Menukar code dengan access token..." ;;
      client_key <- py_getitem creds (PStr "tiktok_app_id") ;;
      client_secret <- py_getitem creds (PStr "tiktok_app_secret") ;;
      let exchange_data :=
        PDict [(KStr "client_key", client_key);
               (KStr "client_secret", client_secret);
               (KStr "code", PStr auth_code);
               (KStr "grant_type", PStr "authorization_code");
               (KStr "redirect_uri", PStr "http://localhost:8000/callback")] in
      try_except
        (resp <- requests_post exchange_data ;;
         raise_for_status resp ;;
         token_data <- resp_json resp ;;
         access_token <- py_get token_data (PStr "access_token") PNone ;;
         if truthy access_token then
           loading_spinner "Memvalidasi token..." ;;
           val_resp <- requests_get "/user/info/" ;;
           if fst val_resp =? 200 then
             t <- now ;;
             let session :=
               PDict [(KStr "tiktok_access_token", access_token);
                      (KStr "tier", PStr "basic");
                      (KStr "login_time", PStr (isoformat t));
                      (KStr "paid", PBool false)] in
             users <- py_getitem data (PStr "users") ;;
             users' <- py_setitem users username session ;;
             data1 <- py_setitem data (PStr "users") users' ;;
             data2 <- py_setitem data1 (PStr "current_user") username ;;
             encrypt_data data2 ;;
             print (Msg_text "Login TikTok OAuth berhasil!")
           else print (Msg_text "Token tidak valid. Periksa kredensial.")
         else print (Msg_text "Gagal mendapatkan token."))
        (fun e =>
           if is_request_exception e then Some (print (Msg_text "Error OAuth"))
           else None).

End WithLibraries.

(** [logout(username)] *)
Definition logout (username : pyval) : M unit :=
  data <- load_data ;;
  users <- py_getitem data (PStr "users") ;;
  present <- py_contains username users ;;
  data1 <- (if (present : bool) then
              users' <- py_delitem users username ;;
              py_setitem data (PStr "users") users'
            else ret data) ;;
  data2 <- py_setitem data1 (PStr "current_user") PNone ;;
  encrypt_data data2 ;;
  print Msg_logged_out.

End TTKv1.

(* ================================================================= *)
(** * [tiktok_kit_cli.py] *)

Module KitCli.
Import Runtime Builtins.
Local Open Scope py_scope.

(** [encrypt_data(data)] *)
Definition encrypt_data (data : pyval) : M unit :=
  json_str <- json_dumps data ;;
  k <- get_fernet ;;
  write_file (Fernet.encrypt k (Fernet.JsonText json_str)).

(** [load_data()] *)
Definition load_data : M pyval :=
  present <- file_exists ;;
  if present then
    encrypted <- read_file ;;
    try_except
      (k <- get_fernet ;;
       decrypted <- or_raise InvalidToken (Fernet.decrypt k encrypted) ;;
       json_loads decrypted)
      (fun _ => Some (ret (PDict [])))
  else ret TTKv1.first_run_document.

(** [get_user_data(username)] *)
Definition get_user_data (username : pyval) : M pyval :=
  data <- load_data ;;
  users <- py_getitem data (PStr "users") ;;
  py_get users username (PDict []).

Section WithLibraries.

(** [str.strip] *)
Variable strip : string -> string.

Variable isoformat : Z -> string.

(** [base64.b64encode(s.encode()).decode()] *)
Variable b64encode : string -> string.

(** [save_token(username, token)] *)
Definition save_token (username token : pyval) : M unit :=
  data <- load_data ;;
  t <- now ;;
  let record :=
    PDict [(KStr "token", token);
           (KStr "tier", PStr "basic");
           (KStr "login_time", PStr (isoformat t));
           (KStr "paid", PBool false)] in
  users <- py_getitem data (PStr "users") ;;
  users' <- py_setitem users username record ;;
  data' <- py_setitem data (PStr "users") users' ;;
  encrypt_data data'.

(** [login()]: the pair it returns is [(None, None)] when the username
    or the password is empty. *)
Definition login : M (pyval * pyval) :=
  print (Msg_text "=== LOGIN ===") ;;
  line <- input ;;
  let username := strip line in
  password <- input ;;
  loading_spinner "Memverifikasi login..." ;;
  if (truthy (PStr username) && truthy (PStr password))%bool then
    let token := b64encode (username ++ ":" ++ password) in
    save_token (PStr username) (PStr token) ;;
    print (Msg_text "Login berhasil!") ;;
    ret (PStr username, PStr token)
  else
    print (Msg_text "Login gagal.") ;;
    ret (PNone, PNone).

End WithLibraries.

(** [logout(username)] *)
Definition logout (username : pyval) : M unit :=
  data <- load_data ;;
  users <- py_getitem data (PStr "users") ;;
  present <- py_contains username users ;;
  (if (present : bool) then
     users' <- py_delitem users username ;;
     data' <- py_setitem data (PStr "users") users' ;;
     encrypt_data data'
   else ret tt) ;;
  print (Msg_text "Logout berhasil.").

(** The line of [main_menu()] that computes [username, token] at the
    start of every round: a pair whose first component is
    [get_user_data("current_user").get("username")] and whose second
    is the conditional expression. *)
Definition menu_session : M (pyval * pyval) :=
  entry <- get_user_data (PStr "current_user") ;;
  username <- py_get entry (PStr "username") PNone ;;
  entry' <- get_user_data (PStr "current_user") ;;
  token <-
    (if truthy entry' then
       entry'' <- get_user_data (PStr "current_user") ;;
       py_get entry'' (PStr "token") PNone
     else ret (PList [PNone; PNone])) ;;
  ret (username, token).

(** Whether [main_menu()] runs the function of a choice that is guarded
    by [and username] (choices 2 to 8). *)
Definition menu_guard (username : pyval) : bool := truthy username.

End KitCli.

(* ================================================================= *)
(** * The key file *)

Module KeyManager.

(** The key file, when it exists, holds a key and has a modification
    time; every call of [Fernet.generate_key()] yields a key that no
    earlier call has yielded, which the count of the calls stands for. *)
Record keystore : Type := mkKeystore {
  key_file : option (Fernet.key * Z);
  generated : nat
}.

(** How the start of the program ends: [fernet] is bound to the key
    read from the file, or the module stops with a [NameError]. *)
Inductive startup : Type :=
| Loaded (k : Fernet.key)
| Name_error.

Definition ROTATION_AGE : Z := 30 * 24 * 3600.

(** [Fernet.generate_key()] written to KEY_FILE at time [t]. *)
Definition write_new_key (t : Z) (ks : keystore) : keystore :=
  mkKeystore (Some (generated ks, t)) (S (generated ks)).

(** [manage_encryption_key()] of [eldoore1.1.py], as line 68 calls it:
    the class [Colors], which the message of the rotation uses, is
    defined three lines below the call. *)
Definition manage_encryption_key (t : Z) (ks : keystore) : startup * keystore :=
  match key_file ks with
  | None =>
      let ks' := write_new_key t ks in
      (Loaded (generated ks), ks')
  | Some (k, mtime) =>
      if t - mtime >? ROTATION_AGE then
        let ks' := write_new_key t (mkKeystore None (generated ks)) in
        (Name_error, ks')
      else (Loaded k, ks)
  end.

(** The start of [TTKv1.py] and of [tiktok_kit_cli.py]: a key is
    generated when the file is missing, and never again. *)
Definition ensure_key (t : Z) (ks : keystore) : startup * keystore :=
  match key_file ks with
  | None =>
      let ks' := write_new_key t ks in
      (Loaded (generated ks), ks')
  | Some (k, _) => (Loaded k, ks)
  end.

(** The keys in the file are keys that were generated. *)
Definition well_formed (ks : keystore) : Prop :=
  forall k t, key_file ks = Some (k, t) -> (k < generated ks)%nat.

End KeyManager.

(* ================================================================= *)
(** * Vocabulary of the properties *)

Module Props.
Import Runtime Builtins.

Definition key_is_str (k : pykey) : bool :=
  match k with KStr _ => true | _ => false end.

(** A dict of the embedding is a Python dict when no key occurs twice. *)
Fixpoint fresh_keys (d : dict) : bool :=
  match d with
  | [] => true
  | (k, _) :: d' => negb (dict_mem k d') && fresh_keys d'
  end.

(** The values that are JSON values as they stand: every dict key is a
    string, every integer can be written as a decimal, and nothing is
    foreign to JSON. *)
Fixpoint json_value (v : pyval) : bool :=
  match v with
  | PNone | PBool _ | PStr _ => true
  | PInt n => Json.fits n
  | PList l =>
      (fix all (l : list pyval) : bool :=
         match l with
         | [] => true
         | x :: l' => json_value x && all l'
         end) l
  | PDict d =>
      fresh_keys d &&
      (fix all (d : dict) : bool :=
         match d with
         | [] => true
         | (k, x) :: d' => key_is_str k && json_value x && all d'
         end) d
  | PObj _ => false
  end.

(** Every entry of a dict has a string for its key and a JSON value for
    its value. *)
Definition clean_entries (d : dict) : bool :=
  forallb (fun kv => key_is_str (fst kv) && json_value (snd kv)) d.

(** The two list traversals inside [Json.dumps], and the one inside
    [Json.loads], under names of their own. *)
Fixpoint dumps_list (l : list pyval) : option (list Json.json) :=
  match l with
  | [] => Some []
  | x :: l' =>
      match Json.dumps x, dumps_list l' with
      | Some j, Some js => Some (j :: js)
      | _, _ => None
      end
  end.

Fixpoint dumps_items (d : dict) : option (list (string * Json.json)) :=
  match d with
  | [] => Some []
  | (k, x) :: d' =>
      match Json.key_str k, Json.dumps x, dumps_items d' with
      | Some s, Some j, Some m => Some ((s, j) :: m)
      | _, _, _ => None
      end
  end.

Definition loads_items (m : list (string * Json.json)) : list (string * pyval) :=
  map (fun kv => (fst kv, Json.loads (snd kv))) m.

Definition as_dict (m : list (string * pyval)) : dict :=
  map (fun kv => (KStr (fst kv), snd kv)) m.

(** ** The callback *)

(** A request that carries both a [code] and a [state]. *)
Definition well_formed (q : Eldoore.query) : bool :=
  (Eldoore.truthy_str (fst q) && Eldoore.truthy_str (snd q))%bool.

(** From the given sleep on, no well-formed callback ever arrives. *)
Definition silent_from (tick : nat) (arrivals : nat -> list Eldoore.query) : Prop :=
  forall n q, (tick <= n)%nat -> In q (arrivals n) -> well_formed q = false.

Definition has_code (srv : server) : bool := Eldoore.truthy_str (auth_code srv).

(** The listener after its handler has served the given requests. *)
Definition handle (qs : list Eldoore.query) (srv : server) : server :=
  fold_left (fun s q => Eldoore.do_GET q s) qs srv.

(** The status the handler answers a request with. *)
Definition status_of (q : Eldoore.query) : Z :=
  if well_formed q then 200 else 400.

(** The last request of [qs] that carries a code and a state. *)
Definition last_well_formed (qs : list Eldoore.query) : option Eldoore.query :=
  fold_left (fun acc q => if well_formed q then Some q else acc) qs None.

(** ** Lines typed at a prompt *)

(** A validator that only looks at the value. *)
Definition checking (p : string -> bool) : string -> M bool :=
  fun value => ret (p value).

(** [validate_input] accepts the line. *)
Definition acceptable (strip : string -> string)
    (validator : option (string -> bool)) (required : bool)
    (line : string) : bool :=
  negb (required && negb (truthy (PStr (strip line)))) &&
  match validator with
  | Some p => p (strip line)
  | None => true
  end.

(** What [validate_input] prints about a line it does not accept. *)
Definition complaint (strip : string -> string) (required : bool)
    (line : string) : msg :=
  if required && negb (truthy (PStr (strip line)))
  then Msg_field_required
  else Msg_text "Invalid input!".

(** ** The stored document *)

(** The document [load_data] of [eldoore1.1.py] returns in this state. *)
Definition stored (w : world) : pyval :=
  match fst (Eldoore.load_data w) with
  | Ok v => v
  | _ => Eldoore.empty_document
  end.

(** The document [load_data] of [TTKv1.py] and of [tiktok_kit_cli.py]
    returns in this state. *)
Definition kit_document (w : world) : pyval :=
  match data_file w with
  | None => TTKv1.first_run_document
  | Some c =>
      match Fernet.decrypt (fernet w) c with
      | Some (Fernet.JsonText j) =>
          if Json.parses j then Json.loads j else PDict []
      | _ => PDict []
      end
  end.

(** No record of the users has a [username] entry. *)
Definition lacks_username (us : dict) : bool :=
  forallb (fun kv => match snd kv with
                     | PDict r => negb (dict_mem (KStr "username") r)
                     | _ => false
                     end) us.

(** The record [save_token] stores at time [t]. *)
Definition token_record (isoformat : Z -> string) (t : Z) (token : pyval) : pyval :=
  PDict [(KStr "token", token);
         (KStr "tier", PStr "basic");
         (KStr "login_time", PStr (isoformat t));
         (KStr "paid", PBool false)].

(** ** Sessions *)

(** [d.get(k)] *)
Definition dget (k : string) (d : dict) : pyval :=
  match dict_lookup (KStr k) d with Some v => v | None => PNone end.

(** The session holds an access token and an expiry that lies before
    [now]. *)
Definition expired_at (fromisoformat : string -> option Z) (now : Z)
    (ud : pyval) : bool :=
  match ud with
  | PDict d =>
      truthy (dget "tiktok_access_token" d) &&
      match dget "expires_at" d with
      | PStr ea =>
          negb (String.eqb ea "") &&
          match fromisoformat ea with
          | Some deadline => deadline <? now
          | None => false
          end
      | _ => false
      end
  | _ => false
  end.

(** The session has no access token or no expiry. *)
Definition lacks_token (ud : pyval) : bool :=
  match ud with
  | PDict d =>
      negb (truthy (dget "tiktok_access_token" d)) ||
      negb (truthy (dget "expires_at" d))
  | _ => false
  end.

(** The session holds an access token and an expiry that [now] has not
    passed. *)
Definition valid_at (fromisoformat : string -> option Z) (now : Z)
    (ud : pyval) : bool :=
  match ud with
  | PDict d =>
      truthy (dget "tiktok_access_token" d) &&
      match dget "expires_at" d with
      | PStr ea =>
          negb (String.eqb ea "") &&
          match fromisoformat ea with
          | Some deadline => now <=? deadline
          | None => false
          end
      | _ => false
      end
  | _ => false
  end.

(** The session holds an access token and an expiry that is a string
    [datetime.fromisoformat] rejects. *)
Definition unreadable_expiry (fromisoformat : string -> option Z)
    (ud : pyval) : bool :=
  match ud with
  | PDict d =>
      truthy (dget "tiktok_access_token" d) &&
      match dget "expires_at" d with
      | PStr ea =>
          negb (String.eqb ea "") &&
          match fromisoformat ea with
          | Some _ => false
          | None => true
          end
      | _ => false
      end
  | _ => false
  end.

Definition has_refresh_token (ud : pyval) : bool :=
  match ud with
  | PDict d => truthy (dget "refresh_token" d)
  | _ => false
  end.

(** The body of the request a refresh of [ud] sends, given the stored
    document; [None] when the credentials cannot be read from it. *)
Definition refresh_request (stored ud : pyval) : option pyval :=
  match stored, ud with
  | PDict doc, PDict d =>
      match (match dict_lookup (KStr "creds") doc with
             | Some c => c
             | None => PDict []
             end) with
      | PDict creds =>
          Some (PDict [(KStr "client_key", dget "tiktok_app_id" creds);
                       (KStr "client_secret", dget "tiktok_app_secret" creds);
                       (KStr "refresh_token", dget "refresh_token" d);
                       (KStr "grant_type", PStr "refresh_token")])
      | _ => None
      end
  | _, _ => None
  end.

(** The body of an answer the program accepts: a response whose status
    is not of the 4xx or 5xx class and whose body is JSON. *)
Definition accepted (r : reply) : option Json.json :=
  match r with
  | Response s (Some j) =>
      if (400 <=? s) && (s <? 600) then None
      else if Json.parses j then Some j else None
  | _ => None
  end.

(** The lifetime an answer declares, 7200 seconds when it declares
    none; [None] when it is not a number. *)
Definition answered_lifetime (td : dict) : option Z :=
  Builtins.int_of (match dict_lookup (KStr "expires_in") td with
                   | Some v => v
                   | None => PInt 7200
                   end).

(** A session that starts at [t] can last that long: the lifetime is a
    [timedelta] and the expiry a [datetime]. *)
Definition lifetime_fits (t lifetime : Z) : bool :=
  Builtins.timedelta_fits lifetime && Builtins.datetime_fits (t + lifetime).

(** The session [d] after a refresh answered by [td] at time [t]. *)
Definition refreshed_session (isoformat : Z -> string) (t : Z)
    (d td : dict) (lifetime : Z) : dict :=
  dict_set (KStr "expires_at") (PStr (isoformat (t + lifetime)))
    (dict_set (KStr "refresh_token")
       (match dict_lookup (KStr "refresh_token") td with
        | Some v => v
        | None => dget "refresh_token" d
        end)
       (dict_set (KStr "tiktok_access_token") (dget "access_token" td) d)).

(** The document [doc] with [session] stored in its [users], which are
    [us], under [key]. *)
Definition with_session (doc us : dict) (key : pykey) (session : pyval) : pyval :=
  PDict (dict_set (KStr "users") (PDict (dict_set key session us)) doc).

(** The document [doc], whose [users] are [us], after the session
    under [key] was dropped and the current user reset. *)
Definition without_session (doc us : dict) (key : pykey) : pyval :=
  PDict (dict_set (KStr "current_user") PNone
           (if dict_mem key us
            then dict_set (KStr "users") (PDict (dict_del key us)) doc
            else doc)).

(** ** The login *)

(** [doc.get("creds", {})] *)
Definition creds_of (doc : dict) : pyval :=
  match dict_lookup (KStr "creds") doc with Some c => c | None => PDict [] end.

(** The provider's next answer is a failure: no connection (or nobody
    there), or a status of the 4xx or 5xx class. *)
Definition transient (r : reply) : bool :=
  match r with
  | NetworkError => true
  | Response s _ => (500 <=? s) && (s <? 600)
  end.

Definition rejected (r : reply) : bool :=
  match r with
  | NetworkError => false
  | Response s _ => (400 <=? s) && (s <? 500)
  end.

Definition next_reply_fails (rs : list reply) : bool :=
  match rs with
  | [] => true
  | r :: _ => transient r || rejected r
  end.


(** ** Starts of the program *)

(** The program is started at each of the given times; the outcome of
    the last start and the key store it leaves. *)
Fixpoint starts (start : Z -> KeyManager.keystore ->
                         KeyManager.startup * KeyManager.keystore)
    (times : list Z) (ks : KeyManager.keystore)
    (last : KeyManager.startup) : KeyManager.startup * KeyManager.keystore :=
  match times with
  | [] => (last, ks)
  | t :: times' =>
      let (outcome, ks') := start t ks in starts start times' ks' outcome
  end.

(** ** Reasoning about runs *)

(** [c] leaves the process state as it found it. *)
Definition pure {A} (c : M A) : Prop := forall w, snd (c w) = w.

(** Every run of [c] relates the state it starts in to the state it
    ends in by [R]. *)
Definition stable (R : world -> world -> Prop) {A} (c : M A) : Prop :=
  forall w, R w (snd (c w)).

(** Every run of [c] satisfies [Q]: start state, result, end state. *)
Definition spec {A} (c : M A) (Q : world -> result A -> world -> Prop) : Prop :=
  forall w, Q w (fst (c w)) (snd (c w)).

(** [a] is a value [c] can return. *)
Definition may_return {A} (c : M A) (a : A) : Prop :=
  exists w, fst (c w) = Ok a.

(** The vault file and the key are what they were. *)
Definition same_vault (w w' : world) : Prop :=
  data_file w' = data_file w /\ fernet w' = fernet w /\ disk_ok w' = disk_ok w.

(** Nothing was sent to the provider and nothing was consumed of what it
    will answer. *)
Definition same_traffic (w w' : world) : Prop :=
  posted w' = posted w /\ endpoint w' = endpoint w.

(** [c] ends by returning or by raising, or ends the process with
    status 1; it neither ends it with another status nor waits. *)
Definition graceful {A} (c : M A) : Prop :=
  forall w, match fst (c w) with
            | Exit s => s = 1
            | Polling => False
            | _ => True
            end.

(** Only the terminal differs. *)
Definition same_but_terminal (w w' : world) : Prop :=
  same_vault w w' /\ same_traffic w w' /\ httpd w' = httpd w /\
  port_free w' = port_free w /\ clock w' = clock w /\ slept w' = slept w.

(** [c] ends the process with status 1 or not at all. *)
Definition orderly {A} (c : M A) : Prop :=
  forall w, match fst (c w) with
            | Exit s => s = 1
            | _ => True
            end.

Definition is_ok {A} (r : result A) : bool :=
  match r with Ok _ => true | _ => false end.

Class Preorder (R : world -> world -> Prop) : Prop := {
  pre_refl : forall w, R w w;
  pre_trans : forall a b c, R a b -> R b c -> R a c
}.

End Props.

(* ================================================================= *)
(** * Sample states and documents *)

Module Samples.
Import Runtime Builtins.

(** A process just started on a machine without a vault: 14 Nov 2023,
    nothing typed, nothing printed, a provider that does not answer. *)
Definition fresh_world : world :=
  mkWorld None true 0%nat 1700000000 [] [] [] [] [] true None PNone.

(** The same with a vault file of seven bytes that are no Fernet token. *)
Definition garbage_world : world :=
  set_data_file
    (Some (Fernet.Garbage
             [Byte.x67; Byte.x61; Byte.x72; Byte.x62; Byte.x61; Byte.x67; Byte.x65]))
    fresh_world.

(** Stand-ins for [datetime.fromisoformat] and [isoformat]: one date is
    read as the instant it denotes, instants are written as their number
    of seconds. *)
Definition sample_fromisoformat (s : string) : option Z :=
  if String.eqb s "2020-01-01T00:00:00" then Some 1577836800 else None.

Definition sample_isoformat (t : Z) : string := Json.int_str t.

(** A stand-in for [str.strip], which it is on strings of ASCII
    characters: the white space of ASCII is removed at both ends. *)
Definition is_space (c : ascii) : bool :=
  let n := nat_of_ascii c in
  (Nat.eqb n 32 || (Nat.leb 9 n && Nat.leb n 13)
   || (Nat.leb 28 n && Nat.leb n 31))%bool.

Fixpoint lstrip (s : string) : string :=
  match s with
  | EmptyString => EmptyString
  | String c s' => if is_space c then lstrip s' else s
  end.

Fixpoint rstrip (s : string) : string :=
  match s with
  | EmptyString => EmptyString
  | String c s' =>
      match rstrip s' with
      | EmptyString => if is_space c then EmptyString else String c EmptyString
      | r => String c r
      end
  end.

Definition sample_strip (s : string) : string := rstrip (lstrip s).

Definition sample_getenv (name : string) : option string := None.

(** A session as the login stores it when the provider sent no refresh
    token, long expired. *)
Definition expired_session : pyval :=
  PDict [(KStr "tiktok_access_token", PStr "T");
         (KStr "refresh_token", PNone);
         (KStr "expires_at", PStr "2020-01-01T00:00:00");
         (KStr "tier", PStr "enterprise");
         (KStr "login_time", PStr "2019-12-31T22:00:00")].

(** The same session with a refresh token. *)
Definition renewable_session : pyval :=
  PDict [(KStr "tiktok_access_token", PStr "T");
         (KStr "refresh_token", PStr "R");
         (KStr "expires_at", PStr "2020-01-01T00:00:00");
         (KStr "tier", PStr "enterprise");
         (KStr "login_time", PStr "2019-12-31T22:00:00")].

Definition sample_creds : pyval :=
  PDict [(KStr "tiktok_app_id", PStr "app");
         (KStr "tiktok_app_secret", PStr "secret");
         (KStr "tiktok_advertiser_id", PStr "adv")].

(** A vault with credentials, two users and nobody logged in. *)
Definition two_users_document : pyval :=
  PDict [(KStr "users", PDict [(KStr "alice", renewable_session);
                               (KStr "bob", expired_session)]);
         (KStr "analyses", PList []);
         (KStr "creds", sample_creds);
         (KStr "current_user", PNone)].

(** A vault with credentials and no user. *)
Definition configured_document : pyval :=
  PDict [(KStr "users", PDict []);
         (KStr "analyses", PList []);
         (KStr "creds", sample_creds);
         (KStr "current_user", PNone)].

(** A document whose [users] has an entry under the key [None]. *)
Definition null_key_document : pyval :=
  PDict [(KStr "users", PDict [(KNone, renewable_session)]);
         (KStr "analyses", PList []);
         (KStr "creds", sample_creds);
         (KStr "current_user", PNone)].

(** The state right after [start_local_server()]. *)
Definition listening_world : world :=
  set_httpd (Some (mkServer false true None None [])) fresh_world.

(** A browser that never comes back, and one that asks for the icon of
    the page every second. *)
Definition no_requests (n : nat) : list Eldoore.query := [].
Definition favicon_requests (n : nat) : list Eldoore.query := [(None, None)].

(** The callback [?code=ABC123&state=bob] during the third sleep. *)
Definition callback_for_bob (n : nat) : list Eldoore.query :=
  match n with
  | 3%nat => [(Some "ABC123", Some "bob")]
  | _ => []
  end.

(** The state in which the vault file holds [doc] under the current key. *)
Definition world_with (doc : pyval) (w : world) : world :=
  match Json.dumps doc with
  | Some j => set_data_file (Some (Fernet.Token (fernet w) (Fernet.JsonText j))) w
  | None => w
  end.

(** A session whose expiry is no date. *)
Definition garbled_session : pyval :=
  PDict [(KStr "tiktok_access_token", PStr "T");
         (KStr "refresh_token", PStr "R");
         (KStr "expires_at", PStr "tomorrow")].

(** A session without an expiry. *)
Definition undated_session : pyval :=
  PDict [(KStr "tiktok_access_token", PStr "T");
         (KStr "refresh_token", PStr "R")].

(** A session that expires in 2286. *)
Definition lasting_session : pyval :=
  PDict [(KStr "tiktok_access_token", PStr "T");
         (KStr "refresh_token", PStr "R");
         (KStr "expires_at", PStr "2286-11-20T17:46:40")].

Definition lenient_fromisoformat (s : string) : option Z :=
  if String.eqb s "2286-11-20T17:46:40" then Some 10000000000
  else sample_fromisoformat s.

(** A vault with two users, [bob] logged in. *)
Definition bob_document : pyval :=
  PDict [(KStr "users", PDict [(KStr "alice", renewable_session);
                               (KStr "bob", expired_session)]);
         (KStr "analyses", PList []);
         (KStr "creds", sample_creds);
         (KStr "current_user", PStr "bob")].

(** The provider answers a refresh with a new access token. *)
Definition token_answer : Json.json :=
  Json.JObj [("access_token", Json.JStr "T2"); ("expires_in", Json.JNum 3600)].

(** The provider is down, and the provider rejects the refresh token. *)
Definition provider_down : list reply := [Response 503 None].
Definition provider_rejects : list reply := [Response 400 None].

(** A vault whose current user has a session with an expiry that is no
    date. *)
Definition garbled_document : pyval :=
  PDict [(KStr "users", PDict [(KStr "carol", garbled_session)]);
         (KStr "analyses", PList []);
         (KStr "creds", sample_creds);
         (KStr "current_user", PStr "carol")].

Definition sample_b64encode (s : string) : string := "b64(" ++ s ++ ")".

(** The user opens the login on a configured vault, types [alice] and
    walks away. *)
Definition abandoned_world : world :=
  set_stdin ["alice"] (world_with configured_document fresh_world).

End Samples.


(* ================================================================= *)
(** * Dicts *)

Module DictFacts.
Local Open Scope list_scope.

Lemma hkey_eqb_eq (a b : hkey) : hkey_eqb a b = true <-> a = b.
Proof.
  destruct a, b; simpl; split; intro H; try discriminate; try reflexivity.
  - apply String.eqb_eq in H. now subst.
  - injection H as ->. apply String.eqb_refl.
  - apply Z.eqb_eq in H. now subst.
  - injection H as ->. apply Z.eqb_refl.
  - apply Nat.eqb_eq in H. now subst.
  - injection H as ->. apply Nat.eqb_refl.
Qed.

Lemma key_eqb_refl (k : pykey) : key_eqb k k = true.
Proof. unfold key_eqb. now apply hkey_eqb_eq. Qed.

Lemma key_eqb_sym (a b : pykey) : key_eqb a b = key_eqb b a.
Proof.
  unfold key_eqb.
  destruct (hkey_eqb (key_norm a) (key_norm b)) eqn:E.
  - apply hkey_eqb_eq in E. rewrite E. symmetry. now apply hkey_eqb_eq.
  - destruct (hkey_eqb (key_norm b) (key_norm a)) eqn:E'; [|reflexivity].
    apply hkey_eqb_eq in E'. rewrite E' in E.
    assert (hkey_eqb (key_norm a) (key_norm a) = true) by now apply hkey_eqb_eq.
    congruence.
Qed.

Lemma key_eqb_trans (a b c : pykey) :
  key_eqb a b = true -> key_eqb b c = true -> key_eqb a c = true.
Proof.
  unfold key_eqb. rewrite !hkey_eqb_eq. congruence.
Qed.

Lemma key_eqb_congr (a b c : pykey) :
  key_eqb a b = true -> key_eqb a c = key_eqb b c.
Proof.
  unfold key_eqb. intros H. apply hkey_eqb_eq in H. now rewrite H.
Qed.

Lemma key_eqb_str (s t : string) : key_eqb (KStr s) (KStr t) = String.eqb s t.
Proof. reflexivity. Qed.

Lemma lookup_set_same k v d : dict_lookup k (dict_set k v d) = Some v.
Proof.
  induction d as [|[k' v'] d IH]; simpl.
  - now rewrite key_eqb_refl.
  - destruct (key_eqb k k') eqn:E; simpl; rewrite E; auto.
Qed.

Lemma lookup_set_other k k' v d :
  key_eqb k' k = false -> dict_lookup k' (dict_set k v d) = dict_lookup k' d.
Proof.
  intros Hne. induction d as [|[k0 v0] d IH]; simpl.
  - now rewrite Hne.
  - destruct (key_eqb k k0) eqn:E; simpl.
    + destruct (key_eqb k' k0) eqn:E'; [|reflexivity].
      rewrite key_eqb_sym in E'.
      assert (key_eqb k k' = true).
      { apply key_eqb_trans with k0; assumption. }
      rewrite key_eqb_sym in H. congruence.
    + destruct (key_eqb k' k0); auto.
Qed.

Lemma lookup_app k (a b : dict) :
  dict_lookup k (a ++ b) =
  match dict_lookup k a with Some v => Some v | None => dict_lookup k b end.
Proof.
  induction a as [|[k0 v0] a IH]; simpl; [reflexivity|].
  destruct (key_eqb k k0); auto.
Qed.

Lemma set_fresh k v d : dict_lookup k d = None -> dict_set k v d = d ++ [(k, v)].
Proof.
  induction d as [|[k0 v0] d IH]; simpl; [reflexivity|].
  destruct (key_eqb k k0); [discriminate|]. intros H. now rewrite IH.
Qed.

Lemma lookup_del_other k k' d :
  key_eqb k' k = false -> dict_lookup k' (dict_del k d) = dict_lookup k' d.
Proof.
  intros Hne. induction d as [|[k0 v0] d IH]; simpl; [reflexivity|].
  destruct (key_eqb k k0) eqn:E; simpl.
  - destruct (key_eqb k' k0) eqn:E'; [|reflexivity].
    assert (key_eqb k' k = true).
    { apply key_eqb_trans with k0; auto. now rewrite key_eqb_sym. }
    congruence.
  - destruct (key_eqb k' k0); auto.
Qed.

End DictFacts.

(* ================================================================= *)
(** * JSON round trip *)

Module JsonFacts.
Import Props DictFacts.
Local Open Scope list_scope.

(** Induction on values, through the lists they nest in. *)
Section PyvalInd.
Variable P : pyval -> Prop.
Hypothesis HNone : P PNone.
Hypothesis HBool : forall b, P (PBool b).
Hypothesis HInt : forall n, P (PInt n).
Hypothesis HStr : forall s, P (PStr s).
Hypothesis HList : forall l, Forall P l -> P (PList l).
Hypothesis HDict : forall d, Forall (fun kv => P (snd kv)) d -> P (PDict d).
Hypothesis HObj : forall i, P (PObj i).

Fixpoint pyval_nested_ind (v : pyval) : P v :=
  match v with
  | PNone => HNone
  | PBool b => HBool b
  | PInt n => HInt n
  | PStr s => HStr s
  | PList l =>
      HList l ((fix go (l : list pyval) : Forall P l :=
                  match l with
                  | [] => Forall_nil _
                  | x :: l' => Forall_cons _ (pyval_nested_ind x) (go l')
                  end) l)
  | PDict d =>
      HDict d ((fix go (d : dict) : Forall (fun kv => P (snd kv)) d :=
                  match d with
                  | [] => Forall_nil _
                  | kv :: d' => Forall_cons _ (pyval_nested_ind (snd kv)) (go d')
                  end) d)
  | PObj i => HObj i
  end.
End PyvalInd.

Lemma dumps_PList l : Json.dumps (PList l) = option_map Json.JArr (dumps_list l).
Proof. reflexivity. Qed.

Lemma dumps_PDict d : Json.dumps (PDict d) = option_map Json.JObj (dumps_items d).
Proof. reflexivity. Qed.

Lemma loads_JObj m :
  Json.loads (Json.JObj m) = PDict (Json.dict_of_pairs (loads_items m)).
Proof. reflexivity. Qed.

Lemma mem_false_in k d :
  dict_mem k d = false -> forall k' v, In (k', v) d -> key_eqb k k' = false.
Proof.
  unfold dict_mem. induction d as [|[k0 v0] d IH]; simpl; intros H k' v Hin.
  - contradiction.
  - destruct (key_eqb k k0) eqn:E; [discriminate|].
    destruct Hin as [Heq|Hin]; [congruence|eauto].
Qed.

Lemma fold_set_fresh (m : list (string * pyval)) :
  forall acc : dict,
    (forall s v, In (s, v) m -> dict_lookup (KStr s) acc = None) ->
    fresh_keys (as_dict m) = true ->
    fold_left (fun acc kv => dict_set (KStr (fst kv)) (snd kv) acc) m acc
    = acc ++ as_dict m.
Proof.
  induction m as [|[s v] m IH]; simpl; intros acc Hacc Hfresh.
  - now rewrite app_nil_r.
  - apply andb_true_iff in Hfresh as [Hs Hfresh].
    apply negb_true_iff in Hs.
    rewrite set_fresh by (apply (Hacc s v); now left).
    rewrite IH; auto.
    + now rewrite <- app_assoc.
    + intros s' v' Hin. rewrite lookup_app, (Hacc s' v') by now right.
      simpl.
      assert (key_eqb (KStr s) (KStr s') = false) as Hne.
      { apply (mem_false_in _ _ Hs (KStr s') v').
        unfold as_dict. apply in_map_iff. now exists (s', v'). }
      rewrite key_eqb_sym in Hne. now rewrite Hne.
Qed.

Lemma dict_of_pairs_fresh m :
  fresh_keys (as_dict m) = true -> Json.dict_of_pairs m = as_dict m.
Proof.
  intros H. unfold Json.dict_of_pairs. rewrite fold_set_fresh; auto.
Qed.

Lemma json_value_PDict_inv d :
  json_value (PDict d) = true ->
  fresh_keys d = true /\
  Forall (fun kv => key_is_str (fst kv) = true /\ json_value (snd kv) = true) d.
Proof.
  simpl. intros H. apply andb_true_iff in H as [Hf H]. split; [assumption|].
  clear Hf. induction d as [|[k x] d IH]; constructor.
  - apply andb_true_iff in H as [H _]. now apply andb_true_iff in H.
  - apply IH. now apply andb_true_iff in H as [_ H].
Qed.

Lemma json_value_PList_inv l :
  json_value (PList l) = true -> Forall (fun x => json_value x = true) l.
Proof.
  simpl. induction l as [|x l IH]; intros H; constructor.
  - now apply andb_true_iff in H as [H _].
  - apply IH. now apply andb_true_iff in H as [_ H].
Qed.

(** A JSON value survives [loads (dumps _)] unchanged. *)
Lemma roundtrip_json_value (v : pyval) :
  json_value v = true -> exists j, Json.dumps v = Some j /\ Json.loads j = v.
Proof.
  induction v as [ | b | n | s | l IH | d IH | i ] using pyval_nested_ind;
    intros Hv; try (eexists; split; reflexivity); try discriminate.
  - cbn [json_value] in Hv. exists (Json.JNum n). cbn [Json.dumps].
    now rewrite Hv.
  - apply json_value_PList_inv in Hv.
    assert (exists js, dumps_list l = Some js /\ map Json.loads js = l) as (js & Hd & Hl).
    { induction l as [|x l IHl]; simpl.
      - now exists [].
      - inversion IH as [|? ? Hx Hrest]; subst.
        inversion Hv as [|? ? Hvx Hvrest]; subst.
        destruct (Hx Hvx) as (j & Hj & Hlj).
        destruct (IHl Hrest Hvrest) as (js & Hjs & Hljs).
        exists (j :: js). rewrite Hj, Hjs. simpl. now rewrite Hlj, Hljs. }
    exists (Json.JArr js). rewrite dumps_PList, Hd. simpl. now rewrite Hl.
  - apply json_value_PDict_inv in Hv as [Hfresh Hv].
    assert (exists m, dumps_items d = Some m /\ as_dict (loads_items m) = d)
      as (m & Hd & Hl).
    { clear Hfresh. induction d as [|[k x] d IHd]; simpl.
      - now exists [].
      - inversion IH as [|? ? Hx Hrest]; subst.
        inversion Hv as [|? ? [Hk Hvx] Hvrest]; subst. simpl in *.
        destruct (Hx Hvx) as (j & Hj & Hlj).
        destruct (IHd Hrest Hvrest) as (m & Hm & Hlm).
        destruct k; try discriminate. simpl.
        exists ((s, j) :: m). rewrite Hj, Hm. simpl. now rewrite Hlj, Hlm. }
    exists (Json.JObj m). rewrite dumps_PDict, Hd. simpl. split; [reflexivity|].
    fold (loads_items m). rewrite dict_of_pairs_fresh; rewrite Hl; auto.
Qed.

(** ** JSON values are closed under what the program does to dicts *)

Lemma json_value_PDict d :
  json_value (PDict d) = fresh_keys d && clean_entries d.
Proof.
  simpl. f_equal. unfold clean_entries.
  induction d as [|[k x] d IH]; simpl; [reflexivity|]. now rewrite IH.
Qed.

Lemma mem_set_other k k' v d :
  key_eqb k' k = false -> dict_mem k' (dict_set k v d) = dict_mem k' d.
Proof. intros H. unfold dict_mem. now rewrite lookup_set_other. Qed.

Lemma fresh_set k v d :
  fresh_keys d = true -> fresh_keys (dict_set k v d) = true.
Proof.
  induction d as [|[k0 v0] d IH]; simpl; intros H; [reflexivity|].
  apply andb_true_iff in H as [Hk Hd].
  destruct (key_eqb k k0) eqn:E; simpl.
  - now rewrite Hk, Hd.
  - rewrite IH by assumption. rewrite andb_true_r.
    rewrite mem_set_other; [assumption|]. now rewrite key_eqb_sym.
Qed.

Lemma mem_del k k' d :
  dict_mem k' d = false -> dict_mem k' (dict_del k d) = false.
Proof.
  unfold dict_mem. induction d as [|[k0 v0] d IH]; simpl; [auto|].
  destruct (key_eqb k' k0) eqn:E'; [discriminate|]. intros H.
  destruct (key_eqb k k0); simpl; [exact H|]. rewrite E'. now apply IH.
Qed.

Lemma fresh_del k d : fresh_keys d = true -> fresh_keys (dict_del k d) = true.
Proof.
  induction d as [|[k0 v0] d IH]; simpl; intros H; [reflexivity|].
  apply andb_true_iff in H as [Hk Hd].
  destruct (key_eqb k k0); simpl; [assumption|].
  rewrite IH by assumption. rewrite andb_true_r.
  apply negb_true_iff. apply mem_del. now apply negb_true_iff.
Qed.

Lemma clean_set s v d :
  json_value v = true -> clean_entries d = true ->
  clean_entries (dict_set (KStr s) v d) = true.
Proof.
  intros Hv. unfold clean_entries.
  induction d as [|[k0 v0] d IH]; simpl; intros H.
  - now rewrite Hv.
  - apply andb_true_iff in H as [H0 Hd]. apply andb_true_iff in H0 as [Hk0 Hv0].
    destruct (key_eqb (KStr s) k0); simpl.
    + now rewrite Hk0, Hv, Hd.
    + now rewrite Hk0, Hv0, IH.
Qed.

Lemma clean_del k d :
  clean_entries d = true -> clean_entries (dict_del k d) = true.
Proof.
  unfold clean_entries. induction d as [|[k0 v0] d IH]; simpl; intros H; [reflexivity|].
  apply andb_true_iff in H as [H0 Hd].
  destruct (key_eqb k k0); simpl; [assumption|]. now rewrite H0, IH.
Qed.

Lemma clean_lookup k d v :
  clean_entries d = true -> dict_lookup k d = Some v -> json_value v = true.
Proof.
  unfold clean_entries. induction d as [|[k0 v0] d IH]; simpl; intros H Hl.
  - discriminate.
  - apply andb_true_iff in H as [H0 Hd]. apply andb_true_iff in H0 as [_ Hv0].
    destruct (key_eqb k k0); [now injection Hl as <-|auto].
Qed.

Lemma json_value_set s v d :
  json_value v = true -> json_value (PDict d) = true ->
  json_value (PDict (dict_set (KStr s) v d)) = true.
Proof.
  rewrite !json_value_PDict. intros Hv H. apply andb_true_iff in H as [Hf Hc].
  now rewrite fresh_set, clean_set.
Qed.

Lemma json_value_del k d :
  json_value (PDict d) = true -> json_value (PDict (dict_del k d)) = true.
Proof.
  rewrite !json_value_PDict. intros H. apply andb_true_iff in H as [Hf Hc].
  now rewrite fresh_del, clean_del.
Qed.

Lemma json_value_lookup k d v :
  json_value (PDict d) = true -> dict_lookup k d = Some v -> json_value v = true.
Proof.
  rewrite json_value_PDict. intros H. apply andb_true_iff in H as [_ Hc].
  now apply clean_lookup.
Qed.

(** Induction on JSON texts, through the lists they nest in. *)
Section JsonInd.
Variable P : Json.json -> Prop.
Hypothesis HNull : P Json.JNull.
Hypothesis HBool : forall b, P (Json.JBool b).
Hypothesis HNum : forall n, P (Json.JNum n).
Hypothesis HStr : forall s, P (Json.JStr s).
Hypothesis HArr : forall l, Forall P l -> P (Json.JArr l).
Hypothesis HObj : forall m, Forall (fun kv => P (snd kv)) m -> P (Json.JObj m).

Fixpoint json_nested_ind (j : Json.json) : P j :=
  match j with
  | Json.JNull => HNull
  | Json.JBool b => HBool b
  | Json.JNum n => HNum n
  | Json.JStr s => HStr s
  | Json.JArr l =>
      HArr l ((fix go (l : list Json.json) : Forall P l :=
                 match l with
                 | [] => Forall_nil _
                 | x :: l' => Forall_cons _ (json_nested_ind x) (go l')
                 end) l)
  | Json.JObj m =>
      HObj m ((fix go (m : list (string * Json.json))
                 : Forall (fun kv => P (snd kv)) m :=
                 match m with
                 | [] => Forall_nil _
                 | kv :: m' => Forall_cons _ (json_nested_ind (snd kv)) (go m')
                 end) m)
  end.
End JsonInd.

Lemma json_value_PList l :
  json_value (PList l) = forallb json_value l.
Proof.
  simpl. induction l as [|x l IH]; simpl; [reflexivity|]. now rewrite IH.
Qed.

Lemma parses_JArr l :
  Json.parses (Json.JArr l) = forallb Json.parses l.
Proof.
  simpl. induction l as [|x l IH]; simpl; [reflexivity|]. now rewrite IH.
Qed.

Lemma parses_JObj m :
  Json.parses (Json.JObj m) = forallb (fun kv => Json.parses (snd kv)) m.
Proof.
  simpl. induction m as [|[s x] m IH]; simpl; [reflexivity|]. now rewrite IH.
Qed.

(** Whatever [json.loads] returns for a text it accepts is a JSON
    value. *)
Lemma loads_json_value (j : Json.json) :
  Json.parses j = true -> json_value (Json.loads j) = true.
Proof.
  induction j as [ | b | n | s | l IH | m IH ] using json_nested_ind;
    intros Hp; try reflexivity.
  - exact Hp.
  - cbn [Json.loads]. rewrite json_value_PList. rewrite parses_JArr in Hp.
    induction l as [|x l IHl]; simpl; [reflexivity|].
    simpl in Hp. apply andb_true_iff in Hp as [Hpx Hpl].
    inversion IH as [|? ? Hx Hl]; subst. now rewrite Hx, IHl.
  - rewrite loads_JObj. unfold Json.dict_of_pairs, loads_items.
    rewrite parses_JObj in Hp.
    assert (forall acc, json_value (PDict acc) = true ->
              json_value
                (PDict (fold_left
                          (fun acc kv => dict_set (KStr (fst kv)) (snd kv) acc)
                          (map (fun kv => (fst kv, Json.loads (snd kv))) m) acc))
              = true) as H.
    { induction m as [|[s x] m IHm]; simpl; intros acc Hacc; [assumption|].
      simpl in Hp. apply andb_true_iff in Hp as [Hpx Hpm].
      inversion IH as [|? ? Hx Hm]; subst. simpl in Hx.
      apply IHm; [assumption|assumption|]. apply json_value_set; auto. }
    now apply H.
Qed.

(** What [json.dumps] writes is a text [json.loads] accepts. *)
Lemma dumps_parses (v : pyval) :
  forall j, Json.dumps v = Some j -> Json.parses j = true.
Proof.
  induction v as [ | b | n | s | l IH | d IH | i ] using pyval_nested_ind;
    intros j Hj; try (injection Hj as <-; reflexivity); try discriminate.
  - cbn [Json.dumps] in Hj. destruct (Json.fits n) eqn:E; [|discriminate].
    injection Hj as <-. exact E.
  - rewrite dumps_PList in Hj.
    destruct (dumps_list l) as [js|] eqn:E; [|discriminate].
    injection Hj as <-. rewrite parses_JArr.
    revert js E. induction l as [|x l IHl]; simpl; intros js E.
    + now injection E as <-.
    + inversion IH as [|? ? Hx Hl]; subst.
      destruct (Json.dumps x) as [jx|] eqn:Ex; [|discriminate].
      destruct (dumps_list l) as [jl|] eqn:El; [|discriminate].
      injection E as <-. simpl. rewrite (Hx jx eq_refl). now apply IHl.
  - rewrite dumps_PDict in Hj.
    destruct (dumps_items d) as [m|] eqn:E; [|discriminate].
    injection Hj as <-. rewrite parses_JObj.
    revert m E. induction d as [|[k x] d IHd]; simpl; intros m E.
    + now injection E as <-.
    + inversion IH as [|? ? Hx Hd]; subst. simpl in Hx.
      destruct (Json.key_str k) as [ks|] eqn:Ek; [|discriminate].
      destruct (Json.dumps x) as [jx|] eqn:Ex; [|discriminate].
      destruct (dumps_items d) as [jm|] eqn:Em; [|discriminate].
      injection E as <-. simpl. rewrite (Hx jx eq_refl). now apply IHd.
Qed.

End JsonFacts.

(* ================================================================= *)
(** * Runs of monadic code *)

Module RunFacts.
Import Runtime Builtins Props.
Local Open Scope list_scope.
Local Open Scope py_scope.

Lemma run_bind {A B} (c : M A) (k : A -> M B) w :
  bind c k w =
  match c w with
  | (Ok a, w') => k a w'
  | (Raise e, w') => (Raise e, w')
  | (Exit s, w') => (Exit s, w')
  | (Polling, w') => (Polling, w')
  end.
Proof. reflexivity. Qed.

(** Unfolding of the monad and of the primitives that only read or
    write fields of the state. *)
Ltac run :=
  cbv beta iota delta
    [bind ret raise sys_exit polling or_raise try_except print now
     time_sleep loading_spinner input file_exists read_file write_file
     get_fernet json_dumps json_loads raise_for_status resp_json].

Ltac run_in H :=
  cbv beta iota delta
    [bind ret raise sys_exit polling or_raise try_except print now
     time_sleep loading_spinner input file_exists read_file write_file
     get_fernet json_dumps json_loads raise_for_status resp_json] in H.

Lemma run_pure {A} (c : M A) w : pure c -> c w = (fst (c w), w).
Proof. intros H. rewrite <- (H w) at 3. now destruct (c w). Qed.

Lemma pure_ret {A} (a : A) : pure (ret a).
Proof. intro w. reflexivity. Qed.

Lemma pure_raise {A} e : pure (@raise A e).
Proof. intro w. reflexivity. Qed.

Lemma pure_or_raise {A} e (o : option A) : pure (or_raise e o).
Proof. destruct o; intro w; reflexivity. Qed.

Lemma pure_bind {A B} (c : M A) (k : A -> M B) :
  pure c -> (forall a, pure (k a)) -> pure (bind c k).
Proof.
  intros Hc Hk w. rewrite run_bind, (run_pure c w Hc).
  destruct (fst (c w)); simpl; auto. apply Hk.
Qed.

Lemma pure_try {A} (c : M A) h :
  pure c -> (forall e, match h e with Some m => pure m | None => True end) ->
  pure (try_except c h).
Proof.
  intros Hc Hh w. unfold try_except. rewrite (run_pure c w Hc).
  destruct (fst (c w)); simpl; auto.
  specialize (Hh e). destruct (h e); simpl; auto.
Qed.

Ltac pure_tac :=
  repeat first
    [ apply pure_ret | apply pure_raise | apply pure_or_raise
    | apply pure_bind; [|intro]
    | match goal with
      | |- pure (match ?x with _ => _ end) => destruct x
      | |- pure (if ?b then _ else _) => destruct b
      end
    | intro; reflexivity ].

Lemma pure_py_get o k d : pure (py_get o k d).
Proof. unfold py_get. pure_tac. Qed.

Lemma pure_py_getitem o k : pure (py_getitem o k).
Proof. unfold py_getitem. pure_tac. Qed.

Lemma pure_py_setitem o k v : pure (py_setitem o k v).
Proof. unfold py_setitem. pure_tac. Qed.

Lemma pure_py_delitem o k : pure (py_delitem o k).
Proof. unfold py_delitem. pure_tac. Qed.

Lemma pure_py_contains k o : pure (py_contains k o).
Proof. unfold py_contains. pure_tac. Qed.

Lemma pure_timedelta_seconds v : pure (timedelta_seconds v).
Proof. unfold timedelta_seconds. pure_tac. Qed.

Lemma pure_json_loads p : pure (json_loads p).
Proof. unfold json_loads. pure_tac. Qed.

Lemma pure_raise_for_status r : pure (raise_for_status r).
Proof. unfold raise_for_status. pure_tac. Qed.

Lemma pure_resp_json r : pure (resp_json r).
Proof. unfold resp_json. pure_tac. Qed.

Lemma pure_now : pure now.
Proof. intro w. reflexivity. Qed.

Lemma pure_file_exists : pure file_exists.
Proof. intro w. reflexivity. Qed.

Lemma pure_read_file : pure read_file.
Proof. intro w. unfold read_file. now destruct (data_file w). Qed.

Lemma pure_get_fernet : pure get_fernet.
Proof. intro w. reflexivity. Qed.

Lemma pure_polling {A} : pure (@polling A).
Proof. intro w. reflexivity. Qed.

Lemma pure_sys_exit {A} s : pure (@sys_exit A s).
Proof. intro w. reflexivity. Qed.

Section Relations.
Context (R : world -> world -> Prop) `{HR : Preorder R}.

Lemma stable_pure {A} (c : M A) : pure c -> stable R c.
Proof. intros H w. rewrite H. apply pre_refl. Qed.

Lemma stable_bind {A B} (c : M A) (k : A -> M B) :
  stable R c -> (forall a, stable R (k a)) -> stable R (bind c k).
Proof.
  intros Hc Hk w. rewrite run_bind. specialize (Hc w).
  destruct (c w) as [[a|e|s|] w1]; simpl in *; auto.
  eapply pre_trans; [exact Hc|apply Hk].
Qed.

Lemma stable_try {A} (c : M A) h :
  stable R c ->
  (forall e, match h e with Some m => stable R m | None => True end) ->
  stable R (try_except c h).
Proof.
  intros Hc Hh w. unfold try_except. specialize (Hc w).
  destruct (c w) as [[a|e|s|] w1]; simpl in *; auto.
  specialize (Hh e). destruct (h e); simpl; auto.
  eapply pre_trans; [exact Hc|apply Hh].
Qed.

(** A stable prefix in front of code with a specification. *)
Lemma spec_after {A B} (c : M A) (k : A -> M B) Q :
  stable R c ->
  (forall a, spec (k a) Q) ->
  (forall w w1 r w2, R w w1 -> Q w1 r w2 -> Q w r w2) ->
  (forall w w1 (r : result B), R w w1 -> is_ok r = false -> Q w r w1) ->
  spec (bind c k) Q.
Proof.
  intros Hc Hk Hl Hf w. rewrite run_bind. specialize (Hc w).
  destruct (c w) as [[a|e|s|] w1]; simpl in *; eauto.
  eapply Hl; [exact Hc|apply Hk].
Qed.
(** The same, with what the prefix returned known to the rest. *)
Lemma spec_bind {A B} (c : M A) (k : A -> M B) Q :
  stable R c ->
  (forall a, may_return c a -> spec (k a) Q) ->
  (forall w w1 r w2, R w w1 -> Q w1 r w2 -> Q w r w2) ->
  (forall w w1 (r : result B), R w w1 -> is_ok r = false -> Q w r w1) ->
  spec (bind c k) Q.
Proof.
  intros Hc Hk Hl Hf w. rewrite run_bind. specialize (Hc w).
  destruct (c w) as [[a|e|s|] w1] eqn:E; simpl in *; eauto.
  eapply Hl; [exact Hc|]. apply Hk. exists w. now rewrite E.
Qed.

Lemma stable_bind_val {A B} (c : M A) (k : A -> M B) :
  stable R c -> (forall a, may_return c a -> stable R (k a)) ->
  stable R (bind c k).
Proof.
  intros Hc Hk w. rewrite run_bind. specialize (Hc w).
  destruct (c w) as [[a|e|s|] w1] eqn:E; simpl in *; auto.
  eapply pre_trans; [exact Hc|]. apply Hk. exists w. now rewrite E.
Qed.

Lemma stable_spec {A} (c : M A) Q :
  stable R c -> (forall w w1 r, R w w1 -> Q w r w1) -> spec c Q.
Proof. intros Hc HQ w. apply HQ, Hc. Qed.

End Relations.

(** [try: ... except ...] with a specification of the body. *)
Lemma spec_try {A} (c : M A) h (Qin Qout : world -> result A -> world -> Prop) :
  spec c Qin ->
  (forall w r w1, Qin w r w1 ->
     match r with
     | Raise e =>
         match h e with
         | Some m => Qout w (fst (m w1)) (snd (m w1))
         | None => Qout w (Raise e) w1
         end
     | _ => Qout w r w1
     end) ->
  spec (try_except c h) Qout.
Proof.
  intros Hc HQ w. unfold try_except. specialize (Hc w). specialize (HQ w).
  destruct (c w) as [r w1]. simpl in *. specialize (HQ r w1 Hc).
  destruct r as [a|e|s|]; auto. destruct (h e); auto.
Qed.

#[export] Instance same_vault_preorder : Preorder same_vault.
Proof.
  split; unfold same_vault.
  - intros; repeat split.
  - intros a b c (H1 & H2 & H3) (H4 & H5 & H6). repeat split; congruence.
Qed.

#[export] Instance same_traffic_preorder : Preorder same_traffic.
Proof.
  split; unfold same_traffic.
  - intros; repeat split.
  - intros a b c (H1 & H2) (H4 & H5). repeat split; congruence.
Qed.

(** Unfolding of everything that is not a loop. *)
Ltac unfold_prims :=
  cbv beta iota delta
    [bind ret raise sys_exit polling or_raise try_except print now
     time_sleep loading_spinner input file_exists read_file write_file
     get_fernet json_dumps json_loads raise_for_status resp_json requests_post
     as_key py_get py_getitem py_setitem py_delitem py_contains
     timedelta_seconds int_of
     Eldoore.get_arg Eldoore.set_arg_item Eldoore.datetime_fromisoformat
     Eldoore.deliver Eldoore.get_httpd Eldoore.start_local_server
     Eldoore.load_data TTKv1.requests_get
     is_http_error is_request_exception negb orb andb].

Ltac split_matches :=
  repeat match goal with
         | |- context [match ?x with _ => _ end] => destruct x
         | |- context [if ?x then _ else _] => destruct x
         end.

(** Stability of a primitive under a relation on the fields of the
    state. *)
Ltac prim_stable R :=
  intro; unfold R; unfold_prims; split_matches; cbn; repeat split; reflexivity.

(** Stability of straight-line code: the structure is followed down to
    the primitives, which the hints of [db] settle. *)
Ltac walk tac :=
  repeat first
    [ apply stable_bind; [|intro]
    | apply stable_try; [|intro; cbn beta iota]
    | match goal with
      | |- stable _ (if ?b then _ else _) => destruct b
      | |- stable _ (match ?x with _ => _ end) => destruct x
      | |- match (if ?b then _ else _) with _ => _ end => destruct b
      | |- match ?h ?e with Some _ => _ | None => True end =>
          unfold h; cbn beta iota
      | |- True => exact I
      end
    | solve [tac] ].

End RunFacts.

(* ================================================================= *)
(** * The vault: [load_data] and [encrypt_data] *)

Module VaultFacts.
Import Runtime Builtins Props Samples RunFacts JsonFacts.
Local Open Scope list_scope.

(** What the vault file holds, as [load_data] of [eldoore1.1.py] reads
    it: nothing usable, or a JSON text. *)
Lemma eldoore_load_absent w :
  data_file w = None ->
  Eldoore.load_data w = (Ok Eldoore.empty_document, w).
Proof.
  intros H. unfold Eldoore.load_data. run. now rewrite H.
Qed.

Lemma eldoore_load_stored w j :
  data_file w = Some (Fernet.Token (fernet w) (Fernet.JsonText j)) ->
  Json.parses j = true ->
  Eldoore.load_data w = (Ok (Json.loads j), w).
Proof.
  intros H Hp. unfold Eldoore.load_data. run. repeat (rewrite H; run).
  unfold Fernet.decrypt. rewrite Nat.eqb_refl. now rewrite Hp.
Qed.

Lemma eldoore_load_unparsed w j :
  data_file w = Some (Fernet.Token (fernet w) (Fernet.JsonText j)) ->
  Json.parses j = false ->
  Eldoore.load_data w =
  (Ok Eldoore.empty_document, set_stdout (stdout w ++ [Msg_data_load_error]) w).
Proof.
  intros H Hp. unfold Eldoore.load_data. run. repeat (rewrite H; run).
  unfold Fernet.decrypt. rewrite Nat.eqb_refl. now rewrite Hp.
Qed.

Lemma eldoore_load_unusable w c :
  data_file w = Some c ->
  (forall j, Fernet.decrypt (fernet w) c <> Some (Fernet.JsonText j)) ->
  Eldoore.load_data w =
  (Ok Eldoore.empty_document, set_stdout (stdout w ++ [Msg_data_load_error]) w).
Proof.
  intros H Hbad. unfold Eldoore.load_data. run. repeat (rewrite H; run).
  destruct (Fernet.decrypt (fernet w) c) as [[j|raw]|] eqn:E; try reflexivity.
  now destruct (Hbad j).
Qed.

(** [load_data] of [eldoore1.1.py] always returns, prints at most its
    warning and touches nothing else. *)
Lemma eldoore_load_cases w :
  (exists v, Eldoore.load_data w = (Ok v, w)) \/
  Eldoore.load_data w =
  (Ok Eldoore.empty_document, set_stdout (stdout w ++ [Msg_data_load_error]) w).
Proof.
  destruct (data_file w) as [c|] eqn:H.
  - destruct (Fernet.decrypt (fernet w) c) as [[j|raw]|] eqn:E.
    + destruct c as [k p|raw]; [|discriminate].
      simpl in E. destruct (Nat.eqb (fernet w) k) eqn:Ek; [|discriminate].
      apply Nat.eqb_eq in Ek. injection E as ->. subst k.
      destruct (Json.parses j) eqn:Hp.
      * left. exists (Json.loads j). now apply eldoore_load_stored.
      * right. now apply eldoore_load_unparsed with j.
    + right. apply eldoore_load_unusable with c; auto. congruence.
    + right. apply eldoore_load_unusable with c; auto. congruence.
  - left. eexists. now apply eldoore_load_absent.
Qed.

Lemma eldoore_load_value w :
  exists w1, Eldoore.load_data w = (Ok (stored w), w1) /\
             (w1 = w \/ w1 = set_stdout (stdout w ++ [Msg_data_load_error]) w).
Proof.
  unfold stored.
  destruct (eldoore_load_cases w) as [[v H]|H]; rewrite H; simpl; eauto.
Qed.

Lemma stored_eq w :
  stored w =
  match data_file w with
  | Some c =>
      match Fernet.decrypt (fernet w) c with
      | Some (Fernet.JsonText j) =>
          if Json.parses j then Json.loads j else Eldoore.empty_document
      | _ => Eldoore.empty_document
      end
  | None => Eldoore.empty_document
  end.
Proof.
  unfold stored. destruct (data_file w) as [c|] eqn:E.
  - destruct (Fernet.decrypt (fernet w) c) as [[j|raw]|] eqn:D.
    + destruct c as [k p|raw]; [|discriminate]. simpl in D.
      destruct (Nat.eqb (fernet w) k) eqn:Ek; [|discriminate].
      apply Nat.eqb_eq in Ek. injection D as ->. subst k.
      destruct (Json.parses j) eqn:Hp.
      * now rewrite (eldoore_load_stored w j E Hp).
      * now rewrite (eldoore_load_unparsed w j E Hp).
    + rewrite (eldoore_load_unusable w c E); [reflexivity|congruence].
    + rewrite (eldoore_load_unusable w c E); [reflexivity|congruence].
  - now rewrite eldoore_load_absent.
Qed.

Lemma stored_same w w' :
  data_file w' = data_file w -> fernet w' = fernet w -> stored w' = stored w.
Proof. intros Hf Hk. now rewrite !stored_eq, Hf, Hk. Qed.

(** The fall-back of [eldoore1.1.py]: a missing file, bytes that are no
    token, a token of another key and a token around something that is
    not JSON all load as the empty document, and no exception leaves
    [load_data]. *)
Lemma eldoore_load_falls_back w :
  (data_file w = None \/
   (exists raw, data_file w = Some (Fernet.Garbage raw)) \/
   (exists k p, data_file w = Some (Fernet.Token k p) /\ k <> fernet w) \/
   (exists raw, data_file w = Some (Fernet.Token (fernet w) (Fernet.NotJson raw)))) ->
  fst (Eldoore.load_data w) = Ok Eldoore.empty_document.
Proof.
  intros [H|[(raw & H)|[(k & p & H & Hk)|(raw & H)]]].
  - now rewrite eldoore_load_absent.
  - rewrite (eldoore_load_unusable w _ H); [reflexivity|]. simpl. congruence.
  - rewrite (eldoore_load_unusable w _ H); [reflexivity|]. simpl.
    destruct (Nat.eqb (fernet w) k) eqn:E; [|congruence].
    apply Nat.eqb_eq in E. congruence.
  - rewrite (eldoore_load_unusable w _ H); [reflexivity|]. simpl.
    rewrite Nat.eqb_refl. congruence.
Qed.

(** The same bytes under [TTKv1.py] and [tiktok_kit_cli.py]: the
    [except] branch returns a dict without any key. *)
Lemma ttkv1_load_unusable w c :
  data_file w = Some c ->
  (forall j, Fernet.decrypt (fernet w) c <> Some (Fernet.JsonText j)) ->
  TTKv1.load_data w = (Ok (PDict []), w) /\ KitCli.load_data w = (Ok (PDict []), w).
Proof.
  intros H Hbad. unfold TTKv1.load_data, KitCli.load_data. run.
  repeat (rewrite H; run).
  destruct (Fernet.decrypt (fernet w) c) as [[j|raw]|] eqn:E; auto.
  now destruct (Hbad j).
Qed.

(** [encrypt_data] of [eldoore1.1.py]: the file is replaced, or the
    process exits with status 1. *)
Lemma eldoore_encrypt_ok data j w :
  Json.dumps data = Some j -> disk_ok w = true ->
  Eldoore.encrypt_data data w =
  (Ok tt, set_data_file (Some (Fernet.Token (fernet w) (Fernet.JsonText j))) w).
Proof.
  intros Hj Hd. unfold Eldoore.encrypt_data. run. rewrite Hj, Hd. reflexivity.
Qed.

Lemma eldoore_encrypt_fails data w :
  Json.dumps data = None \/ disk_ok w = false ->
  Eldoore.encrypt_data data w =
  (Exit 1, set_stdout (stdout w ++ [Msg_encryption_error]) w).
Proof.
  intros H. unfold Eldoore.encrypt_data. run.
  destruct (Json.dumps data) as [j|] eqn:Hj.
  - destruct H as [H|H]; [discriminate|]. now rewrite H.
  - now destruct (Json.first_error data) as [[|]|].
Qed.

Lemma eldoore_encrypt_cases data w :
  (exists j, Json.dumps data = Some j /\ disk_ok w = true /\
     Eldoore.encrypt_data data w =
     (Ok tt, set_data_file (Some (Fernet.Token (fernet w) (Fernet.JsonText j))) w)) \/
  ((Json.dumps data = None \/ disk_ok w = false) /\
   Eldoore.encrypt_data data w =
   (Exit 1, set_stdout (stdout w ++ [Msg_encryption_error]) w)).
Proof.
  destruct (Json.dumps data) as [j|] eqn:Hj.
  - destruct (disk_ok w) eqn:Hd.
    + left. exists j. repeat split; auto. now apply eldoore_encrypt_ok.
    + right. split; [now right|]. apply eldoore_encrypt_fails. now right.
  - right. split; [now left|]. apply eldoore_encrypt_fails. now left.
Qed.

End VaultFacts.

(* ================================================================= *)
(** * Claims about the vault *)

Module Vault.
Import Runtime Builtins Props Samples RunFacts JsonFacts VaultFacts.
Local Open Scope list_scope.

(** C2 (the code at the failing input).  With seven bytes of garbage in
    the vault file, [load_data] of [TTKv1.py] and of [tiktok_kit_cli.py]
    return the dict [{}]: it has no [users] entry, so the next
    [get_user_data] raises [KeyError].  [load_data] of [eldoore1.1.py]
    returns the empty document on the same file. *)
Theorem load_data_of_garbage_has_no_users :
  TTKv1.load_data garbage_world = (Ok (PDict []), garbage_world) /\
  KitCli.load_data garbage_world = (Ok (PDict []), garbage_world) /\
  fst (TTKv1.get_user_data (PStr "alice") garbage_world) = Raise KeyError /\
  fst (Eldoore.load_data garbage_world) = Ok Eldoore.empty_document /\
  fst (Eldoore.get_user_data (PStr "alice") garbage_world) = Ok (PDict []).
Proof. repeat split; reflexivity. Qed.

(** C3 (the claim at a document that [json.dumps] accepts).  The
    document with a session under the key [None] is saved without error
    and loads as a document that is not equal to it: the session comes
    back under the key ["null"]. *)
Lemma null_key_does_not_round_trip :
  Json.dumps null_key_document <> None /\
  exists w1 D',
    Eldoore.encrypt_data null_key_document fresh_world = (Ok tt, w1) /\
    Eldoore.load_data w1 = (Ok D', w1) /\
    py_eqb D' null_key_document = false /\
    py_getitem D' (PStr "users") w1 =
      (Ok (PDict [(KStr "null", renewable_session)]), w1).
Proof.
  split; [discriminate|].
  eexists. eexists. split; [reflexivity|]. split; [reflexivity|].
  split; reflexivity.
Qed.

(** C3 (amended).  A document made of JSON values only - strings as
    dict keys, no key twice, nothing foreign to JSON - is returned by
    [load_data] exactly as [encrypt_data] was given it, when the write
    succeeds and the key is the same. *)
Theorem save_then_load_returns_document (D : pyval) (w : world) :
  json_value D = true ->
  disk_ok w = true ->
  exists w1,
    Eldoore.encrypt_data D w = (Ok tt, w1) /\
    Eldoore.load_data w1 = (Ok D, w1).
Proof.
  intros HD Hdisk.
  destruct (roundtrip_json_value D HD) as (j & Hj & Hl).
  eexists. split.
  - exact (eldoore_encrypt_ok D j w Hj Hdisk).
  - rewrite <- Hl at 1.
    apply eldoore_load_stored; [reflexivity|exact (dumps_parses D j Hj)].
Qed.

Lemma save_then_load_witness :
  json_value two_users_document = true /\
  disk_ok fresh_world = true /\
  exists w1,
    Eldoore.encrypt_data two_users_document fresh_world = (Ok tt, w1) /\
    Eldoore.load_data w1 = (Ok two_users_document, w1).
Proof.
  split; [reflexivity|]. split; [reflexivity|].
  apply (save_then_load_returns_document two_users_document fresh_world);
    reflexivity.
Defined.

End Vault.

(* ================================================================= *)
(** * The callback listener *)

Module Callback.
Import Runtime Builtins Props Samples RunFacts.
Local Open Scope list_scope.

Lemma do_GET_malformed q srv :
  well_formed q = false ->
  auth_code (Eldoore.do_GET q srv) = auth_code srv /\
  auth_state (Eldoore.do_GET q srv) = auth_state srv /\
  serving (Eldoore.do_GET q srv) = serving srv /\
  socket_open (Eldoore.do_GET q srv) = socket_open srv.
Proof.
  destruct q as [code state]. unfold well_formed, Eldoore.do_GET. simpl.
  intros ->. now simpl.
Qed.

Lemma do_GET_well_formed q srv :
  well_formed q = true -> has_code (Eldoore.do_GET q srv) = true.
Proof.
  destruct q as [code state]. unfold well_formed, has_code, Eldoore.do_GET.
  simpl. intros H. rewrite H. simpl. now apply andb_true_iff in H.
Qed.

Lemma do_GET_keeps_code q srv :
  has_code srv = true -> has_code (Eldoore.do_GET q srv) = true.
Proof.
  destruct q as [code state]. unfold has_code, Eldoore.do_GET.
  destruct (Eldoore.truthy_str code && Eldoore.truthy_str state)%bool eqn:E;
    simpl; auto.
  intros _. now apply andb_true_iff in E.
Qed.

Lemma do_GET_serving q srv :
  serving (Eldoore.do_GET q srv) = serving srv /\
  socket_open (Eldoore.do_GET q srv) = socket_open srv.
Proof.
  destruct q as [code state]. unfold Eldoore.do_GET.
  now destruct (Eldoore.truthy_str code && Eldoore.truthy_str state)%bool.
Qed.

Lemma handle_malformed qs srv :
  (forall q, In q qs -> well_formed q = false) ->
  auth_code (handle qs srv) = auth_code srv /\
  serving (handle qs srv) = serving srv.
Proof.
  revert srv. induction qs as [|q qs IH]; simpl; intros srv H; [auto|].
  destruct (IH (Eldoore.do_GET q srv)) as [Hc Hs]; [auto|].
  destruct (do_GET_malformed q srv) as (Hc' & _ & Hs' & _); [auto|].
  split; congruence.
Qed.

Lemma handle_keeps_code qs srv :
  has_code srv = true -> has_code (handle qs srv) = true.
Proof.
  revert srv. induction qs as [|q qs IH]; simpl; intros srv H; [auto|].
  apply IH. now apply do_GET_keeps_code.
Qed.

Lemma handle_well_formed qs q srv :
  In q qs -> well_formed q = true -> has_code (handle qs srv) = true.
Proof.
  revert srv. induction qs as [|q' qs IH]; simpl; intros srv Hin Hq; [contradiction|].
  destruct Hin as [->|Hin].
  - apply handle_keeps_code. now apply do_GET_well_formed.
  - now apply IH.
Qed.

Lemma handle_serving qs srv : serving (handle qs srv) = serving srv.
Proof.
  revert srv. induction qs as [|q qs IH]; simpl; intros srv; [auto|].
  rewrite IH. apply do_GET_serving.
Qed.

Lemma handle_socket qs srv : socket_open (handle qs srv) = socket_open srv.
Proof.
  revert srv. induction qs as [|q qs IH]; simpl; intros srv; [auto|].
  unfold handle in IH. rewrite IH. apply do_GET_serving.
Qed.

(** One round of the loop, when the code is still missing: on an open
    socket the requests of the round are handled, on a closed one none
    is. *)
Lemma wait_step fuel tick arrivals w srv :
  httpd w = Some srv -> has_code srv = false -> socket_open srv = true ->
  Eldoore.wait_for_code (S fuel) tick arrivals w =
  Eldoore.wait_for_code fuel (S tick) arrivals
    (set_httpd (Some (handle (arrivals tick) srv))
       (set_slept (slept w ++ [1]) (set_clock (clock w + 1) w))).
Proof.
  intros Hh Hc Ho. unfold has_code in Hc. simpl.
  unfold Eldoore.get_httpd at 1. run. rewrite Hh. run. rewrite Hc.
  unfold Eldoore.deliver. simpl. rewrite Hh, Ho. reflexivity.
Qed.

Lemma wait_step_closed fuel tick arrivals w srv :
  httpd w = Some srv -> has_code srv = false -> socket_open srv = false ->
  Eldoore.wait_for_code (S fuel) tick arrivals w =
  Eldoore.wait_for_code fuel (S tick) arrivals
    (set_slept (slept w ++ [1]) (set_clock (clock w + 1) w)).
Proof.
  intros Hh Hc Ho. unfold has_code in Hc. simpl.
  unfold Eldoore.get_httpd at 1. run. rewrite Hh. run. rewrite Hc.
  unfold Eldoore.deliver. simpl. rewrite Hh, Ho. reflexivity.
Qed.

Lemma wait_done fuel tick arrivals w srv :
  httpd w = Some srv -> has_code srv = true ->
  Eldoore.wait_for_code fuel tick arrivals w = (Ok srv, w).
Proof.
  intros Hh Hc. unfold has_code in Hc.
  destruct fuel; simpl; unfold Eldoore.get_httpd; run; rewrite Hh; run;
    now rewrite Hc.
Qed.

Lemma wait_out_of_fuel tick arrivals w srv :
  httpd w = Some srv -> has_code srv = false ->
  Eldoore.wait_for_code 0 tick arrivals w = (Polling, w).
Proof.
  intros Hh Hc. unfold has_code in Hc. simpl.
  unfold Eldoore.get_httpd; run; rewrite Hh; run. now rewrite Hc.
Qed.

(** On a closed socket the loop is still polling after any number of
    polls, whatever is sent to the port: it has slept once per poll and
    changed nothing but the clock. *)
Lemma wait_closed arrivals fuel :
  forall tick w srv,
    httpd w = Some srv -> has_code srv = false -> socket_open srv = false ->
    exists w',
      Eldoore.wait_for_code fuel tick arrivals w = (Polling, w') /\
      same_vault w w' /\ same_traffic w w' /\
      stdin w' = stdin w /\ stdout w' = stdout w /\
      clock w' = clock w + Z.of_nat fuel /\
      httpd w' = Some srv.
Proof.
  induction fuel as [|fuel IH]; intros tick w srv Hh Hc Ho.
  - exists w. rewrite (wait_out_of_fuel _ _ _ _ Hh Hc).
    repeat split; auto. simpl. lia.
  - rewrite (wait_step_closed _ _ _ _ _ Hh Hc Ho).
    match goal with
    | |- context [Eldoore.wait_for_code fuel (S tick) arrivals ?w1] =>
        destruct (IH (S tick) w1 srv)
          as (w' & Hrun & (H1 & H2 & H3) & (H4 & H5) & H6 & H7 & H8 & H9)
    end; auto.
    exists w'. rewrite Hrun. simpl in *. repeat split; auto. lia.
Qed.

(** With no well-formed callback the loop is still polling after any
    number of polls; it has slept once per poll and changed nothing but
    the clock. *)
Lemma wait_silent fuel :
  forall tick arrivals w srv,
    httpd w = Some srv -> has_code srv = false ->
    silent_from tick arrivals ->
    exists w',
      Eldoore.wait_for_code fuel tick arrivals w = (Polling, w') /\
      data_file w' = data_file w /\
      clock w' = clock w + Z.of_nat fuel /\
      exists srv', httpd w' = Some srv' /\ has_code srv' = false /\
                   serving srv' = serving srv.
Proof.
  induction fuel as [|fuel IH]; intros tick arrivals w srv Hh Hc Hs.
  - exists w. rewrite (wait_out_of_fuel _ _ _ _ Hh Hc).
    repeat split; try lia. now exists srv.
  - destruct (socket_open srv) eqn:Ho.
    + rewrite (wait_step _ _ _ _ _ Hh Hc Ho).
      destruct (handle_malformed (arrivals tick) srv) as [Hcode Hserv].
      { intros q Hq. apply (Hs tick q); auto. }
      match goal with
      | |- context [Eldoore.wait_for_code fuel (S tick) arrivals ?w1] =>
          destruct (IH (S tick) arrivals w1 (handle (arrivals tick) srv))
            as (w' & Hrun & Hf & Hclock & srv' & Hh' & Hc' & Hs')
      end.
      * reflexivity.
      * unfold has_code. rewrite Hcode. exact Hc.
      * intros n q Hn. apply Hs. lia.
      * exists w'. rewrite Hrun. simpl in *. repeat split; auto; try lia.
        exists srv'. repeat split; auto. congruence.
    + destruct (wait_closed arrivals (S fuel) tick w srv Hh Hc Ho)
        as (w' & Hrun & (H1 & _) & _ & _ & _ & H2 & H3).
      exists w'. split; [exact Hrun|]. split; [exact H1|]. split; [exact H2|].
      exists srv. auto.
Qed.

(** On an open socket a well-formed callback during the [n]-th sleep
    from [tick] on ends the loop within [n + 1] polls. *)
Lemma wait_answered n :
  forall tick arrivals w srv q fuel,
    httpd w = Some srv -> socket_open srv = true ->
    In q (arrivals (tick + n)%nat) -> well_formed q = true ->
    (n < fuel)%nat ->
    exists srv' w',
      Eldoore.wait_for_code fuel tick arrivals w = (Ok srv', w') /\
      has_code srv' = true /\
      data_file w' = data_file w.
Proof.
  induction n as [|n IH]; intros tick arrivals w srv q fuel Hh Ho Hin Hq Hfuel.
  - destruct (has_code srv) eqn:Hc.
    + exists srv, w. now rewrite (wait_done _ _ _ _ _ Hh Hc).
    + destruct fuel as [|fuel]; [lia|].
      rewrite (wait_step _ _ _ _ _ Hh Hc Ho).
      rewrite Nat.add_0_r in Hin.
      assert (has_code (handle (arrivals tick) srv) = true) as Hgot
        by now apply handle_well_formed with q.
      eexists. eexists.
      rewrite wait_done with (srv := handle (arrivals tick) srv);
        [|reflexivity|exact Hgot].
      split; [reflexivity|]. split; [exact Hgot|reflexivity].
  - destruct (has_code srv) eqn:Hc.
    + exists srv, w. now rewrite (wait_done _ _ _ _ _ Hh Hc).
    + destruct fuel as [|fuel]; [lia|].
      rewrite (wait_step _ _ _ _ _ Hh Hc Ho).
      match goal with
      | |- context [Eldoore.wait_for_code fuel (S tick) arrivals ?w1] =>
          destruct (IH (S tick) arrivals w1 (handle (arrivals tick) srv) q fuel)
            as (srv' & w' & Hrun & Hc' & Hf)
      end.
      * reflexivity.
      * now rewrite handle_socket.
      * replace (S tick + n)%nat with (tick + S n)%nat by lia. exact Hin.
      * exact Hq.
      * lia.
      * exists srv', w'. rewrite Hrun. auto.
Qed.

End Callback.

(* ================================================================= *)
(** * Claims about the callback listener *)

Module Listener.
Import Runtime Builtins Props Samples RunFacts Callback.
Local Open Scope list_scope.

(** The server [start_local_server] returns has its socket closed,
    whatever the state it is called in. *)
Lemma start_local_server_socket w srv w' :
  Eldoore.start_local_server w = (Ok srv, w') ->
  socket_open srv = false /\ serving srv = true /\ httpd w' = Some srv.
Proof.
  unfold Eldoore.start_local_server.
  destruct (port_free w); [|discriminate].
  intros H. injection H as <- <-. repeat split.
Qed.

(** C7 (the code at the failing input).  On a fresh process with the
    port free, [start_local_server()] returns a server whose serving
    thread was started and whose listening socket is already closed:
    leaving the [with] block has called [server_close()]. *)
Theorem start_local_server_closes_its_socket :
  exists srv w',
    Eldoore.start_local_server fresh_world = (Ok srv, w') /\
    serving srv = true /\
    socket_open srv = false.
Proof. eexists. eexists. repeat split. Qed.

(** C6 (the claim fails).  The vault is configured, the user types a
    username and walks away.  Whatever the number of polls and whatever
    is sent to the port in the meantime, the login is still polling: it
    has not returned, the listener has not been stopped, the vault file
    is as it was and nothing was sent to the provider. *)
Lemma abandoned_login_never_returns :
  stored abandoned_world = configured_document /\
  stdin abandoned_world = ["alice"] /\
  forall (fuel : nat) (arrivals : nat -> list Eldoore.query),
  exists w',
    Eldoore.tiktok_oauth_login sample_strip sample_fromisoformat
      sample_isoformat fuel arrivals abandoned_world = (Polling, w') /\
    httpd w' = Some (mkServer false true None None []) /\
    data_file w' = data_file abandoned_world /\
    posted w' = [] /\
    clock w' = clock abandoned_world + Z.of_nat fuel.
Proof.
  split; [vm_compute; reflexivity|]. split; [reflexivity|].
  intros fuel arrivals.
  unfold Eldoore.tiktok_oauth_login, Eldoore.await_callback.
  cbv - [Eldoore.wait_for_code Eldoore.complete_login Z.add Z.of_nat].
  match goal with
  | |- context [Eldoore.wait_for_code fuel 1 arrivals ?w] =>
      destruct (wait_closed arrivals fuel 1 w (mkServer false true None None []))
        as (w' & Hrun & (H1 & _) & (H2 & _) & _ & _ & H3 & H4)
  end; try reflexivity.
  rewrite Hrun. exists w'. repeat split; assumption.
Qed.

(** C6 (amended).  The wait has no timeout: while no well-formed
    callback is handled it is still polling after any number of polls.
    It has slept one second per poll, the listener is as it was - it
    has not been stopped - and the vault file is untouched.  (What a
    signal sent to the process does is not part of the statement.) *)
Theorem wait_for_code_has_no_timeout
    (arrivals : nat -> list Eldoore.query) (tick : nat) (w : world) (srv : server) :
  httpd w = Some srv ->
  has_code srv = false ->
  silent_from tick arrivals ->
  forall fuel, exists w',
    Eldoore.wait_for_code fuel tick arrivals w = (Polling, w') /\
    data_file w' = data_file w /\
    clock w' = clock w + Z.of_nat fuel /\
    exists srv', httpd w' = Some srv' /\ has_code srv' = false /\
                 serving srv' = serving srv.
Proof.
  intros Hh Hc Hs fuel. exact (wait_silent fuel tick arrivals w srv Hh Hc Hs).
Qed.

Lemma wait_for_code_witness :
  httpd listening_world = Some (mkServer false true None None []) /\
  has_code (mkServer false true None None []) = false /\
  silent_from 1 favicon_requests /\
  forall fuel, exists w',
    Eldoore.wait_for_code fuel 1 favicon_requests listening_world = (Polling, w') /\
    data_file w' = None /\
    clock w' = 1700000000 + Z.of_nat fuel.
Proof.
  assert (silent_from 1 favicon_requests) as Hs.
  { intros n q _ [<-|[]]. reflexivity. }
  split; [reflexivity|]. split; [reflexivity|]. split; [exact Hs|].
  intros fuel.
  destruct (wait_for_code_has_no_timeout favicon_requests 1 listening_world
              (mkServer false true None None []) eq_refl eq_refl Hs fuel)
    as (w' & Hrun & Hf & Hc & _).
  exists w'. split; [exact Hrun|]. split; [exact Hf|exact Hc].
Defined.

End Listener.

(* ================================================================= *)
(** * [refresh_token_if_needed] *)

Module RefreshFacts.
Import Runtime Builtins Props Samples RunFacts VaultFacts.
Local Open Scope list_scope.

Lemma retry_loop_returned {A} left attempt wait (body : M A) w r w' :
  body w = (r, w') -> (forall e, r <> Raise e) ->
  retry_loop left attempt wait body w = (r, w').
Proof.
  intros H Hr. destruct left; simpl; rewrite H; destruct r; auto;
    now destruct (Hr e).
Qed.

Section WithLibraries.
Variable fromisoformat : string -> option Z.
Variable isoformat : Z -> string.

Lemma refresh_unfold ud w :
  Eldoore.refresh_token_if_needed fromisoformat isoformat ud w =
  retry_loop 2 1 (wait_exponential 1 4 10)
    (Eldoore.refresh_body fromisoformat isoformat) (set_user_data ud w).
Proof. reflexivity. Qed.

Lemma refresh_body_nothing_to_do ud w :
  user_data w = ud ->
  expired_at fromisoformat (clock w) ud = true ->
  has_refresh_token ud = false ->
  Eldoore.refresh_body fromisoformat isoformat w = (Ok true, w).
Proof.
  intros Hud Hexp Hno. destruct ud as [ | | | | |d| ]; try discriminate.
  unfold expired_at, has_refresh_token, dget in *.
  unfold Eldoore.refresh_body. unfold_prims. rewrite Hud. unfold_prims.
  destruct (dict_lookup (KStr "tiktok_access_token") d) as [tok|]; [|discriminate].
  apply andb_true_iff in Hexp as [Htok Hexp]. rewrite Htok.
  destruct (dict_lookup (KStr "expires_at") d) as [[ | | |ea| | | ]|]; try discriminate.
  apply andb_true_iff in Hexp as [Hea Hexp].
  cbn [truthy]. rewrite Hea. unfold_prims.
  destruct (fromisoformat ea) as [deadline|]; [|discriminate].
  unfold_prims. rewrite Z.gtb_ltb, Hexp. unfold_prims.
  destruct (dict_lookup (KStr "refresh_token") d) as [rt|]; rewrite Hno; reflexivity.
Qed.

(** An expired session without a refresh token is reported as fresh. *)
Lemma refresh_nothing_to_do ud w :
  expired_at fromisoformat (clock w) ud = true ->
  has_refresh_token ud = false ->
  Eldoore.refresh_token_if_needed fromisoformat isoformat ud w =
  (Ok true, set_user_data ud w).
Proof.
  intros Hexp Hno. rewrite refresh_unfold.
  apply retry_loop_returned; [|discriminate].
  apply (refresh_body_nothing_to_do ud); auto.
Qed.

Lemma refresh_body_endpoint_fails ud payload w :
  user_data w = ud ->
  expired_at fromisoformat (clock w) ud = true ->
  has_refresh_token ud = true ->
  refresh_request (stored w) ud = Some payload ->
  Json.dumps payload <> None ->
  next_reply_fails (endpoint w) = true ->
  exists w',
    Eldoore.refresh_body fromisoformat isoformat w = (Ok false, w') /\
    posted w' = posted w ++ [payload] /\
    endpoint w' = tl (endpoint w) /\
    slept w' = slept w /\
    same_vault w w' /\
    user_data w' = ud.
Proof.
  intros Hud Hexp Hrt Hreq Hser Hfail.
  destruct ud as [ | | | | |d| ]; try discriminate.
  unfold expired_at, has_refresh_token, dget in *.
  unfold Eldoore.refresh_body.
  cbv beta iota delta [bind ret raise or_raise try_except now as_key py_get
     Eldoore.get_arg Eldoore.datetime_fromisoformat negb orb andb].
  rewrite Hud. cbv beta iota.
  destruct (dict_lookup (KStr "tiktok_access_token") d) as [tok|]; [|discriminate].
  apply andb_true_iff in Hexp as [Htok Hexp]. rewrite Htok.
  destruct (dict_lookup (KStr "expires_at") d) as [[ | | |ea| | | ]|]; try discriminate.
  apply andb_true_iff in Hexp as [Hea Hexp].
  cbn [truthy]. rewrite Hea. cbv beta iota delta [negb orb or_raise ret raise].
  destruct (fromisoformat ea) as [deadline|]; [|discriminate].
  cbv beta iota. rewrite Z.gtb_ltb, Hexp. cbv beta iota.
  rewrite Hrt. cbv beta iota.
  destruct (eldoore_load_value w) as (w1 & Hl & Hw1). rewrite Hl. cbv beta iota.
  unfold refresh_request, dget in Hreq.
  destruct (stored w) as [ | | | | |doc| ]; try discriminate.
  destruct (match dict_lookup (KStr "creds") doc with
            | Some c => c
            | None => PDict []
            end) as [ | | | | |creds| ]; try discriminate.
  injection Hreq as Hreq. rewrite Hreq.
  unfold requests_post.
  destruct (Json.dumps payload) as [j|]; [|now destruct Hser].
  assert (endpoint w1 = endpoint w /\ posted w1 = posted w /\
          slept w1 = slept w /\ same_vault w w1 /\ user_data w1 = PDict d)
    as (He & Hp & Hs & Hv & Hu).
  { destruct Hw1 as [->| ->]; repeat split; auto. }
  rewrite He, Hp.
  destruct (endpoint w) as [|[|s b] rest]; simpl in Hfail.
  - eexists. split; [reflexivity|]. cbn. repeat split; auto; apply Hv.
  - eexists. split; [reflexivity|]. cbn. repeat split; auto; apply Hv.
  - unfold raise_for_status. cbn [fst snd].
    assert ((400 <=? s) && (s <? 600) = true) as Hst.
    { apply orb_true_iff in Hfail as [H|H]; apply andb_true_iff in H as [H1 H2];
        apply andb_true_iff; split; apply Z.leb_le in H1; apply Z.ltb_lt in H2;
        try apply Z.leb_le; try apply Z.ltb_lt; lia. }
    rewrite Hst. cbv beta iota delta [raise is_http_error print bind ret].
    eexists. split; [reflexivity|]. cbn. repeat split; auto; apply Hv.
Qed.

(** A due refresh against a failing endpoint: one request, no sleep, the
    answer [False]. *)
Lemma refresh_endpoint_fails ud payload w :
  expired_at fromisoformat (clock w) ud = true ->
  has_refresh_token ud = true ->
  refresh_request (stored w) ud = Some payload ->
  Json.dumps payload <> None ->
  next_reply_fails (endpoint w) = true ->
  exists w',
    Eldoore.refresh_token_if_needed fromisoformat isoformat ud w = (Ok false, w') /\
    posted w' = posted w ++ [payload] /\
    endpoint w' = tl (endpoint w) /\
    slept w' = slept w /\
    same_vault w w'.
Proof.
  intros Hexp Hrt Hreq Hser Hfail. rewrite refresh_unfold.
  assert (stored (set_user_data ud w) = stored w) as Hst
    by now apply stored_same.
  destruct (refresh_body_endpoint_fails ud payload (set_user_data ud w))
    as (w' & Hrun & Hp & He & Hs & Hv & Hu);
    [reflexivity|exact Hexp|exact Hrt|now rewrite Hst|exact Hser|exact Hfail|].
  exists w'. rewrite (retry_loop_returned _ _ _ _ _ _ _ Hrun); [|discriminate].
  repeat split; auto; apply Hv.
Qed.
End WithLibraries.
End RefreshFacts.

Module RefreshEdges.
Import Runtime Builtins Props Samples RunFacts VaultFacts RefreshFacts.
Local Open Scope list_scope.

Section WithLibraries.
Variable fromisoformat : string -> option Z.
Variable isoformat : Z -> string.

Lemma refresh_body_lacks_token ud w :
  user_data w = ud ->
  lacks_token ud = true ->
  Eldoore.refresh_body fromisoformat isoformat w = (Ok false, w).
Proof.
  intros Hud Hl. destruct ud as [ | | | | |d| ]; try discriminate.
  unfold lacks_token, dget in Hl.
  unfold Eldoore.refresh_body.
  cbv beta iota delta [bind ret raise or_raise try_except now as_key py_get
     Eldoore.get_arg].
  rewrite Hud. cbv beta iota. rewrite Hl. reflexivity.
Qed.

Lemma refresh_body_valid ud w :
  user_data w = ud ->
  valid_at fromisoformat (clock w) ud = true ->
  Eldoore.refresh_body fromisoformat isoformat w = (Ok true, w).
Proof.
  intros Hud Hv. destruct ud as [ | | | | |d| ]; try discriminate.
  unfold valid_at, dget in Hv.
  unfold Eldoore.refresh_body.
  cbv beta iota delta [bind ret raise or_raise try_except now as_key py_get
     Eldoore.get_arg Eldoore.datetime_fromisoformat].
  rewrite Hud. cbv beta iota.
  destruct (dict_lookup (KStr "tiktok_access_token") d) as [tok|]; [|discriminate].
  apply andb_true_iff in Hv as [Htok Hv]. rewrite Htok.
  destruct (dict_lookup (KStr "expires_at") d) as [[ | | |ea| | | ]|]; try discriminate.
  apply andb_true_iff in Hv as [Hea Hv].
  cbn [truthy]. rewrite Hea. cbv beta iota delta [negb orb].
  destruct (fromisoformat ea) as [deadline|]; [|discriminate].
  cbv beta iota.
  assert ((clock w >? deadline) = false) as ->.
  { rewrite Z.gtb_ltb. apply Z.ltb_ge. now apply Z.leb_le. }
  reflexivity.
Qed.

Lemma refresh_body_unreadable ud w :
  user_data w = ud ->
  unreadable_expiry fromisoformat ud = true ->
  Eldoore.refresh_body fromisoformat isoformat w = (Raise ValueError, w).
Proof.
  intros Hud Hv. destruct ud as [ | | | | |d| ]; try discriminate.
  unfold unreadable_expiry, dget in Hv.
  unfold Eldoore.refresh_body.
  cbv beta iota delta [bind ret raise or_raise try_except now as_key py_get
     Eldoore.get_arg Eldoore.datetime_fromisoformat].
  rewrite Hud. cbv beta iota.
  destruct (dict_lookup (KStr "tiktok_access_token") d) as [tok|]; [|discriminate].
  apply andb_true_iff in Hv as [Htok Hv]. rewrite Htok.
  destruct (dict_lookup (KStr "expires_at") d) as [[ | | |ea| | | ]|]; try discriminate.
  apply andb_true_iff in Hv as [Hea Hv].
  cbn [truthy]. rewrite Hea. cbv beta iota delta [negb orb].
  destruct (fromisoformat ea) as [deadline|]; [discriminate|].
  reflexivity.
Qed.

Lemma refresh_unreadable ud w :
  unreadable_expiry fromisoformat ud = true ->
  Eldoore.refresh_token_if_needed fromisoformat isoformat ud w =
  (Raise RetryError,
   set_slept (slept w ++ [4; 4]) (set_clock (clock w + 8) (set_user_data ud w))).
Proof.
  intros Hu. rewrite refresh_unfold. cbn [retry_loop].
  rewrite (refresh_body_unreadable ud (set_user_data ud w) eq_refl Hu).
  cbv beta iota delta [bind time_sleep].
  match goal with
  | |- context [Eldoore.refresh_body _ _ ?w1] =>
      rewrite (refresh_body_unreadable ud w1 eq_refl Hu)
  end.
  cbv beta iota.
  match goal with
  | |- context [Eldoore.refresh_body _ _ ?w1] =>
      rewrite (refresh_body_unreadable ud w1 eq_refl Hu)
  end.
  cbn. rewrite <- app_assoc. cbn.
  replace (clock w + 4 + 4) with (clock w + 8) by lia. reflexivity.
Qed.

End WithLibraries.
End RefreshEdges.

Module RefreshSuccess.
Import Runtime Builtins Props Samples RunFacts VaultFacts RefreshFacts.
Local Open Scope list_scope.

Section WithLibraries.
Variable fromisoformat : string -> option Z.
Variable isoformat : Z -> string.

Lemma load_twice w w1 :
  same_vault w w1 ->
  exists w2, Eldoore.load_data w1 = (Ok (stored w), w2) /\
             (w2 = w1 \/ w2 = set_stdout (stdout w1 ++ [Msg_data_load_error]) w1).
Proof.
  intros (Hf & Hk & _). destruct (eldoore_load_value w1) as (w2 & Hl & Hw).
  rewrite (stored_same w w1 Hf Hk) in Hl. eauto.
Qed.

Lemma refresh_body_succeeds d payload r rest j td lifetime doc us cu key jdoc w :
  user_data w = PDict d ->
  expired_at fromisoformat (clock w) (PDict d) = true ->
  has_refresh_token (PDict d) = true ->
  refresh_request (stored w) (PDict d) = Some payload ->
  Json.dumps payload <> None ->
  endpoint w = r :: rest ->
  accepted r = Some j ->
  Json.loads j = PDict td ->
  answered_lifetime td = Some lifetime ->
  lifetime_fits (clock w) lifetime = true ->
  stored w = PDict doc ->
  dict_lookup (KStr "users") doc = Some (PDict us) ->
  dict_lookup (KStr "current_user") doc = Some cu ->
  as_key cu = Some key ->
  disk_ok w = true ->
  Json.dumps (with_session doc us key
                (PDict (refreshed_session isoformat (clock w) d td lifetime)))
    = Some jdoc ->
  exists w',
    Eldoore.refresh_body fromisoformat isoformat w = (Ok true, w') /\
    data_file w' = Some (Fernet.Token (fernet w) (Fernet.JsonText jdoc)) /\
    user_data w' = PDict (refreshed_session isoformat (clock w) d td lifetime) /\
    posted w' = posted w ++ [payload] /\
    endpoint w' = rest /\
    slept w' = slept w /\
    fernet w' = fernet w.
Proof.
  intros Hud Hexp Hrt Hreq Hser Hend Hacc Hj Hlife Hfit Hst Hus Hcu Hkey Hdisk Hdoc.
  apply andb_true_iff in Hfit as [Hdelta Hdate].
  unfold expired_at, has_refresh_token, dget in *.
  unfold Eldoore.refresh_body.
  cbv beta iota delta [bind ret raise or_raise try_except now as_key py_get
     Eldoore.get_arg Eldoore.datetime_fromisoformat negb orb andb].
  rewrite Hud. cbv beta iota.
  destruct (dict_lookup (KStr "tiktok_access_token") d) as [tok|]; [|discriminate].
  apply andb_true_iff in Hexp as [Htok Hexp]. rewrite Htok.
  destruct (dict_lookup (KStr "expires_at") d) as [[ | | |ea| | | ]|]; try discriminate.
  apply andb_true_iff in Hexp as [Hea Hexp].
  cbn [truthy]. rewrite Hea. cbv beta iota delta [negb orb or_raise ret raise].
  destruct (fromisoformat ea) as [deadline|]; [|discriminate].
  cbv beta iota. rewrite Z.gtb_ltb, Hexp. cbv beta iota.
  rewrite Hrt. cbv beta iota.
  destruct (eldoore_load_value w) as (w1 & Hl & Hw1). rewrite Hl. cbv beta iota.
  unfold refresh_request, dget in Hreq. rewrite Hst in *.
  destruct (match dict_lookup (KStr "creds") doc with
            | Some c => c
            | None => PDict []
            end) as [ | | | | |creds| ]; try discriminate.
  injection Hreq as Hreq. rewrite Hreq.
  unfold requests_post.
  destruct (Json.dumps payload) as [jp|]; [|now destruct Hser].
  assert (endpoint w1 = endpoint w /\ posted w1 = posted w /\
          slept w1 = slept w /\ same_vault w w1 /\ user_data w1 = PDict d /\
          clock w1 = clock w)
    as (He & Hp & Hs & Hv & Hu & Hc).
  { destruct Hw1 as [->| ->]; repeat split; auto. }
  rewrite He, Hp, Hend.
  destruct r as [|s [jb|]]; try discriminate. simpl in Hacc.
  unfold raise_for_status, resp_json. cbn [fst snd].
  destruct ((400 <=? s) && (s <? 600)); [discriminate|].
  destruct (Json.parses jb); [|discriminate].
  injection Hacc as ->.
  cbv beta iota delta [ret raise]. rewrite Hj. cbv beta iota.
  unfold Eldoore.set_arg_item, py_setitem. cbn [as_key].
  cbv beta iota delta [bind ret raise or_raise].
  cbn [user_data set_endpoint set_posted set_user_data]. rewrite Hu.
  cbv beta iota.
  cbn [user_data set_endpoint set_posted set_user_data clock].
  unfold answered_lifetime in Hlife. unfold timedelta_seconds.
  rewrite Hlife. cbv beta iota. rewrite Hdelta.
  cbv beta iota delta [or_raise ret raise datetime_add].
  cbn [user_data set_endpoint set_posted set_user_data clock].
  rewrite Hc, Hdate. cbv beta iota.
  cbn [user_data set_endpoint set_posted set_user_data clock].
  match goal with
  | |- context [Eldoore.load_data ?W] =>
      destruct (load_twice w W) as (w4 & Hl2 & Hw4);
        [ destruct Hv as (Hv1 & Hv2 & Hv3); repeat split; assumption
        | rewrite Hl2;
          assert (same_vault w w4 /\ posted w4 = posted w ++ [payload] /\
                  endpoint w4 = rest /\ slept w4 = slept w /\
                  user_data w4 = user_data W)
            as (Hv4 & Hp4 & He4 & Hs4 & Hu4)
            by (destruct Hv as (Hv1 & Hv2 & Hv3);
                destruct Hw4 as [->| ->]; repeat split; assumption) ]
  end.
  cbn [user_data set_user_data] in Hu4.
  rewrite Hst. unfold py_getitem, py_setitem. cbn [as_key].
  cbv beta iota delta [bind ret raise or_raise].
  rewrite Hus, Hcu. cbv beta iota. rewrite Hkey. cbv beta iota.
  rewrite Hu4.
  unfold with_session, refreshed_session, dget in Hdoc.
  destruct Hv4 as (Hf4 & Hk4 & Hd4).
  rewrite (eldoore_encrypt_ok _ jdoc w4 Hdoc); [|congruence].
  eexists. split; [reflexivity|].
  cbn. unfold refreshed_session, dget. rewrite Hk4.
  repeat split; auto.
Qed.

(** A due refresh that the provider answers stores the refreshed
    session under the key the stored document names as its current
    user. *)
Lemma refresh_succeeds d payload r rest j td lifetime doc us cu key jdoc w :
  expired_at fromisoformat (clock w) (PDict d) = true ->
  has_refresh_token (PDict d) = true ->
  refresh_request (stored w) (PDict d) = Some payload ->
  Json.dumps payload <> None ->
  endpoint w = r :: rest ->
  accepted r = Some j ->
  Json.loads j = PDict td ->
  answered_lifetime td = Some lifetime ->
  lifetime_fits (clock w) lifetime = true ->
  stored w = PDict doc ->
  dict_lookup (KStr "users") doc = Some (PDict us) ->
  dict_lookup (KStr "current_user") doc = Some cu ->
  as_key cu = Some key ->
  disk_ok w = true ->
  Json.dumps (with_session doc us key
                (PDict (refreshed_session isoformat (clock w) d td lifetime)))
    = Some jdoc ->
  exists w',
    Eldoore.refresh_token_if_needed fromisoformat isoformat (PDict d) w
      = (Ok true, w') /\
    data_file w' = Some (Fernet.Token (fernet w) (Fernet.JsonText jdoc)) /\
    user_data w' = PDict (refreshed_session isoformat (clock w) d td lifetime) /\
    posted w' = posted w ++ [payload] /\
    endpoint w' = rest /\
    slept w' = slept w /\
    fernet w' = fernet w.
Proof.
  intros Hexp Hrt Hreq Hser Hend Hacc Hj Hlife Hfit Hst Hus Hcu Hkey Hdisk Hdoc.
  rewrite refresh_unfold.
  assert (stored (set_user_data (PDict d) w) = stored w) as Hsame
    by now apply stored_same.
  destruct (refresh_body_succeeds d payload r rest j td lifetime doc us cu key
              jdoc (set_user_data (PDict d) w))
    as (w' & Hrun & Hrest); try assumption; try reflexivity;
    try (rewrite Hsame; assumption).
  exists w'. rewrite (retry_loop_returned _ _ _ _ _ _ _ Hrun); [|discriminate].
  split; [reflexivity|exact Hrest].
Qed.
End WithLibraries.
End RefreshSuccess.

(* ================================================================= *)
(** * The stored document *)

Module StoredFacts.
Import Runtime Builtins Props Samples RunFacts JsonFacts VaultFacts DictFacts.
Local Open Scope list_scope.

Lemma stored_json_value w : json_value (stored w) = true.
Proof.
  rewrite stored_eq. destruct (data_file w) as [c|]; [|reflexivity].
  destruct (Fernet.decrypt (fernet w) c) as [[j|raw]|]; try reflexivity.
  destruct (Json.parses j) eqn:Hp; [|reflexivity].
  now apply loads_json_value.
Qed.

Lemma accepted_parses r j : accepted r = Some j -> Json.parses j = true.
Proof.
  destruct r as [|s [b|]]; simpl; try discriminate.
  destruct ((400 <=? s) && (s <? 600)); [discriminate|].
  destruct (Json.parses b) eqn:Hp; [|discriminate].
  intros H. now injection H as <-.
Qed.

Lemma json_value_dget k d :
  json_value (PDict d) = true -> json_value (dget k d) = true.
Proof.
  intros H. unfold dget. destruct (dict_lookup (KStr k) d) eqn:E; [|reflexivity].
  now apply (json_value_lookup (KStr k) d).
Qed.

Lemma json_value_dumps v : json_value v = true -> Json.dumps v <> None.
Proof.
  intros H. destruct (roundtrip_json_value v H) as (j & Hj & _). congruence.
Qed.

Lemma stored_of_token w j :
  data_file w = Some (Fernet.Token (fernet w) (Fernet.JsonText j)) ->
  Json.parses j = true ->
  stored w = Json.loads j.
Proof.
  intros H Hp. rewrite stored_eq, H. simpl. now rewrite Nat.eqb_refl, Hp.
Qed.

(** [get_user_data] on a document with users. *)
Lemma get_user_data_of_stored username key doc us w :
  stored w = PDict doc ->
  dict_lookup (KStr "users") doc = Some (PDict us) ->
  as_key username = Some key ->
  fst (Eldoore.get_user_data username w) =
  Ok (match dict_lookup key us with Some v => v | None => PDict [] end).
Proof.
  intros Hst Hus Hkey.
  destruct (eldoore_load_value w) as (w1 & Hload & _).
  unfold Eldoore.get_user_data. rewrite run_bind, Hload, Hst.
  unfold py_getitem, py_get. cbn [as_key]. run. rewrite Hus. run.
  rewrite Hkey. reflexivity.
Qed.

Lemma mem_false_lookup k d : dict_mem k d = false -> dict_lookup k d = None.
Proof. unfold dict_mem. now destruct (dict_lookup k d). Qed.

Lemma lookup_congr a b d :
  key_eqb a b = true -> dict_lookup a d = dict_lookup b d.
Proof.
  intros H. induction d as [|[k v] d IH]; simpl; [reflexivity|].
  rewrite (key_eqb_congr a b k H). now rewrite IH.
Qed.

Lemma lookup_del_same k d :
  fresh_keys d = true -> dict_lookup k (dict_del k d) = None.
Proof.
  induction d as [|[k0 v0] d IH]; simpl; intros H; [reflexivity|].
  apply andb_true_iff in H as [Hk Hd].
  destruct (key_eqb k k0) eqn:E; simpl.
  - rewrite (lookup_congr k k0 d E). apply mem_false_lookup.
    now apply negb_true_iff.
  - rewrite E. now apply IH.
Qed.

End StoredFacts.

(* ================================================================= *)
(** * Properties of [refresh_token_if_needed] *)

Module Refresh.
Import Runtime Builtins Props Samples RunFacts JsonFacts VaultFacts DictFacts.
Import RefreshFacts RefreshEdges RefreshSuccess StoredFacts.
Local Open Scope list_scope.

(** X1.  An expired session without a refresh token is reported as
    fresh: the call returns [True] and neither contacts the provider nor
    touches the vault, sleeps or prints. *)
Theorem expired_session_without_refresh_token_counts_as_fresh
    (fromisoformat : string -> option Z) (isoformat : Z -> string)
    (ud : pyval) (w : world) :
  expired_at fromisoformat (clock w) ud = true ->
  has_refresh_token ud = false ->
  Eldoore.refresh_token_if_needed fromisoformat isoformat ud w =
  (Ok true, set_user_data ud w).
Proof. intros. now apply refresh_nothing_to_do. Qed.

Lemma expired_session_without_refresh_token_witness :
  expired_at sample_fromisoformat (clock fresh_world) expired_session = true /\
  has_refresh_token expired_session = false /\
  Eldoore.refresh_token_if_needed sample_fromisoformat sample_isoformat
    expired_session fresh_world =
  (Ok true, set_user_data expired_session fresh_world).
Proof.
  split; [reflexivity|]. split; [reflexivity|].
  apply (expired_session_without_refresh_token_counts_as_fresh
           sample_fromisoformat sample_isoformat expired_session fresh_world);
    reflexivity.
Defined.

(** X2.  A session that has not expired is returned as fresh without a
    request, a write, a sleep or a line printed. *)
Theorem unexpired_session_needs_no_request
    (fromisoformat : string -> option Z) (isoformat : Z -> string)
    (ud : pyval) (w : world) :
  valid_at fromisoformat (clock w) ud = true ->
  Eldoore.refresh_token_if_needed fromisoformat isoformat ud w =
  (Ok true, set_user_data ud w).
Proof.
  intros H. rewrite refresh_unfold.
  apply retry_loop_returned; [|discriminate].
  now apply (refresh_body_valid fromisoformat isoformat ud).
Qed.

Lemma unexpired_session_witness :
  valid_at lenient_fromisoformat (clock fresh_world) lasting_session = true /\
  Eldoore.refresh_token_if_needed lenient_fromisoformat sample_isoformat
    lasting_session fresh_world =
  (Ok true, set_user_data lasting_session fresh_world).
Proof.
  split; [reflexivity|].
  apply (unexpired_session_needs_no_request lenient_fromisoformat
           sample_isoformat lasting_session fresh_world); reflexivity.
Defined.

(** X3.  A session without an access token or without an expiry is
    refused: the call returns [False] at once, whatever else the session
    holds. *)
Theorem session_without_token_or_expiry_is_refused
    (fromisoformat : string -> option Z) (isoformat : Z -> string)
    (ud : pyval) (w : world) :
  lacks_token ud = true ->
  Eldoore.refresh_token_if_needed fromisoformat isoformat ud w =
  (Ok false, set_user_data ud w).
Proof.
  intros H. rewrite refresh_unfold.
  apply retry_loop_returned; [|discriminate].
  now apply (refresh_body_lacks_token fromisoformat isoformat ud).
Qed.

Lemma session_without_token_or_expiry_witness :
  lacks_token undated_session = true /\
  Eldoore.refresh_token_if_needed sample_fromisoformat sample_isoformat
    undated_session fresh_world =
  (Ok false, set_user_data undated_session fresh_world).
Proof.
  split; [reflexivity|].
  apply (session_without_token_or_expiry_is_refused sample_fromisoformat
           sample_isoformat undated_session fresh_world); reflexivity.
Defined.

(** X4.  An expiry that [datetime.fromisoformat] rejects is the case in
    which the decorator does retry: the body runs three times, the
    wrapper sleeps four seconds after the first and after the second
    run, and the call ends in [RetryError]; no request is sent and the
    vault is not touched. *)
Theorem unreadable_expiry_exhausts_the_attempts
    (fromisoformat : string -> option Z) (isoformat : Z -> string)
    (ud : pyval) (w : world) :
  unreadable_expiry fromisoformat ud = true ->
  exists w',
    Eldoore.refresh_token_if_needed fromisoformat isoformat ud w =
      (Raise RetryError, w') /\
    slept w' = slept w ++ [4; 4] /\
    clock w' = clock w + 8 /\
    posted w' = posted w /\
    stdout w' = stdout w /\
    same_vault w w'.
Proof.
  intros H. eexists. split.
  - now apply refresh_unreadable.
  - repeat split.
Qed.

Lemma unreadable_expiry_witness :
  unreadable_expiry sample_fromisoformat garbled_session = true /\
  exists w',
    Eldoore.refresh_token_if_needed sample_fromisoformat sample_isoformat
      garbled_session fresh_world = (Raise RetryError, w') /\
    slept w' = [4; 4].
Proof.
  split; [reflexivity|].
  destruct (unreadable_expiry_exhausts_the_attempts sample_fromisoformat
              sample_isoformat garbled_session fresh_world eq_refl)
    as (w' & Hrun & Hs & _).
  exists w'. split; [exact Hrun|exact Hs].
Defined.

(** X5.  When a refresh is due and the provider fails - no connection,
    a 4xx or a 5xx status - the call sends exactly one request, does not
    sleep, returns [False] and leaves the vault as it was: the function
    catches the exceptions of [requests] itself, so the decorator never
    sees them. *)
Theorem failed_refresh_is_not_retried
    (fromisoformat : string -> option Z) (isoformat : Z -> string)
    (ud payload : pyval) (w : world) :
  expired_at fromisoformat (clock w) ud = true ->
  has_refresh_token ud = true ->
  refresh_request (stored w) ud = Some payload ->
  Json.dumps payload <> None ->
  next_reply_fails (endpoint w) = true ->
  exists w',
    Eldoore.refresh_token_if_needed fromisoformat isoformat ud w = (Ok false, w') /\
    posted w' = posted w ++ [payload] /\
    endpoint w' = tl (endpoint w) /\
    slept w' = slept w /\
    same_vault w w'.
Proof. intros. now apply refresh_endpoint_fails. Qed.

Lemma failed_refresh_witness :
  exists payload w',
    refresh_request
      (stored (set_endpoint provider_down (world_with bob_document fresh_world)))
      renewable_session = Some payload /\
    Eldoore.refresh_token_if_needed sample_fromisoformat sample_isoformat
      renewable_session
      (set_endpoint provider_down (world_with bob_document fresh_world))
      = (Ok false, w') /\
    posted w' = [payload] /\
    slept w' = [].
Proof.
  eexists. 
  destruct (failed_refresh_is_not_retried sample_fromisoformat sample_isoformat
              renewable_session _
              (set_endpoint provider_down (world_with bob_document fresh_world))
              eq_refl eq_refl eq_refl)
    as (w' & Hrun & Hp & _ & Hs & _).
  - vm_compute. discriminate.
  - reflexivity.
  - exists w'. split; [reflexivity|]. split; [exact Hrun|]. split; assumption.
Defined.

Lemma refreshed_session_json_value isoformat t d td lifetime :
  json_value (PDict d) = true -> json_value (PDict td) = true ->
  json_value (PDict (refreshed_session isoformat t d td lifetime)) = true.
Proof.
  intros Hd Htd. unfold refreshed_session.
  repeat apply json_value_set; auto.
  - destruct (dict_lookup (KStr "refresh_token") td) eqn:E.
    + now apply (json_value_lookup (KStr "refresh_token") td).
    + now apply json_value_dget.
  - now apply json_value_dget.
Qed.

Lemma refresh_request_json_value doc d payload :
  json_value (PDict doc) = true -> json_value (PDict d) = true ->
  refresh_request (PDict doc) (PDict d) = Some payload ->
  json_value payload = true.
Proof.
  intros Hdoc Hd. unfold refresh_request.
  destruct (dict_lookup (KStr "creds") doc) as [c|] eqn:E.
  - assert (json_value c = true) as Hc
      by now apply (json_value_lookup (KStr "creds") doc).
    destruct c as [ | | | | |creds| ]; try discriminate.
    intros H. injection H as <-. rewrite json_value_PDict.
    cbn. rewrite !json_value_dget by assumption. reflexivity.
  - intros H. injection H as <-. rewrite json_value_PDict.
    cbn. rewrite !json_value_dget by assumption. reflexivity.
Qed.



(** X7.  After a refresh the provider answered with a lifetime that
    [timedelta] and the resulting date can hold, the next [load_data]
    returns the old document with the refreshed session stored for the
    current user, when that user is named by a string and the session
    passed in is made of JSON values: [get_user_data] of the current
    user is the refreshed session, and [get_user_data] of every other
    name is what it was. *)
Theorem refreshed_session_is_what_the_next_load_returns
    (fromisoformat : string -> option Z) (isoformat : Z -> string)
    (d : dict) (payload : pyval) (r : reply) (rest : list reply)
    (j : Json.json) (td : dict) (lifetime : Z) (doc us : dict) (u : string)
    (w : world) :
  expired_at fromisoformat (clock w) (PDict d) = true ->
  has_refresh_token (PDict d) = true ->
  json_value (PDict d) = true ->
  refresh_request (stored w) (PDict d) = Some payload ->
  endpoint w = r :: rest ->
  accepted r = Some j ->
  Json.loads j = PDict td ->
  answered_lifetime td = Some lifetime ->
  lifetime_fits (clock w) lifetime = true ->
  stored w = PDict doc ->
  dict_lookup (KStr "users") doc = Some (PDict us) ->
  dict_lookup (KStr "current_user") doc = Some (PStr u) ->
  disk_ok w = true ->
  exists w',
    Eldoore.refresh_token_if_needed fromisoformat isoformat (PDict d) w
      = (Ok true, w') /\
    stored w' =
      with_session doc us (KStr u)
        (PDict (refreshed_session isoformat (clock w) d td lifetime)) /\
    fst (Eldoore.get_user_data (PStr u) w') =
      Ok (PDict (refreshed_session isoformat (clock w) d td lifetime)) /\
    forall v, v <> u ->
      fst (Eldoore.get_user_data (PStr v) w') =
      fst (Eldoore.get_user_data (PStr v) w).
Proof.
  intros Hexp Hrt Hd Hreq Hend Hacc Hj Hlife Hfit Hst Hus Hcu Hdisk.
  pose proof (stored_json_value w) as Hdoc. rewrite Hst in Hdoc.
  assert (json_value (PDict us) = true) as Husj
    by exact (json_value_lookup (KStr "users") doc _ Hdoc Hus).
  assert (json_value (PDict td) = true) as Htd
    by (rewrite <- Hj; apply loads_json_value; now apply (accepted_parses r)).
  set (session := PDict (refreshed_session isoformat (clock w) d td lifetime)).
  assert (json_value (with_session doc us (KStr u) session) = true) as Hnew.
  { unfold with_session. apply json_value_set; [|exact Hdoc].
    apply json_value_set; [|exact Husj].
    now apply refreshed_session_json_value. }
  destruct (roundtrip_json_value _ Hnew) as (jdoc & Hjdoc & Hback).
  rewrite Hst in Hreq.
  destruct (refresh_succeeds fromisoformat isoformat d payload r rest j td
              lifetime doc us (PStr u) (KStr u) jdoc w)
    as (w' & Hrun & Hf & _ & _ & _ & _ & Hk); try assumption;
    try reflexivity.
  { now rewrite Hst. }
  { apply json_value_dumps.
    now apply (refresh_request_json_value doc d payload). }
  assert (stored w' = with_session doc us (KStr u) session) as Hst'.
  { rewrite <- Hback. apply stored_of_token; [now rewrite Hk|].
    exact (dumps_parses _ _ Hjdoc). }
  exists w'. split; [exact Hrun|]. split; [exact Hst'|]. split.
  - rewrite (get_user_data_of_stored (PStr u) (KStr u) _ _ w' Hst'
               (lookup_set_same _ _ _) eq_refl).
    now rewrite lookup_set_same.
  - intros v Hv.
    rewrite (get_user_data_of_stored (PStr v) (KStr v) _ _ w' Hst'
               (lookup_set_same _ _ _) eq_refl).
    rewrite (get_user_data_of_stored (PStr v) (KStr v) _ _ w Hst Hus eq_refl).
    rewrite lookup_set_other; [reflexivity|].
    rewrite key_eqb_str. now apply String.eqb_neq.
Qed.

Lemma refreshed_session_witness :
  exists w',
    Eldoore.refresh_token_if_needed sample_fromisoformat sample_isoformat
      renewable_session
      (set_endpoint [Response 200 (Some token_answer)]
         (world_with bob_document fresh_world)) = (Ok true, w') /\
    fst (Eldoore.get_user_data (PStr "bob") w') =
      Ok (PDict [(KStr "tiktok_access_token", PStr "T2");
                 (KStr "refresh_token", PStr "R");
                 (KStr "expires_at", PStr "1700003600");
                 (KStr "tier", PStr "enterprise");
                 (KStr "login_time", PStr "2019-12-31T22:00:00")]) /\
    fst (Eldoore.get_user_data (PStr "alice") w') = Ok renewable_session.
Proof.
  destruct (refreshed_session_is_what_the_next_load_returns
              sample_fromisoformat sample_isoformat
              [(KStr "tiktok_access_token", PStr "T");
               (KStr "refresh_token", PStr "R");
               (KStr "expires_at", PStr "2020-01-01T00:00:00");
               (KStr "tier", PStr "enterprise");
               (KStr "login_time", PStr "2019-12-31T22:00:00")]
              (PDict [(KStr "client_key", PStr "app");
                      (KStr "client_secret", PStr "secret");
                      (KStr "refresh_token", PStr "R");
                      (KStr "grant_type", PStr "refresh_token")])
              (Response 200 (Some token_answer)) [] token_answer
              [(KStr "access_token", PStr "T2"); (KStr "expires_in", PInt 3600)]
              3600
              [(KStr "users", PDict [(KStr "alice", renewable_session);
                                     (KStr "bob", expired_session)]);
               (KStr "analyses", PList []);
               (KStr "creds", sample_creds);
               (KStr "current_user", PStr "bob")]
              [(KStr "alice", renewable_session); (KStr "bob", expired_session)]
              "bob"
              (set_endpoint [Response 200 (Some token_answer)]
                 (world_with bob_document fresh_world)))
    as (w' & Hrun & _ & Hbob & Hother);
    [vm_compute; reflexivity .. | ].
  exists w'. split; [exact Hrun|]. split.
  - rewrite Hbob. vm_compute. reflexivity.
  - rewrite (Hother "alice"); [vm_compute; reflexivity|discriminate].
Defined.

End Refresh.

(* ================================================================= *)
(** * Properties of the vault functions *)

Module Persistence.
Import Runtime Builtins Props Samples RunFacts JsonFacts VaultFacts DictFacts.
Import StoredFacts.
Local Open Scope list_scope.

(** X8.  [encrypt_data] of [eldoore1.1.py] never raises.  It returns
    after replacing the vault file by the token of the encoded document,
    having printed nothing; or it prints its error line and ends the
    process with status 1.  A document that cannot be encoded ends the
    process and leaves the file as it was.  (What a save that fails
    after [open] leaves in the file is not stated.) *)
Theorem encrypt_data_writes_or_exits (data : pyval) (w : world) :
  match Eldoore.encrypt_data data w with
  | (Ok _, w') =>
      exists j, Json.dumps data = Some j /\
        data_file w' = Some (Fernet.Token (fernet w) (Fernet.JsonText j)) /\
        stdout w' = stdout w
  | (Exit status, w') =>
      status = 1 /\
      stdout w' = stdout w ++ [Msg_encryption_error] /\
      (Json.dumps data = None -> data_file w' = data_file w)
  | _ => False
  end /\
  (Json.dumps data = None -> fst (Eldoore.encrypt_data data w) = Exit 1).
Proof.
  destruct (eldoore_encrypt_cases data w) as [(j & Hj & Hd & Hrun)|(Hbad & Hrun)];
    rewrite Hrun.
  - split; [|congruence]. exists j. repeat split; assumption.
  - repeat split; auto.
Qed.

(** X9.  [load_data] of [eldoore1.1.py] always returns, and what it
    returns is made of JSON values only; it leaves the vault file, the
    key and the traffic with the provider as they were, and prints at
    most its warning. *)
Theorem load_data_always_returns_a_json_value (w : world) :
  exists v w',
    Eldoore.load_data w = (Ok v, w') /\
    json_value v = true /\
    same_vault w w' /\
    same_traffic w w' /\
    (stdout w' = stdout w \/ stdout w' = stdout w ++ [Msg_data_load_error]).
Proof.
  destruct (eldoore_load_value w) as (w1 & Hload & Hw1).
  exists (stored w), w1. split; [exact Hload|].
  split; [apply stored_json_value|].
  destruct Hw1 as [->| ->]; repeat split; auto.
Qed.

(** X10.  A missing vault file, bytes that are no Fernet token, a token
    made under another key and a token around something that is not
    JSON all load as the empty document: no exception leaves
    [load_data] of [eldoore1.1.py], and the file is not repaired (the
    bytes stay as they were). *)
Theorem unusable_vault_loads_as_the_empty_document (w : world) :
  (data_file w = None \/
   (exists raw, data_file w = Some (Fernet.Garbage raw)) \/
   (exists k p, data_file w = Some (Fernet.Token k p) /\ k <> fernet w) \/
   (exists raw, data_file w = Some (Fernet.Token (fernet w) (Fernet.NotJson raw)))) ->
  exists w',
    Eldoore.load_data w = (Ok Eldoore.empty_document, w') /\
    data_file w' = data_file w /\
    forall u, fst (Eldoore.get_user_data (PStr u) w) = Ok (PDict []).
Proof.
  intros H. pose proof (eldoore_load_falls_back w H) as Hfb.
  destruct (eldoore_load_value w) as (w1 & Hload & Hw1).
  rewrite Hload in Hfb. simpl in Hfb. injection Hfb as Hst.
  exists w1. split; [now rewrite Hload, Hst|]. split.
  - now destruct Hw1 as [->| ->].
  - intros u. unfold Eldoore.get_user_data.
    rewrite run_bind, Hload, Hst. reflexivity.
Qed.

Lemma unusable_vault_witness :
  exists w',
    Eldoore.load_data garbage_world = (Ok Eldoore.empty_document, w') /\
    stdout w' = [Msg_data_load_error].
Proof.
  destruct (unusable_vault_loads_as_the_empty_document garbage_world)
    as (w' & Hrun & _).
  - right. left. eexists. reflexivity.
  - exists w'. split; [exact Hrun|].
    vm_compute in Hrun. injection Hrun as <-. reflexivity.
Defined.

End Persistence.

(* ================================================================= *)
(** * How a call can end *)

Module EndFacts.
Import Runtime Builtins Props Samples RunFacts JsonFacts VaultFacts DictFacts.
Local Open Scope list_scope.

Lemma graceful_ret {A} (a : A) : graceful (ret a).
Proof. intro w. exact I. Qed.

Lemma graceful_raise {A} e : graceful (@raise A e).
Proof. intro w. exact I. Qed.

Lemma graceful_or_raise {A} e (o : option A) : graceful (or_raise e o).
Proof. destruct o; intro w; exact I. Qed.

Lemma graceful_bind {A B} (c : M A) (k : A -> M B) :
  graceful c -> (forall a, graceful (k a)) -> graceful (bind c k).
Proof.
  intros Hc Hk w. rewrite run_bind. specialize (Hc w).
  destruct (c w) as [[a|e|s|] w1]; simpl in *; auto. apply Hk.
Qed.

Lemma graceful_try {A} (c : M A) h :
  graceful c ->
  (forall e, match h e with Some m => graceful m | None => True end) ->
  graceful (try_except c h).
Proof.
  intros Hc Hh w. unfold try_except. specialize (Hc w).
  destruct (c w) as [[a|e|s|] w1]; simpl in *; auto.
  specialize (Hh e). destruct (h e); simpl; auto. apply Hh.
Qed.

Ltac graceful_tac :=
  repeat first
    [ apply graceful_ret | apply graceful_raise | apply graceful_or_raise
    | apply graceful_bind; [|intro]
    | match goal with
      | |- graceful (match ?x with _ => _ end) => destruct x
      | |- graceful (if ?b then _ else _) => destruct b
      end
    | intro; exact I ].

Lemma graceful_py_get o k d : graceful (py_get o k d).
Proof. unfold py_get. graceful_tac. Qed.

Lemma graceful_py_getitem o k : graceful (py_getitem o k).
Proof. unfold py_getitem. graceful_tac. Qed.

Lemma graceful_py_setitem o k v : graceful (py_setitem o k v).
Proof. unfold py_setitem. graceful_tac. Qed.

Lemma graceful_py_delitem o k : graceful (py_delitem o k).
Proof. unfold py_delitem. graceful_tac. Qed.

Lemma graceful_py_contains k o : graceful (py_contains k o).
Proof. unfold py_contains. graceful_tac. Qed.

Lemma graceful_print m : graceful (print m).
Proof. intro w. exact I. Qed.

Lemma graceful_input : graceful input.
Proof. intro w. unfold input. now destruct (stdin w). Qed.

Lemma graceful_load_data : graceful Eldoore.load_data.
Proof.
  intro w. destruct (eldoore_load_value w) as (w1 & H & _). now rewrite H.
Qed.

Lemma graceful_encrypt_data data : graceful (Eldoore.encrypt_data data).
Proof.
  intro w.
  destruct (eldoore_encrypt_cases data w) as [(j & _ & _ & H)|(_ & H)];
    now rewrite H.
Qed.

Lemma graceful_validate_input_loop strip required rounds :
  graceful (Eldoore.validate_input_loop strip required rounds).
Proof.
  induction rounds as [|rounds IH]; simpl; [apply graceful_raise|].
  apply graceful_bind; [apply graceful_input|]. intros line.
  cbv beta zeta.
  match goal with
  | |- graceful (if ?b then _ else _) => destruct b
  end; [|apply graceful_ret].
  apply graceful_bind; [apply graceful_print|]. intros _. exact IH.
Qed.

Lemma graceful_validate_input strip required :
  graceful (Eldoore.validate_input strip required).
Proof. intro w. apply graceful_validate_input_loop. Qed.

Lemma graceful_now : graceful now.
Proof. intro w. exact I. Qed.

Lemma graceful_time_sleep d : graceful (time_sleep d).
Proof. intro w. exact I. Qed.

Lemma graceful_loading_spinner text : graceful (loading_spinner text).
Proof. intro w. exact I. Qed.

Lemma graceful_requests_post payload : graceful (requests_post payload).
Proof.
  intro w. unfold requests_post.
  destruct (Json.dumps payload);
    [|destruct (Json.first_error payload) as [[|]|]; exact I].
  destruct (endpoint w) as [|[|s b] rest]; exact I.
Qed.

Lemma graceful_raise_for_status resp : graceful (raise_for_status resp).
Proof.
  intro w. unfold raise_for_status.
  destruct ((400 <=? fst resp) && (fst resp <? 600)); exact I.
Qed.

Lemma graceful_resp_json resp : graceful (resp_json resp).
Proof.
  intro w. unfold resp_json.
  destruct (snd resp) as [j|]; [destruct (Json.parses j)|]; exact I.
Qed.

Lemma graceful_timedelta_seconds v : graceful (timedelta_seconds v).
Proof.
  intro w. unfold timedelta_seconds.
  destruct (int_of v) as [n|]; [destruct (timedelta_fits n)|]; exact I.
Qed.

Lemma graceful_datetime_add t delta : graceful (datetime_add t delta).
Proof.
  intro w. unfold datetime_add. destruct (datetime_fits (t + delta)); exact I.
Qed.

Lemma graceful_get_httpd : graceful Eldoore.get_httpd.
Proof. intro w. unfold Eldoore.get_httpd. destruct (httpd w); exact I. Qed.

Lemma graceful_deliver qs : graceful (Eldoore.deliver qs).
Proof.
  intro w. unfold Eldoore.deliver.
  destruct (httpd w) as [srv|]; [destruct (socket_open srv)|]; exact I.
Qed.

Lemma graceful_start_local_server : graceful Eldoore.start_local_server.
Proof.
  intro w. unfold Eldoore.start_local_server. destruct (port_free w); exact I.
Qed.

Lemma graceful_orderly {A} (c : M A) : graceful c -> orderly c.
Proof. intros H w. specialize (H w). now destruct (fst (c w)). Qed.

Lemma orderly_bind {A B} (c : M A) (k : A -> M B) :
  orderly c -> (forall a, orderly (k a)) -> orderly (bind c k).
Proof.
  intros Hc Hk w. rewrite run_bind. specialize (Hc w).
  destruct (c w) as [[a|e|s|] w1]; simpl in *; auto. apply Hk.
Qed.

Lemma orderly_wait_for_code arrivals fuel :
  forall tick, orderly (Eldoore.wait_for_code fuel tick arrivals).
Proof.
  induction fuel as [|fuel IH]; intros tick; cbn [Eldoore.wait_for_code];
    (apply orderly_bind; [apply graceful_orderly, graceful_get_httpd|]);
    intros srv; destruct (Eldoore.truthy_str (auth_code srv));
    try (apply graceful_orderly, graceful_ret).
  - intros w. exact I.
  - apply orderly_bind; [apply graceful_orderly, graceful_time_sleep|]. intros _.
    apply orderly_bind; [apply graceful_orderly, graceful_deliver|]. intros _.
    apply IH.
Qed.

(** A handler that catches everything and only prints. *)
Lemma caught_and_printed (body : M unit) (h : exn -> msg) w :
  graceful body ->
  fst (try_except body (fun e => Some (print (h e))) w) = Ok tt \/
  fst (try_except body (fun e => Some (print (h e))) w) = Exit 1.
Proof.
  intros Hb. unfold try_except. specialize (Hb w).
  destruct (body w) as [[[]|e|s|] w1]; simpl in *; auto.
  - right. now subst.
  - contradiction.
Qed.

End EndFacts.

(* ================================================================= *)
(** * Properties of [logout] *)

Module Session.
Import Runtime Builtins Props Samples RunFacts JsonFacts VaultFacts DictFacts.
Import StoredFacts EndFacts.
Local Open Scope list_scope.

Lemma without_session_json_value doc us key :
  json_value (PDict doc) = true -> json_value (PDict us) = true ->
  json_value (without_session doc us key) = true.
Proof.
  intros Hdoc Hus. unfold without_session.
  apply json_value_set; [reflexivity|].
  destruct (dict_mem key us); [|exact Hdoc].
  apply json_value_set; [|exact Hdoc]. now apply json_value_del.
Qed.

(** The body of [logout] up to the write. *)
Lemma logout_run username key doc us w :
  stored w = PDict doc ->
  dict_lookup (KStr "users") doc = Some (PDict us) ->
  as_key username = Some key ->
  exists w1,
    (w1 = w \/ w1 = set_stdout (stdout w ++ [Msg_data_load_error]) w) /\
    Eldoore.logout username w =
    match Eldoore.encrypt_data (without_session doc us key) w1 with
    | (Ok _, w2) => (Ok tt, set_stdout (stdout w2 ++ [Msg_logged_out]) w2)
    | (Raise e, w2) => (Ok tt, set_stdout (stdout w2 ++ [Msg_logout_error]) w2)
    | (Exit s, w2) => (Exit s, w2)
    | (Polling, w2) => (Polling, w2)
    end.
Proof.
  intros Hst Hus Hkey.
  destruct (eldoore_load_value w) as (w1 & Hload & Hw1).
  exists w1. split; [exact Hw1|].
  unfold Eldoore.logout, try_except. rewrite run_bind, Hload, Hst.
  unfold py_getitem, py_contains, py_delitem, py_setitem. cbn [as_key]. run.
  rewrite Hus. run. rewrite Hkey. run. unfold without_session.
  destruct (dict_mem key us) eqn:Hmem; run; rewrite ?Hmem; run;
    destruct (Eldoore.encrypt_data _ w1) as [[[]|e|s|] w2]; reflexivity.
Qed.

Lemma users_without_session doc us key :
  dict_lookup (KStr "users") doc = Some (PDict us) ->
  exists doc',
    without_session doc us key = PDict doc' /\
    dict_lookup (KStr "current_user") doc' = Some PNone /\
    dict_lookup (KStr "users") doc' =
      Some (PDict (if dict_mem key us then dict_del key us else us)).
Proof.
  intros Hus. unfold without_session. eexists. split; [reflexivity|].
  split; [apply lookup_set_same|].
  rewrite lookup_set_other by reflexivity.
  destruct (dict_mem key us); [apply lookup_set_same|exact Hus].
Qed.

(** X11.  [logout(username)] on a vault that can be written: the next
    [load_data] returns the old document without the entry of
    [username] and with no current user; [get_user_data(username)] is
    then the empty dict, and the entries of the other users are what
    they were.  The current user is reset whoever [username] is. *)
Theorem logout_removes_the_session
    (username : pyval) (key : pykey) (doc us : dict) (w : world) :
  stored w = PDict doc ->
  dict_lookup (KStr "users") doc = Some (PDict us) ->
  as_key username = Some key ->
  disk_ok w = true ->
  exists w' doc',
    Eldoore.logout username w = (Ok tt, w') /\
    stored w' = PDict doc' /\
    PDict doc' = without_session doc us key /\
    dict_lookup (KStr "current_user") doc' = Some PNone /\
    fst (Eldoore.get_user_data username w') = Ok (PDict []) /\
    forall other k, as_key other = Some k -> key_eqb k key = false ->
      fst (Eldoore.get_user_data other w') = fst (Eldoore.get_user_data other w).
Proof.
  intros Hst Hus Hkey Hdisk.
  pose proof (stored_json_value w) as Hdoc. rewrite Hst in Hdoc.
  assert (json_value (PDict us) = true) as Husj
    by exact (json_value_lookup (KStr "users") doc _ Hdoc Hus).
  pose proof (without_session_json_value doc us key Hdoc Husj) as Hnew.
  destruct (roundtrip_json_value _ Hnew) as (j & Hj & Hback).
  destruct (logout_run username key doc us w Hst Hus Hkey) as (w1 & Hw1 & Hrun).
  assert (disk_ok w1 = true) as Hdisk1 by now destruct Hw1 as [->| ->].
  rewrite (eldoore_encrypt_ok _ j w1 Hj Hdisk1) in Hrun.
  destruct (users_without_session doc us key Hus) as (doc' & Hdoc' & Hcu & Hus').
  eexists. exists doc'. split; [exact Hrun|].
  assert (stored (set_stdout
                    (stdout (set_data_file
                               (Some (Fernet.Token (fernet w1) (Fernet.JsonText j))) w1)
                       ++ [Msg_logged_out])
                    (set_data_file
                       (Some (Fernet.Token (fernet w1) (Fernet.JsonText j))) w1))
          = PDict doc') as Hst'.
  { rewrite <- Hdoc', <- Hback.
    apply stored_of_token; [reflexivity|exact (dumps_parses _ _ Hj)]. }
  split; [exact Hst'|]. split; [now rewrite Hdoc'|]. split; [exact Hcu|]. split.
  - rewrite (get_user_data_of_stored username key doc' _ _ Hst' Hus' Hkey).
    pose proof Husj as Hfresh. rewrite json_value_PDict in Hfresh.
    apply andb_true_iff in Hfresh as [Hfresh _].
    destruct (dict_mem key us) eqn:Hmem.
    + now rewrite lookup_del_same.
    + now rewrite mem_false_lookup.
  - intros other k Hk Hne.
    rewrite (get_user_data_of_stored other k doc' _ _ Hst' Hus' Hk).
    rewrite (get_user_data_of_stored other k doc us w Hst Hus Hk).
    destruct (dict_mem key us); [|reflexivity].
    now rewrite lookup_del_other.
Qed.

Lemma logout_removes_the_session_witness :
  exists w',
    Eldoore.logout (PStr "alice") (world_with bob_document fresh_world) = (Ok tt, w') /\
    fst (Eldoore.get_user_data (PStr "alice") w') = Ok (PDict []) /\
    fst (Eldoore.get_user_data (PStr "bob") w') = Ok expired_session /\
    fst (py_getitem (stored w') (PStr "current_user") w') = Ok PNone.
Proof.
  destruct (logout_removes_the_session (PStr "alice") (KStr "alice")
              [(KStr "users", PDict [(KStr "alice", renewable_session);
                                     (KStr "bob", expired_session)]);
               (KStr "analyses", PList []);
               (KStr "creds", sample_creds);
               (KStr "current_user", PStr "bob")]
              [(KStr "alice", renewable_session); (KStr "bob", expired_session)]
              (world_with bob_document fresh_world))
    as (w' & doc' & Hrun & Hst & _ & Hcu & Hgone & Hother);
    [vm_compute; reflexivity .. | ].
  exists w'. split; [exact Hrun|]. split; [exact Hgone|]. split.
  - rewrite (Hother (PStr "bob") (KStr "bob") eq_refl eq_refl).
    vm_compute. reflexivity.
  - rewrite Hst. unfold py_getitem. cbn [as_key]. run. now rewrite Hcu.
Defined.

(** X12.  [logout] on a vault file that cannot be written ends the
    process with status 1: the [SystemExit] of [encrypt_data] is no
    [Exception], so the handler of [logout] does not report it.  The
    file is left as it was and the last line printed is the error line
    of [encrypt_data]. *)
Theorem logout_exits_when_the_vault_cannot_be_written
    (username : pyval) (key : pykey) (doc us : dict) (w : world) :
  stored w = PDict doc ->
  dict_lookup (KStr "users") doc = Some (PDict us) ->
  as_key username = Some key ->
  disk_ok w = false ->
  exists w',
    Eldoore.logout username w = (Exit 1, w') /\
    data_file w' = data_file w /\
    (stdout w' = stdout w ++ [Msg_encryption_error] \/
     stdout w' = stdout w ++ [Msg_data_load_error; Msg_encryption_error]).
Proof.
  intros Hst Hus Hkey Hdisk.
  destruct (logout_run username key doc us w Hst Hus Hkey) as (w1 & Hw1 & Hrun).
  assert (disk_ok w1 = false) as Hdisk1 by now destruct Hw1 as [->| ->].
  rewrite (eldoore_encrypt_fails _ w1 (or_intror Hdisk1)) in Hrun.
  eexists. split; [exact Hrun|].
  destruct Hw1 as [->| ->]; simpl; split; auto.
  right. now rewrite <- app_assoc.
Qed.

Lemma logout_exits_witness :
  exists w',
    Eldoore.logout (PStr "bob")
      (mkWorld (data_file (world_with bob_document fresh_world)) false 0%nat
               1700000000 [] [] [] [] [] true None PNone) = (Exit 1, w') /\
    data_file w' = data_file (world_with bob_document fresh_world).
Proof.
  destruct (logout_exits_when_the_vault_cannot_be_written
              (PStr "bob") (KStr "bob")
              [(KStr "users", PDict [(KStr "alice", renewable_session);
                                     (KStr "bob", expired_session)]);
               (KStr "analyses", PList []);
               (KStr "creds", sample_creds);
               (KStr "current_user", PStr "bob")]
              [(KStr "alice", renewable_session); (KStr "bob", expired_session)]
              (mkWorld (data_file (world_with bob_document fresh_world)) false 0%nat
                       1700000000 [] [] [] [] [] true None PNone))
    as (w' & Hrun & Hf & _);
    [vm_compute; reflexivity .. | ].
  exists w'. split; [exact Hrun|exact Hf].
Defined.

(** X13.  [logout] never lets an exception out, whatever the username
    and whatever the vault holds: it returns, or the process ends with
    status 1. *)
Theorem logout_returns_or_exits (username : pyval) (w : world) :
  fst (Eldoore.logout username w) = Ok tt \/
  fst (Eldoore.logout username w) = Exit 1.
Proof.
  unfold Eldoore.logout.
  apply (caught_and_printed _ (fun _ => Msg_logout_error)).
  apply graceful_bind; [apply graceful_load_data|]. intros data.
  apply graceful_bind; [apply graceful_py_getitem|]. intros users.
  apply graceful_bind; [apply graceful_py_contains|]. intros present.
  apply graceful_bind.
  - destruct present; [|apply graceful_ret].
    apply graceful_bind; [apply graceful_py_delitem|]. intros users'.
    apply graceful_py_setitem.
  - intros data1.
    apply graceful_bind; [apply graceful_py_setitem|]. intros data2.
    apply graceful_bind; [apply graceful_encrypt_data|]. intros _.
    apply graceful_print.
Qed.

End Session.

(* ================================================================= *)
(** * Properties of [validate_input] *)

Module Prompt.
Import Runtime Builtins Props Samples RunFacts.
Local Open Scope list_scope.

Section WithLibraries.
Variable strip : string -> string.

(** One round of the loop on a line that is not accepted. *)
Lemma loop_rejects validator required rounds line rest w :
  stdin w = line :: rest ->
  acceptable strip validator required line = false ->
  Eldoore.validate_input_with_loop strip (option_map checking validator) required
    (S rounds) w =
  Eldoore.validate_input_with_loop strip (option_map checking validator) required
    rounds
    (set_stdout (stdout w ++ [complaint strip required line]) (set_stdin rest w)).
Proof.
  intros Hin Hacc. unfold acceptable, complaint in *.
  cbn [Eldoore.validate_input_with_loop].
  unfold input. run. rewrite Hin.
  destruct (required && negb (truthy (PStr (strip line))))%bool eqn:E.
  - reflexivity.
  - cbn [negb andb] in Hacc. destruct validator as [p|]; [|discriminate].
    cbn [option_map]. unfold checking. run. rewrite Hacc. reflexivity.
Qed.

Lemma loop_accepts validator required rounds line rest w :
  stdin w = line :: rest ->
  acceptable strip validator required line = true ->
  Eldoore.validate_input_with_loop strip (option_map checking validator) required
    (S rounds) w = (Ok (strip line), set_stdin rest w).
Proof.
  intros Hin Hacc. unfold acceptable in *.
  cbn [Eldoore.validate_input_with_loop].
  unfold input. run. rewrite Hin.
  apply andb_true_iff in Hacc as [Hreq Hval].
  apply negb_true_iff in Hreq. rewrite Hreq.
  destruct validator as [p|]; [|reflexivity].
  cbn [option_map]. unfold checking. run. now rewrite Hval.
Qed.

Lemma loop_eof validator required rounds w :
  stdin w = [] ->
  Eldoore.validate_input_with_loop strip (option_map checking validator) required
    rounds w = (Raise EOFError, w).
Proof.
  intros Hin. destruct rounds; [reflexivity|].
  cbn [Eldoore.validate_input_with_loop].
  unfold input. run. now rewrite Hin.
Qed.

Lemma loop_returns validator required skipped :
  forall line rest rounds w,
    stdin w = skipped ++ line :: rest ->
    (forall l, In l skipped -> acceptable strip validator required l = false) ->
    acceptable strip validator required line = true ->
    (List.length skipped < rounds)%nat ->
    exists w',
      Eldoore.validate_input_with_loop strip (option_map checking validator) required
        rounds w = (Ok (strip line), w') /\
      stdin w' = rest /\
      stdout w' = stdout w ++ map (complaint strip required) skipped /\
      same_vault w w' /\ same_traffic w w' /\ clock w' = clock w.
Proof.
  induction skipped as [|l skipped IH]; intros line rest rounds w Hin Hrej Hacc Hr.
  - destruct rounds as [|rounds]; [simpl in Hr; lia|].
    rewrite (loop_accepts _ _ _ _ _ _ Hin Hacc).
    eexists. split; [reflexivity|]. simpl. rewrite app_nil_r.
    repeat split.
  - destruct rounds as [|rounds]; [simpl in Hr; lia|].
    rewrite (loop_rejects _ _ _ l (skipped ++ line :: rest) _ Hin);
      [|apply Hrej; now left].
    match goal with
    | |- context [Eldoore.validate_input_with_loop strip _ _ rounds ?w1] =>
        destruct (IH line rest rounds w1) as (w' & Hrun & Hi & Ho & Hv & Ht & Hc)
    end.
    + reflexivity.
    + intros l' Hl'. apply Hrej. now right.
    + exact Hacc.
    + simpl in Hr. lia.
    + exists w'. split; [exact Hrun|]. split; [exact Hi|]. split.
      * rewrite Ho. simpl. now rewrite <- app_assoc.
      * destruct Hv as (? & ? & ?), Ht as (? & ?). simpl in *.
        repeat split; assumption.
Qed.

Lemma loop_runs_dry validator required lines :
  forall rounds w,
    stdin w = lines ->
    (forall l, In l lines -> acceptable strip validator required l = false) ->
    (List.length lines < rounds)%nat ->
    exists w',
      Eldoore.validate_input_with_loop strip (option_map checking validator) required
        rounds w = (Raise EOFError, w') /\
      stdin w' = [] /\
      stdout w' = stdout w ++ map (complaint strip required) lines /\
      same_vault w w' /\ same_traffic w w'.
Proof.
  induction lines as [|l lines IH]; intros rounds w Hin Hrej Hr.
  - rewrite (loop_eof _ _ _ _ Hin). exists w. simpl. rewrite app_nil_r.
    repeat split. exact Hin.
  - destruct rounds as [|rounds]; [simpl in Hr; lia|].
    rewrite (loop_rejects _ _ _ l lines _ Hin); [|apply Hrej; now left].
    match goal with
    | |- context [Eldoore.validate_input_with_loop strip _ _ rounds ?w1] =>
        destruct (IH rounds w1) as (w' & Hrun & Hi & Ho & Hv & Ht)
    end.
    + reflexivity.
    + intros l' Hl'. apply Hrej. now right.
    + simpl in Hr. lia.
    + exists w'. split; [exact Hrun|]. split; [exact Hi|]. split.
      * rewrite Ho. simpl. now rewrite <- app_assoc.
      * destruct Hv as (? & ? & ?), Ht as (? & ?). simpl in *.
        repeat split; assumption.
Qed.

(** The loop without a validator is the loop of [validate_input]. *)
Lemma loop_without_validator required rounds w :
  Eldoore.validate_input_with_loop strip None required rounds w =
  Eldoore.validate_input_loop strip required rounds w.
Proof.
  revert w. induction rounds as [|rounds IH]; intros w; [reflexivity|].
  cbn [Eldoore.validate_input_with_loop Eldoore.validate_input_loop].
  rewrite !run_bind. destruct (input w) as [[line|e|s|] w1]; try reflexivity.
  destruct (required && negb (truthy (PStr (strip line))))%bool; [|reflexivity].
  rewrite !run_bind. destruct (print Msg_field_required w1) as [[[]|e|s|] w2];
    try reflexivity.
  apply IH.
Qed.

Lemma validate_input_without_validator required w :
  Eldoore.validate_input_with strip None required w =
  Eldoore.validate_input strip required w.
Proof. apply loop_without_validator. Qed.

End WithLibraries.

(** X14.  [validate_input] returns the first line it accepts, stripped
    by [str.strip], which is [strip] here: the lines typed before it
    are consumed, each is answered with one complaint ("Field
    required!" for a line that strips to nothing when the field is
    required, "Invalid input!" for a line whose stripped text the
    validator rejects), and nothing else changes.  A line that strips
    to nothing is accepted when the field is optional and the validator
    accepts the empty string. *)
Theorem validate_input_returns_the_first_acceptable_line
    (strip : string -> string)
    (validator : option (string -> bool)) (required : bool)
    (skipped : list string) (line : string) (rest : list string) (w : world) :
  stdin w = skipped ++ line :: rest ->
  (forall l, In l skipped -> acceptable strip validator required l = false) ->
  acceptable strip validator required line = true ->
  exists w',
    Eldoore.validate_input_with strip (option_map checking validator) required w
      = (Ok (strip line), w') /\
    stdin w' = rest /\
    stdout w' = stdout w ++ map (complaint strip required) skipped /\
    same_vault w w' /\ same_traffic w w' /\ clock w' = clock w.
Proof.
  intros Hin Hrej Hacc. unfold Eldoore.validate_input_with.
  apply loop_returns; auto.
  rewrite Hin, length_app. simpl. lia.
Qed.

Lemma validate_input_witness :
  exists w',
    Eldoore.validate_input_with sample_strip
      (option_map checking (Some (fun s => String.eqb s "1" || String.eqb s "2")))
      true
      (set_stdin ["   "; "3"; " 2 "; "1"] fresh_world) = (Ok "2", w') /\
    stdin w' = ["1"] /\
    stdout w' = [Msg_field_required; Msg_text "Invalid input!"].
Proof.
  destruct (validate_input_returns_the_first_acceptable_line sample_strip
              (Some (fun s => String.eqb s "1" || String.eqb s "2")) true
              ["   "; "3"] " 2 " ["1"]
              (set_stdin ["   "; "3"; " 2 "; "1"] fresh_world))
    as (w' & Hrun & Hi & Ho & _).
  - reflexivity.
  - intros l [<-|[<-|[]]]; reflexivity.
  - reflexivity.
  - exists w'. split; [exact Hrun|]. split; [exact Hi|exact Ho].
Defined.

(** X15.  When no line left on the terminal is acceptable,
    [validate_input] consumes them all, complains once per line and
    ends with the [EOFError] of [input]: the loop itself has no exit
    but an accepted line. *)
Theorem validate_input_ends_with_the_terminal
    (strip : string -> string)
    (validator : option (string -> bool)) (required : bool) (w : world) :
  (forall l, In l (stdin w) -> acceptable strip validator required l = false) ->
  exists w',
    Eldoore.validate_input_with strip (option_map checking validator) required w
      = (Raise EOFError, w') /\
    stdin w' = [] /\
    stdout w' = stdout w ++ map (complaint strip required) (stdin w) /\
    same_vault w w' /\ same_traffic w w'.
Proof.
  intros Hrej. unfold Eldoore.validate_input_with.
  apply loop_runs_dry; auto.
Qed.

Lemma validate_input_eof_witness :
  exists w',
    Eldoore.validate_input_with sample_strip (option_map checking None) true
      (set_stdin [""; "  "] fresh_world) = (Raise EOFError, w') /\
    stdout w' = [Msg_field_required; Msg_field_required].
Proof.
  destruct (validate_input_ends_with_the_terminal sample_strip None true
              (set_stdin [""; "  "] fresh_world))
    as (w' & Hrun & _ & Ho & _).
  - intros l [<-|[<-|[]]]; reflexivity.
  - exists w'. split; [exact Hrun|exact Ho].
Defined.

End Prompt.

(* ================================================================= *)
(** * Properties of the callback handler *)

Module Handler.
Import Runtime Builtins Props Samples RunFacts Callback.
Local Open Scope list_scope.

Lemma handle_snoc qs q srv :
  handle (qs ++ [q]) srv = Eldoore.do_GET q (handle qs srv).
Proof. unfold handle. now rewrite fold_left_app. Qed.

Lemma last_well_formed_snoc qs q :
  last_well_formed (qs ++ [q]) =
  if well_formed q then Some q else last_well_formed qs.
Proof. unfold last_well_formed. now rewrite fold_left_app. Qed.

(** X16.  The handler answers every request, in order, with one status:
    200 when the request carries a code and a state, 400 otherwise.  It
    never closes the socket and never stops the serving thread. *)
Theorem every_request_is_answered (qs : list Eldoore.query) (srv : server) :
  answered (handle qs srv) = answered srv ++ map status_of qs /\
  socket_open (handle qs srv) = socket_open srv /\
  serving (handle qs srv) = serving srv.
Proof.
  induction qs as [|q qs IH] using rev_ind.
  - simpl. now rewrite app_nil_r.
  - rewrite handle_snoc, map_app. destruct IH as (Ha & Hs & Hv).
    destruct (do_GET_serving q (handle qs srv)) as [Hv' Hs'].
    split; [|split; congruence].
    destruct q as [code state]. unfold Eldoore.do_GET, status_of, well_formed.
    cbn [fst snd map].
    destruct (Eldoore.truthy_str code && Eldoore.truthy_str state)%bool;
      cbn [answered]; rewrite Ha; now rewrite <- app_assoc.
Qed.

(** X17.  The code and the state the listener holds are those of one
    request, the last that carried both: a later callback replaces the
    code of an earlier one, a request without a code or without a state
    changes neither, and without such a request the listener holds what
    it held. *)
Theorem last_callback_wins (qs : list Eldoore.query) (srv : server) :
  match last_well_formed qs with
  | Some (code, state) =>
      auth_code (handle qs srv) = code /\
      auth_state (handle qs srv) = state /\
      has_code (handle qs srv) = true /\
      Eldoore.truthy_str (auth_state (handle qs srv)) = true
  | None =>
      auth_code (handle qs srv) = auth_code srv /\
      auth_state (handle qs srv) = auth_state srv
  end.
Proof.
  induction qs as [|q qs IH] using rev_ind.
  - simpl. auto.
  - rewrite handle_snoc, last_well_formed_snoc.
    destruct (well_formed q) eqn:Hq.
    + destruct q as [code state]. unfold well_formed in Hq. cbn [fst snd] in Hq.
      unfold has_code, Eldoore.do_GET. rewrite Hq. cbn [auth_code auth_state].
      apply andb_true_iff in Hq as [Hc Hs]. auto.
    + destruct (do_GET_malformed q (handle qs srv) Hq) as (Hc & Hs & _).
      unfold has_code in *. rewrite Hc, Hs. exact IH.
Qed.

End Handler.

(* ================================================================= *)
(** * Properties of [tiktok_oauth_login] *)

Module LoginFacts.
Import Runtime Builtins Props Samples RunFacts JsonFacts VaultFacts DictFacts.
Import StoredFacts RefreshFacts RefreshEdges Callback Prompt.
Local Open Scope list_scope.

Lemma try_after {A B} (c : M A) (k : A -> M B) h a w w1 :
  c w = (Ok a, w1) ->
  try_except (bind c k) h w = try_except (k a) h w1.
Proof. intros H. unfold try_except. now rewrite run_bind, H. Qed.

Lemma py_getitem_cases o k w :
  (exists v, py_getitem o k w = (Ok v, w)) \/
  (exists e, py_getitem o k w = (Raise e, w)).
Proof.
  unfold py_getitem, bind, or_raise, ret, raise.
  destruct o; try (right; eexists; reflexivity);
    repeat (match goal with
            | |- context [match ?x with Some _ => _ | None => _ end] => destruct x
            end; cbv beta iota); eauto.
Qed.

Section WithStrip.
Variable strip : string -> string.

(** [validate_input] touches the terminal only; it returns or raises,
    and what it returns for a required field is not empty. *)
Lemma validate_input_frame required rounds :
  forall w,
    same_but_terminal w (snd (Eldoore.validate_input_loop strip required rounds w)) /\
    match fst (Eldoore.validate_input_loop strip required rounds w) with
    | Ok v => required = true -> truthy (PStr v) = true
    | Raise _ => True
    | _ => False
    end.
Proof.
  induction rounds as [|rounds IH]; intros w.
  - simpl. repeat split.
  - cbn [Eldoore.validate_input_loop]. unfold input. run.
    destruct (stdin w) as [|line rest]; [simpl; repeat split|].
    destruct (required && negb (truthy (PStr (strip line))))%bool eqn:E.
    + match goal with
      | |- context [Eldoore.validate_input_loop strip required rounds ?w1] =>
          destruct (IH w1) as [Hf Hv];
          destruct (Eldoore.validate_input_loop strip required rounds w1) as [r w2]
      end.
      cbn [fst snd] in *. split; [|destruct r; exact Hv].
      destruct Hf as ((H1 & H2 & H3) & (H4 & H5) & H6 & H7 & H8 & H9).
      simpl in *. repeat split; destruct r; simpl; assumption.
    + cbn [fst snd]. split; [repeat split|].
      intros ->. simpl in E. now apply negb_false_iff in E.
Qed.

Lemma start_local_server_run w :
  port_free w = true ->
  Eldoore.start_local_server w =
  (Ok (mkServer false true None None []),
   set_httpd (Some (mkServer false true None None [])) w).
Proof. intros H. unfold Eldoore.start_local_server. now rewrite H. Qed.

(** From the start of the listener on: the socket is closed, so the
    wait is still polling after any number of polls. *)
Lemma listen_and_wait fuel arrivals username w :
  port_free w = true ->
  exists w1,
    bind Eldoore.start_local_server
      (fun _ => bind (Eldoore.deliver (arrivals O))
         (fun _ => bind (Eldoore.wait_for_code fuel 1 arrivals)
            (fun srv => ret (username, srv)))) w
    = (@Polling (string * server), w1) /\
    httpd w1 = Some (mkServer false true None None []) /\
    same_vault w w1 /\ same_traffic w w1 /\
    stdin w1 = stdin w /\ stdout w1 = stdout w /\
    clock w1 = clock w + Z.of_nat fuel.
Proof.
  intros Hport. rewrite run_bind, (start_local_server_run w Hport).
  rewrite run_bind. unfold Eldoore.deliver at 1. cbn [httpd set_httpd socket_open].
  rewrite run_bind.
  match goal with
  | |- context [Eldoore.wait_for_code fuel 1 arrivals ?w0] =>
      destruct (wait_closed arrivals fuel 1 w0 (mkServer false true None None []))
        as (w1 & Hrun & Hv & Ht & Hi & Ho & Hc & Hh); try reflexivity
  end.
  rewrite Hrun. exists w1. split; [reflexivity|]. split; [exact Hh|].
  destruct Hv as (? & ? & ?), Ht as (? & ?). simpl in *.
  repeat split; assumption.
Qed.

(** The first half of the login never returns: it raises - at the
    prompt, at a missing app id, at a busy port - or it is still
    polling.  It leaves the vault and the traffic as they were. *)
Lemma await_callback_waits fuel arrivals creds w :
  exists r w1,
    Eldoore.await_callback strip fuel arrivals creds w = (r, w1) /\
    match r with
    | Raise _ => True
    | Polling => httpd w1 = Some (mkServer false true None None [])
    | _ => False
    end /\
    same_vault w w1 /\ same_traffic w w1.
Proof.
  unfold Eldoore.await_callback, Eldoore.validate_input. rewrite run_bind.
  destruct (validate_input_frame true (S (List.length (stdin w))) w) as [Hf Hv].
  destruct (Eldoore.validate_input_loop strip true (S (List.length (stdin w))) w)
    as [[v|e|s|] w0]; cbn [fst snd] in Hf, Hv; try contradiction.
  - destruct Hf as (Hvault & Htraffic & _ & Hport & _).
    rewrite run_bind. cbv beta iota delta [print]. rewrite run_bind.
    match goal with
    | |- context [py_getitem creds ?k ?w2] =>
        destruct (py_getitem_cases creds k w2) as [[ck Hk]|[e Hk]]; rewrite Hk
    end.
    + rewrite run_bind.
      destruct (port_free w0) eqn:Hp.
      * match goal with
        | |- context [bind Eldoore.start_local_server ?k ?w3] =>
            destruct (listen_and_wait fuel arrivals v w3)
              as (w1 & Hrun & Hh & Hv1 & Ht1 & _); [exact Hp|]
        end.
        exists Polling, w1. split; [exact Hrun|]. split; [exact Hh|].
        destruct Hvault as (? & ? & ?), Htraffic as (? & ?),
                 Hv1 as (? & ? & ?), Ht1 as (? & ?). simpl in *.
        repeat split; congruence.
      * rewrite run_bind. unfold Eldoore.start_local_server.
        cbn [port_free set_stdout]. rewrite Hp.
        eexists. eexists. split; [reflexivity|]. split; [exact I|].
        destruct Hvault as (? & ? & ?), Htraffic as (? & ?). simpl in *.
        repeat split; assumption.
    + eexists. eexists. split; [reflexivity|]. split; [exact I|].
      destruct Hvault as (? & ? & ?), Htraffic as (? & ?). simpl in *.
      repeat split; assumption.
  - destruct Hf as (Hvault & Htraffic & _).
    eexists. eexists. split; [reflexivity|]. split; [exact I|].
    split; assumption.
Qed.

(** With a username on the terminal, an app id and a free port, the
    first half of the login is polling. *)
Lemma await_callback_polls fuel arrivals creds app_id skipped line rest w :
  dict_lookup (KStr "tiktok_app_id") creds = Some app_id ->
  stdin w = skipped ++ line :: rest ->
  (forall l, In l skipped -> acceptable strip None true l = false) ->
  acceptable strip None true line = true ->
  port_free w = true ->
  exists w1,
    Eldoore.await_callback strip fuel arrivals (PDict creds) w = (Polling, w1) /\
    httpd w1 = Some (mkServer false true None None []) /\
    stdin w1 = rest /\
    stdout w1 = stdout w ++ map (complaint strip true) skipped
                  ++ [Msg_oauth_login; Msg_opening_browser (strip line)] /\
    same_vault w w1 /\ same_traffic w w1 /\
    clock w1 = clock w + Z.of_nat fuel.
Proof.
  intros Hid Hin Hrej Hacc Hport.
  unfold Eldoore.await_callback. rewrite run_bind.
  rewrite <- (validate_input_without_validator strip true w).
  unfold Eldoore.validate_input_with.
  destruct (loop_returns strip None true skipped line rest
              (S (List.length (stdin w))) w Hin Hrej Hacc)
    as (w0 & Hrun & Hi & Ho & Hv & Ht & Hc).
  { rewrite Hin, length_app. simpl. lia. }
  cbn [option_map] in Hrun. rewrite Hrun.
  rewrite run_bind. cbv beta iota delta [print]. rewrite run_bind.
  unfold py_getitem. cbn [as_key]. run. rewrite Hid. run.
  match goal with
  | |- context [Eldoore.start_local_server ?w3] =>
      destruct (listen_and_wait fuel arrivals (strip line) w3)
        as (w1 & Hrun1 & Hh & Hv1 & Ht1 & Hi1 & Ho1 & Hc1)
  end.
  { simpl. destruct Hv as (_ & _ & _). 
    pose proof (validate_input_frame true (S (List.length (stdin w))) w) as [Hf _].
    rewrite <- loop_without_validator in Hf. cbn [option_map] in Hrun.
    rewrite Hrun in Hf. destruct Hf as (_ & _ & _ & Hp & _). simpl in Hp. congruence. }
  unfold bind in Hrun1. unfold bind.
  exists w1. split; [exact Hrun1|]. split; [exact Hh|].
  destruct Hv as (? & ? & ?), Ht as (? & ?),
           Hv1 as (? & ? & ?), Ht1 as (? & ?). simpl in *.
  repeat split; try congruence.
  rewrite Ho1, Ho, <- !app_assoc. reflexivity.
Qed.

(** With a username on the terminal and an app id, a busy port ends the
    first half of the login with the [OSError] of the server's
    constructor. *)
Lemma await_callback_busy_port fuel arrivals creds app_id skipped line rest w :
  dict_lookup (KStr "tiktok_app_id") creds = Some app_id ->
  stdin w = skipped ++ line :: rest ->
  (forall l, In l skipped -> acceptable strip None true l = false) ->
  acceptable strip None true line = true ->
  port_free w = false ->
  exists w1,
    Eldoore.await_callback strip fuel arrivals (PDict creds) w
      = (Raise OSError, w1) /\
    httpd w1 = httpd w /\
    stdin w1 = rest /\
    stdout w1 = stdout w ++ map (complaint strip true) skipped
                  ++ [Msg_oauth_login; Msg_opening_browser (strip line)] /\
    same_vault w w1 /\ same_traffic w w1.
Proof.
  intros Hid Hin Hrej Hacc Hport.
  unfold Eldoore.await_callback. rewrite run_bind.
  rewrite <- (validate_input_without_validator strip true w).
  unfold Eldoore.validate_input_with.
  destruct (loop_returns strip None true skipped line rest
              (S (List.length (stdin w))) w Hin Hrej Hacc)
    as (w0 & Hrun & Hi & Ho & Hv & Ht & Hc).
  { rewrite Hin, length_app. simpl. lia. }
  pose proof (validate_input_frame true (S (List.length (stdin w))) w) as [Hf _].
  rewrite <- loop_without_validator in Hf.
  cbn [option_map] in Hrun. rewrite Hrun in Hf. cbn [snd] in Hf.
  destruct Hf as (_ & _ & Hh0 & Hp0 & _).
  rewrite Hrun.
  rewrite run_bind. cbv beta iota delta [print]. rewrite run_bind.
  unfold py_getitem. cbn [as_key]. run. rewrite Hid. run.
  unfold Eldoore.start_local_server. cbn [port_free set_stdout].
  rewrite Hp0, Hport.
  eexists. split; [reflexivity|].
  destruct Hv as (? & ? & ?), Ht as (? & ?).
  unfold same_vault, same_traffic.
  cbn [data_file fernet disk_ok posted endpoint httpd stdin stdout set_stdout].
  repeat split; try congruence.
  rewrite Ho, <- !app_assoc. reflexivity.
Qed.

End WithStrip.

(** A vault that configures an app id is a vault [load_data] reads
    without a warning. *)
Lemma configured_load w doc creds :
  stored w = PDict doc ->
  creds_of doc = PDict creds ->
  truthy (dget "tiktok_app_id" creds) = true ->
  Eldoore.load_data w = (Ok (PDict doc), w).
Proof.
  intros Hst Hcreds Hid. unfold stored in Hst.
  destruct (eldoore_load_cases w) as [[v H]|H]; rewrite H in *; simpl in *.
  - now subst.
  - injection Hst as <-. unfold creds_of in Hcreds. simpl in Hcreds.
    injection Hcreds as <-. discriminate.
Qed.

Section WithLibraries.
Variable strip : string -> string.
Variable fromisoformat : string -> option Z.
Variable isoformat : Z -> string.

Lemma login_unconfigured fuel arrivals w doc creds :
  stored w = PDict doc ->
  creds_of doc = PDict creds ->
  truthy (dget "tiktok_app_id" creds) = false ->
  exists w1,
    (w1 = w \/ w1 = set_stdout (stdout w ++ [Msg_data_load_error]) w) /\
    Eldoore.tiktok_oauth_login strip fromisoformat isoformat fuel arrivals w =
    (Ok tt, set_stdout (stdout w1 ++ [Msg_set_credentials_first]) w1).
Proof.
  intros Hst Hcreds Hid.
  destruct (eldoore_load_value w) as (w1 & Hl & Hw1).
  exists w1. split; [exact Hw1|].
  unfold Eldoore.tiktok_oauth_login. rewrite run_bind, Hl, Hst.
  unfold creds_of, dget in *.
  unfold py_get at 1 2. cbn [as_key]. run.
  rewrite Hcreds. run. rewrite Hid. reflexivity.
Qed.

(** The login of a document that names a current user starts with a
    refresh of that user's session. *)
Lemma login_after_refresh fuel arrivals w doc creds cu key us r w' :
  stored w = PDict doc ->
  creds_of doc = PDict creds ->
  truthy (dget "tiktok_app_id" creds) = true ->
  dict_lookup (KStr "current_user") doc = Some cu ->
  truthy cu = true ->
  as_key cu = Some key ->
  dict_lookup (KStr "users") doc = Some (PDict us) ->
  Eldoore.refresh_token_if_needed fromisoformat isoformat
    (match dict_lookup key us with Some s => s | None => PDict [] end) w
    = (r, w') ->
  Eldoore.tiktok_oauth_login strip fromisoformat isoformat fuel arrivals w =
  match r with
  | Ok true => (Ok tt, set_stdout (stdout w' ++ [Msg_auto_refreshed cu]) w')
  | Ok false =>
      try_except
        (bind (Eldoore.await_callback strip fuel arrivals (PDict creds))
           (fun callback =>
              Eldoore.complete_login isoformat (PDict doc) (PDict creds)
                (fst callback) (snd callback)))
        Eldoore.login_handlers w'
  | Raise e => (Raise e, w')
  | Exit s => (Exit s, w')
  | Polling => (Polling, w')
  end.
Proof.
  intros Hst Hcreds Hid Hcu Htcu Hkey Hus Hrun.
  pose proof (configured_load w doc creds Hst Hcreds Hid) as Hl.
  unfold Eldoore.tiktok_oauth_login, Eldoore.get_user_data.
  rewrite run_bind, Hl.
  unfold creds_of, dget in *.
  unfold py_get at 1 2 3. unfold py_getitem at 1.
  cbn [as_key].
  cbv beta iota delta [bind ret raise or_raise].
  rewrite Hcreds. cbv beta iota. rewrite Hid. cbv beta iota delta [negb].
  rewrite Hcu. cbv beta iota. rewrite Htcu. cbv beta iota.
  rewrite Hl. cbv beta iota.
  unfold py_getitem at 1. unfold py_get at 1. cbn [as_key].
  cbv beta iota delta [bind ret raise or_raise].
  rewrite Hus. cbv beta iota. rewrite Hkey. cbv beta iota.
  rewrite Hrun.
  destruct r as [[|]|e|s|]; reflexivity.
Qed.

(** The login of a document without a current user goes to the prompt
    at once. *)
Lemma login_fresh fuel arrivals w doc creds :
  stored w = PDict doc ->
  creds_of doc = PDict creds ->
  truthy (dget "tiktok_app_id" creds) = true ->
  truthy (dget "current_user" doc) = false ->
  Eldoore.tiktok_oauth_login strip fromisoformat isoformat fuel arrivals w =
  try_except
    (bind (Eldoore.await_callback strip fuel arrivals (PDict creds))
       (fun callback =>
          Eldoore.complete_login isoformat (PDict doc) (PDict creds)
            (fst callback) (snd callback)))
    Eldoore.login_handlers w.
Proof.
  intros Hst Hcreds Hid Hcu.
  pose proof (configured_load w doc creds Hst Hcreds Hid) as Hl.
  unfold Eldoore.tiktok_oauth_login.
  rewrite run_bind, Hl.
  unfold creds_of, dget in *.
  unfold py_get at 1 2 3.
  cbn [as_key].
  cbv beta iota delta [bind ret raise or_raise].
  rewrite Hcreds. cbv beta iota. rewrite Hid. cbv beta iota delta [negb].
  rewrite Hcu. reflexivity.
Qed.

(** The [try] block of the login: it ends in one of the handlers, which
    print, or it is still polling.  It leaves the vault and the traffic
    as they were. *)
Lemma login_attempt fuel arrivals data creds w :
  exists r w',
    try_except
      (bind (Eldoore.await_callback strip fuel arrivals creds)
         (fun callback =>
            Eldoore.complete_login isoformat data creds
              (fst callback) (snd callback)))
      Eldoore.login_handlers w = (r, w') /\
    (r = Ok tt \/ r = Polling) /\
    same_vault w w' /\ same_traffic w w'.
Proof.
  destruct (await_callback_waits strip fuel arrivals creds w)
    as (r & w1 & Hrun & Hr & Hv & Ht).
  unfold try_except. rewrite run_bind, Hrun.
  destruct r as [cb|e|s|]; try contradiction.
  - unfold Eldoore.login_handlers.
    destruct (is_http_error e); [|destruct (is_request_exception e)];
      (eexists; eexists; split; [reflexivity|]; split; [now left|];
       destruct Hv as (? & ? & ?), Ht as (? & ?); repeat split; assumption).
  - exists Polling, w1. split; [reflexivity|]. split; [now right|].
    split; assumption.
Qed.

End WithLibraries.
End LoginFacts.

Module Login.
Import Runtime Builtins Props Samples RunFacts JsonFacts VaultFacts DictFacts.
Import StoredFacts RefreshFacts RefreshEdges Callback LoginFacts.
Local Open Scope list_scope.

(** X18.  Without an app id in the stored credentials the login prints
    its hint and returns: it asks nothing, starts no listener, sends
    nothing and leaves the vault as it was.  This is what a first run
    does. *)
Theorem login_without_app_id_only_prints
    (strip : string -> string)
    (fromisoformat : string -> option Z) (isoformat : Z -> string)
    (fuel : nat) (arrivals : nat -> list Eldoore.query)
    (doc creds : dict) (w : world) :
  stored w = PDict doc ->
  creds_of doc = PDict creds ->
  truthy (dget "tiktok_app_id" creds) = false ->
  exists w',
    Eldoore.tiktok_oauth_login strip fromisoformat isoformat fuel arrivals w
      = (Ok tt, w') /\
    (stdout w' = stdout w ++ [Msg_set_credentials_first] \/
     stdout w' = stdout w ++ [Msg_data_load_error; Msg_set_credentials_first]) /\
    stdin w' = stdin w /\ httpd w' = httpd w /\
    same_vault w w' /\ same_traffic w w'.
Proof.
  intros Hst Hcreds Hid.
  destruct (login_unconfigured strip fromisoformat isoformat fuel arrivals w doc creds
              Hst Hcreds Hid) as (w1 & Hw1 & Hrun).
  eexists. split; [exact Hrun|].
  destruct Hw1 as [->| ->]; simpl; repeat split; auto.
  right. now rewrite <- app_assoc.
Qed.

Lemma login_without_app_id_witness :
  exists w',
    Eldoore.tiktok_oauth_login sample_strip sample_fromisoformat sample_isoformat 5
      callback_for_bob (set_stdin ["alice"] fresh_world) = (Ok tt, w') /\
    stdin w' = ["alice"] /\ httpd w' = None.
Proof.
  destruct (login_without_app_id_only_prints sample_strip sample_fromisoformat
              sample_isoformat 5 callback_for_bob
              [(KStr "users", PDict []); (KStr "analyses", PList []);
               (KStr "creds", PDict []); (KStr "current_user", PNone)]
              [] (set_stdin ["alice"] fresh_world) eq_refl eq_refl eq_refl)
    as (w' & Hrun & _ & Hi & Hh & _).
  exists w'. split; [exact Hrun|]. split; [exact Hi|exact Hh].
Defined.

(** X19.  When the stored document names a current user whose session
    has expired and holds no refresh token, the login announces
    "Token auto-refreshed" and returns: it does not prompt, does not
    contact the provider and does not touch the vault, so the expired
    session stays. *)
Theorem login_announces_a_refresh_that_did_not_happen
    (strip : string -> string)
    (fromisoformat : string -> option Z) (isoformat : Z -> string)
    (fuel : nat) (arrivals : nat -> list Eldoore.query)
    (doc creds us : dict) (cu : pyval) (key : pykey) (session : pyval)
    (w : world) :
  stored w = PDict doc ->
  creds_of doc = PDict creds ->
  truthy (dget "tiktok_app_id" creds) = true ->
  dict_lookup (KStr "current_user") doc = Some cu ->
  truthy cu = true ->
  as_key cu = Some key ->
  dict_lookup (KStr "users") doc = Some (PDict us) ->
  dict_lookup key us = Some session ->
  expired_at fromisoformat (clock w) session = true ->
  has_refresh_token session = false ->
  Eldoore.tiktok_oauth_login strip fromisoformat isoformat fuel arrivals w =
  (Ok tt, set_stdout (stdout w ++ [Msg_auto_refreshed cu])
            (set_user_data session w)).
Proof.
  intros Hst Hcreds Hid Hcu Htcu Hkey Hus Hs Hexp Hno.
  rewrite (login_after_refresh strip fromisoformat isoformat fuel arrivals w doc creds
             cu key us (Ok true) (set_user_data session w)
             Hst Hcreds Hid Hcu Htcu Hkey Hus); [reflexivity|].
  rewrite Hs. now apply refresh_nothing_to_do.
Qed.

Lemma login_announces_a_refresh_witness :
  Eldoore.tiktok_oauth_login sample_strip sample_fromisoformat sample_isoformat 5
    callback_for_bob (set_stdin ["bob"] (world_with bob_document fresh_world)) =
  (Ok tt,
   set_stdout [Msg_auto_refreshed (PStr "bob")]
     (set_user_data expired_session
        (set_stdin ["bob"] (world_with bob_document fresh_world)))).
Proof.
  apply (login_announces_a_refresh_that_did_not_happen sample_strip
           sample_fromisoformat
           sample_isoformat 5 callback_for_bob
           [(KStr "users", PDict [(KStr "alice", renewable_session);
                                  (KStr "bob", expired_session)]);
            (KStr "analyses", PList []);
            (KStr "creds", sample_creds);
            (KStr "current_user", PStr "bob")]
           [(KStr "tiktok_app_id", PStr "app");
            (KStr "tiktok_app_secret", PStr "secret");
            (KStr "tiktok_advertiser_id", PStr "adv")]
           [(KStr "alice", renewable_session); (KStr "bob", expired_session)]
           (PStr "bob") (KStr "bob") expired_session
           (set_stdin ["bob"] (world_with bob_document fresh_world)));
    vm_compute; reflexivity.
Defined.

(** X20.  The refresh the login starts with runs outside the [try] of
    the login: when the stored expiry of the current user is no date,
    the [RetryError] of the decorator - after three attempts and two
    sleeps of four seconds - leaves [tiktok_oauth_login] uncaught,
    before any prompt. *)
Theorem login_lets_the_retry_error_out
    (strip : string -> string)
    (fromisoformat : string -> option Z) (isoformat : Z -> string)
    (fuel : nat) (arrivals : nat -> list Eldoore.query)
    (doc creds us : dict) (cu : pyval) (key : pykey) (session : pyval)
    (w : world) :
  stored w = PDict doc ->
  creds_of doc = PDict creds ->
  truthy (dget "tiktok_app_id" creds) = true ->
  dict_lookup (KStr "current_user") doc = Some cu ->
  truthy cu = true ->
  as_key cu = Some key ->
  dict_lookup (KStr "users") doc = Some (PDict us) ->
  dict_lookup key us = Some session ->
  unreadable_expiry fromisoformat session = true ->
  exists w',
    Eldoore.tiktok_oauth_login strip fromisoformat isoformat fuel arrivals w
      = (Raise RetryError, w') /\
    slept w' = slept w ++ [4; 4] /\
    stdin w' = stdin w /\ stdout w' = stdout w /\
    same_vault w w' /\ same_traffic w w'.
Proof.
  intros Hst Hcreds Hid Hcu Htcu Hkey Hus Hs Hbad.
  eexists. split.
  - rewrite (login_after_refresh strip fromisoformat isoformat fuel arrivals w doc
               creds cu key us (Raise RetryError)
               (set_slept (slept w ++ [4; 4])
                  (set_clock (clock w + 8) (set_user_data session w)))
               Hst Hcreds Hid Hcu Htcu Hkey Hus); [reflexivity|].
    rewrite Hs. now apply refresh_unreadable.
  - repeat split.
Qed.

Lemma login_lets_the_retry_error_out_witness :
  exists w',
    Eldoore.tiktok_oauth_login sample_strip sample_fromisoformat sample_isoformat 5
      callback_for_bob (world_with garbled_document fresh_world)
      = (Raise RetryError, w') /\
    slept w' = [4; 4].
Proof.
  destruct (login_lets_the_retry_error_out sample_strip sample_fromisoformat
              sample_isoformat 5 callback_for_bob
              [(KStr "users", PDict [(KStr "carol", garbled_session)]);
               (KStr "analyses", PList []);
               (KStr "creds", sample_creds);
               (KStr "current_user", PStr "carol")]
              [(KStr "tiktok_app_id", PStr "app");
               (KStr "tiktok_app_secret", PStr "secret");
               (KStr "tiktok_advertiser_id", PStr "adv")]
              [(KStr "carol", garbled_session)]
              (PStr "carol") (KStr "carol") garbled_session
              (world_with garbled_document fresh_world))
    as (w' & Hrun & Hs & _); [vm_compute; reflexivity .. | ].
  exists w'. split; [exact Hrun|exact Hs].
Defined.

Lemma app_id_present creds :
  truthy (dget "tiktok_app_id" creds) = true ->
  exists app_id, dict_lookup (KStr "tiktok_app_id") creds = Some app_id.
Proof.
  unfold dget. destruct (dict_lookup (KStr "tiktok_app_id") creds) as [v|];
    [eauto|discriminate].
Qed.

(** X21.  No callback ends the wait of a login.  On a configured vault
    without a current user, with a username typed and the port free,
    the login is still polling after any number of polls, whatever is
    sent to the port in the meantime - a callback with the state of the
    login, with another state, or none: the socket of the listener was
    closed when [start_local_server] returned, so that no request
    reaches the handler and [httpd.auth_code] stays [None].  The check
    of the state, the exchange of the code and the storing of the
    session are never reached: the vault is as it was and nothing was
    sent to the provider. *)
Theorem no_callback_ends_the_wait
    (strip : string -> string)
    (fromisoformat : string -> option Z) (isoformat : Z -> string)
    (fuel : nat) (arrivals : nat -> list Eldoore.query)
    (doc creds : dict) (skipped : list string) (line : string)
    (rest : list string) (w : world) :
  stored w = PDict doc ->
  creds_of doc = PDict creds ->
  truthy (dget "tiktok_app_id" creds) = true ->
  truthy (dget "current_user" doc) = false ->
  stdin w = skipped ++ line :: rest ->
  (forall l, In l skipped -> acceptable strip None true l = false) ->
  acceptable strip None true line = true ->
  port_free w = true ->
  exists w',
    Eldoore.tiktok_oauth_login strip fromisoformat isoformat fuel arrivals w
      = (Polling, w') /\
    httpd w' = Some (mkServer false true None None []) /\
    stdin w' = rest /\
    stdout w' = stdout w ++ map (complaint strip true) skipped
                  ++ [Msg_oauth_login; Msg_opening_browser (strip line)] /\
    same_vault w w' /\ same_traffic w w' /\
    clock w' = clock w + Z.of_nat fuel.
Proof.
  intros Hst Hcreds Hid Hcu Hin Hrej Hacc Hport.
  rewrite (login_fresh strip fromisoformat isoformat fuel arrivals w doc creds
             Hst Hcreds Hid Hcu).
  destruct (app_id_present creds Hid) as (app_id & Happ).
  destruct (await_callback_polls strip fuel arrivals creds app_id skipped line
              rest w Happ Hin Hrej Hacc Hport)
    as (w' & Hrun & Hrest).
  exists w'. unfold try_except. rewrite run_bind, Hrun.
  split; [reflexivity|exact Hrest].
Qed.

Lemma no_callback_ends_the_wait_witness :
  exists w',
    Eldoore.tiktok_oauth_login sample_strip sample_fromisoformat sample_isoformat
      1000 callback_for_bob
      (set_stdin ["  "; " bob "] (world_with configured_document fresh_world))
      = (Polling, w') /\
    httpd w' = Some (mkServer false true None None []) /\
    stdout w' = [Msg_field_required; Msg_oauth_login; Msg_opening_browser "bob"] /\
    data_file w' = data_file (world_with configured_document fresh_world) /\
    posted w' = [].
Proof.
  destruct (no_callback_ends_the_wait sample_strip sample_fromisoformat
              sample_isoformat 1000 callback_for_bob
              [(KStr "users", PDict []);
               (KStr "analyses", PList []);
               (KStr "creds", sample_creds);
               (KStr "current_user", PNone)]
              [(KStr "tiktok_app_id", PStr "app");
               (KStr "tiktok_app_secret", PStr "secret");
               (KStr "tiktok_advertiser_id", PStr "adv")]
              ["  "] " bob " []
              (set_stdin ["  "; " bob "]
                 (world_with configured_document fresh_world)))
    as (w' & Hrun & Hh & _ & Ho & (Hf & _) & (Hp & _) & _).
  - vm_compute. reflexivity.
  - reflexivity.
  - reflexivity.
  - reflexivity.
  - reflexivity.
  - intros l [<-|[]]. reflexivity.
  - reflexivity.
  - reflexivity.
  - exists w'. split; [exact Hrun|]. split; [exact Hh|].
    split; [exact Ho|]. split; [exact Hf|exact Hp].
Defined.

(** X22.  [tiktok_oauth_login] logs no new user in.  When the stored
    document names no current user, the login returns having only
    printed, or it is still waiting for the callback; whatever is typed
    and whatever is sent to the port, the vault file is as it was and
    nothing was sent to the provider. *)
Theorem login_without_current_user_writes_nothing
    (strip : string -> string)
    (fromisoformat : string -> option Z) (isoformat : Z -> string)
    (fuel : nat) (arrivals : nat -> list Eldoore.query)
    (doc creds : dict) (w : world) :
  stored w = PDict doc ->
  creds_of doc = PDict creds ->
  truthy (dget "current_user" doc) = false ->
  exists r w',
    Eldoore.tiktok_oauth_login strip fromisoformat isoformat fuel arrivals w
      = (r, w') /\
    (r = Ok tt \/ r = Polling) /\
    same_vault w w' /\ same_traffic w w'.
Proof.
  intros Hst Hcreds Hcu.
  destruct (truthy (dget "tiktok_app_id" creds)) eqn:Hid.
  - rewrite (login_fresh strip fromisoformat isoformat fuel arrivals w doc creds
               Hst Hcreds Hid Hcu).
    apply login_attempt.
  - destruct (login_unconfigured strip fromisoformat isoformat fuel arrivals w
                doc creds Hst Hcreds Hid) as (w1 & Hw1 & Hrun).
    eexists. eexists. split; [exact Hrun|]. split; [now left|].
    destruct Hw1 as [->| ->]; repeat split.
Qed.

Lemma login_without_current_user_witness :
  exists r w',
    Eldoore.tiktok_oauth_login sample_strip sample_fromisoformat sample_isoformat
      60 callback_for_bob
      (set_stdin ["bob"] (world_with two_users_document fresh_world)) = (r, w') /\
    (r = Ok tt \/ r = Polling) /\
    data_file w' = data_file (world_with two_users_document fresh_world) /\
    posted w' = [].
Proof.
  destruct (login_without_current_user_writes_nothing sample_strip
              sample_fromisoformat sample_isoformat 60 callback_for_bob
              [(KStr "users", PDict [(KStr "alice", renewable_session);
                                     (KStr "bob", expired_session)]);
               (KStr "analyses", PList []);
               (KStr "creds", sample_creds);
               (KStr "current_user", PNone)]
              [(KStr "tiktok_app_id", PStr "app");
               (KStr "tiktok_app_secret", PStr "secret");
               (KStr "tiktok_advertiser_id", PStr "adv")]
              (set_stdin ["bob"] (world_with two_users_document fresh_world)))
    as (r & w' & Hrun & Hr & (Hf & _) & (Hp & _)).
  - vm_compute. reflexivity.
  - reflexivity.
  - reflexivity.
  - exists r, w'. split; [exact Hrun|]. split; [exact Hr|].
    split; [exact Hf|exact Hp].
Defined.

(** X23.  A port that is taken is reported as an OAuth error.  On a
    configured vault without a current user, with a username typed and
    the port of the listener in use, the [OSError] of the server's
    constructor is caught by the last handler of the login: the login
    prints "OAuth error" and returns.  No listener is left, the vault
    is as it was and nothing was sent to the provider. *)
Theorem busy_port_is_reported_as_an_oauth_error
    (strip : string -> string)
    (fromisoformat : string -> option Z) (isoformat : Z -> string)
    (fuel : nat) (arrivals : nat -> list Eldoore.query)
    (doc creds : dict) (skipped : list string) (line : string)
    (rest : list string) (w : world) :
  stored w = PDict doc ->
  creds_of doc = PDict creds ->
  truthy (dget "tiktok_app_id" creds) = true ->
  truthy (dget "current_user" doc) = false ->
  stdin w = skipped ++ line :: rest ->
  (forall l, In l skipped -> acceptable strip None true l = false) ->
  acceptable strip None true line = true ->
  port_free w = false ->
  exists w',
    Eldoore.tiktok_oauth_login strip fromisoformat isoformat fuel arrivals w
      = (Ok tt, w') /\
    httpd w' = httpd w /\
    stdin w' = rest /\
    stdout w' = stdout w ++ map (complaint strip true) skipped
                  ++ [Msg_oauth_login; Msg_opening_browser (strip line);
                      Msg_oauth_error] /\
    same_vault w w' /\ same_traffic w w'.
Proof.
  intros Hst Hcreds Hid Hcu Hin Hrej Hacc Hport.
  rewrite (login_fresh strip fromisoformat isoformat fuel arrivals w doc creds
             Hst Hcreds Hid Hcu).
  destruct (app_id_present creds Hid) as (app_id & Happ).
  destruct (await_callback_busy_port strip fuel arrivals creds app_id skipped
              line rest w Happ Hin Hrej Hacc Hport)
    as (w1 & Hrun & Hh & Hi & Ho & (Hf & Hk & Hd) & (Hp & He)).
  unfold try_except. rewrite run_bind, Hrun.
  cbv beta iota delta [Eldoore.login_handlers is_http_error is_request_exception
                       print].
  eexists. split; [reflexivity|].
  unfold same_vault, same_traffic.
  cbn [data_file fernet disk_ok posted endpoint httpd stdin stdout set_stdout].
  repeat split; try assumption.
  rewrite Ho, <- !app_assoc. reflexivity.
Qed.

Lemma busy_port_witness :
  exists w',
    Eldoore.tiktok_oauth_login sample_strip sample_fromisoformat sample_isoformat
      5 callback_for_bob
      (mkWorld (data_file (world_with configured_document fresh_world)) true
               0%nat 1700000000 [] [] [] ["bob"] [] false None PNone)
      = (Ok tt, w') /\
    stdout w' = [Msg_oauth_login; Msg_opening_browser "bob"; Msg_oauth_error] /\
    httpd w' = None.
Proof.
  destruct (busy_port_is_reported_as_an_oauth_error sample_strip
              sample_fromisoformat sample_isoformat 5 callback_for_bob
              [(KStr "users", PDict []);
               (KStr "analyses", PList []);
               (KStr "creds", sample_creds);
               (KStr "current_user", PNone)]
              [(KStr "tiktok_app_id", PStr "app");
               (KStr "tiktok_app_secret", PStr "secret");
               (KStr "tiktok_advertiser_id", PStr "adv")]
              [] "bob" []
              (mkWorld (data_file (world_with configured_document fresh_world))
                       true 0%nat 1700000000 [] [] [] ["bob"] [] false None PNone))
    as (w' & Hrun & Hh & _ & Ho & _).
  - vm_compute. reflexivity.
  - reflexivity.
  - reflexivity.
  - reflexivity.
  - reflexivity.
  - intros l [].
  - reflexivity.
  - reflexivity.
  - exists w'. split; [exact Hrun|]. split; [exact Ho|exact Hh].
Defined.

End Login.

(* ================================================================= *)
(** * Properties of the key file *)

Module Keys.
Import Runtime Builtins Props Samples RunFacts VaultFacts KeyManager.
Local Open Scope list_scope.

(** X24.  The start of [eldoore1.1.py] that finds a key older than
    thirty days replaces the key file and then stops with a
    [NameError], since the message of the rotation uses [Colors] before
    the class is defined.  The next start loads the new key, which is
    not the old one: a vault written under the old key is then read as
    the empty document, with the warning of [load_data]. *)
Theorem rotation_orphans_the_vault
    (t t' : Z) (ks : keystore) (k : Fernet.key) (mtime : Z)
    (p : Fernet.plaintext) (w : world) :
  well_formed ks ->
  key_file ks = Some (k, mtime) ->
  t - mtime > ROTATION_AGE ->
  t' - t <= ROTATION_AGE ->
  data_file w = Some (Fernet.Token k p) ->
  exists k' ks1,
    manage_encryption_key t ks = (Name_error, ks1) /\
    manage_encryption_key t' ks1 = (Loaded k', ks1) /\
    k' <> k /\
    (fernet w = k' ->
     Eldoore.load_data w =
     (Ok Eldoore.empty_document,
      set_stdout (stdout w ++ [Msg_data_load_error]) w)).
Proof.
  intros Hwf Hkey Hold Hnew Hfile.
  exists (generated ks), (write_new_key t (mkKeystore None (generated ks))).
  unfold manage_encryption_key. rewrite Hkey.
  assert ((t - mtime >? ROTATION_AGE) = true) as -> by (apply Z.gtb_lt; lia).
  split; [reflexivity|]. cbn [key_file write_new_key generated].
  assert ((t' - t >? ROTATION_AGE) = false) as ->.
  { rewrite Z.gtb_ltb. apply Z.ltb_ge. lia. }
  split; [reflexivity|].
  pose proof (Hwf k mtime Hkey) as Hlt.
  split; [lia|].
  intros Hk. apply (eldoore_load_unusable w _ Hfile).
  intros j. simpl. rewrite Hk.
  destruct (Nat.eqb (generated ks) k) eqn:E; [|discriminate].
  apply Nat.eqb_eq in E. lia.
Qed.

Lemma rotation_orphans_the_vault_witness :
  exists k' ks1,
    manage_encryption_key 2600000 (mkKeystore (Some (0%nat, 0)) 1) = (Name_error, ks1) /\
    manage_encryption_key 2600060 ks1 = (Loaded k', ks1) /\
    k' = 1%nat.
Proof.
  destruct (rotation_orphans_the_vault 2600000 2600060
              (mkKeystore (Some (0%nat, 0)) 1) 0%nat 0
              (Fernet.JsonText Json.JNull)
              (set_data_file (Some (Fernet.Token 0%nat (Fernet.JsonText Json.JNull)))
                 fresh_world))
    as (k' & ks1 & H1 & H2 & _).
  - intros k t H. injection H as <- _. simpl. lia.
  - reflexivity.
  - vm_compute. reflexivity.
  - vm_compute. discriminate.
  - reflexivity.
  - exists k', ks1. split; [exact H1|]. split; [exact H2|].
    vm_compute in H1. injection H1 as <-. vm_compute in H2. now injection H2 as <-.
Defined.

Lemma starts_keep_the_key times :
  forall ks k mtime last,
    key_file ks = Some (k, mtime) ->
    (last = Loaded k \/ times <> []) ->
    starts ensure_key times ks last = (Loaded k, ks).
Proof.
  induction times as [|t times IH]; intros ks k mtime last Hkey Hlast.
  - destruct Hlast as [->|H]; [reflexivity|now destruct H].
  - cbn [starts]. unfold ensure_key. rewrite Hkey.
    apply (IH ks k mtime); auto.
Qed.

(** X25.  [TTKv1.py] and [tiktok_kit_cli.py] never replace a key: once
    the key file exists, every later start - however many, whenever -
    loads the key it holds and leaves the file as it is. *)
Theorem once_written_the_key_stays
    (times : list Z) (t0 : Z) (ks : keystore) :
  key_file ks = None ->
  exists k ks1,
    ensure_key t0 ks = (Loaded k, ks1) /\
    key_file ks1 = Some (k, t0) /\
    starts ensure_key times ks1 (Loaded k) = (Loaded k, ks1).
Proof.
  intros Hnone. unfold ensure_key at 1. rewrite Hnone.
  eexists. eexists. split; [reflexivity|]. split; [reflexivity|].
  apply (starts_keep_the_key times _ _ t0); auto.
Qed.

Lemma once_written_the_key_stays_witness :
  exists k ks1,
    ensure_key 0 (mkKeystore None 0) = (Loaded k, ks1) /\
    starts ensure_key [2600000; 5200000; 7800000] ks1 (Loaded k) = (Loaded k, ks1).
Proof.
  destruct (once_written_the_key_stays [2600000; 5200000; 7800000] 0
              (mkKeystore None 0) eq_refl) as (k & ks1 & H1 & _ & H2).
  exists k, ks1. split; [exact H1|exact H2].
Defined.

End Keys.

(* ================================================================= *)
(** * Properties of [tiktok_kit_cli.py] and [TTKv1.py] *)

Module KitFacts.
Import Runtime Builtins Props Samples RunFacts JsonFacts VaultFacts DictFacts.
Import StoredFacts.
Local Open Scope list_scope.

Lemma kit_load w :
  TTKv1.load_data w = (Ok (kit_document w), w) /\
  KitCli.load_data w = (Ok (kit_document w), w).
Proof.
  unfold TTKv1.load_data, KitCli.load_data, kit_document. run.
  destruct (data_file w) as [c|] eqn:E; run; rewrite ?E; run; [|auto].
  destruct (Fernet.decrypt (fernet w) c) as [[j|raw]|]; auto.
  unfold json_loads. destruct (Json.parses j); auto.
Qed.

Lemma kit_document_json_value w : json_value (kit_document w) = true.
Proof.
  unfold kit_document. destruct (data_file w) as [c|]; [|reflexivity].
  destruct (Fernet.decrypt (fernet w) c) as [[j|raw]|]; try reflexivity.
  destruct (Json.parses j) eqn:Hp; [|reflexivity].
  now apply loads_json_value.
Qed.

Lemma kit_document_same w w' :
  data_file w' = data_file w -> fernet w' = fernet w ->
  kit_document w' = kit_document w.
Proof. intros Hf Hk. unfold kit_document. now rewrite Hf, Hk. Qed.

Lemma kit_document_of_token w j :
  data_file w = Some (Fernet.Token (fernet w) (Fernet.JsonText j)) ->
  Json.parses j = true ->
  kit_document w = Json.loads j.
Proof.
  intros H Hp. unfold kit_document. rewrite H. simpl.
  now rewrite Nat.eqb_refl, Hp.
Qed.

Lemma kit_encrypt data j w :
  Json.dumps data = Some j ->
  KitCli.encrypt_data data w =
  if disk_ok w
  then (Ok tt, set_data_file (Some (Fernet.Token (fernet w) (Fernet.JsonText j))) w)
  else (Raise OSError, w).
Proof.
  intros Hj. unfold KitCli.encrypt_data. run. rewrite Hj. reflexivity.
Qed.

Lemma ttkv1_encrypt data w :
  TTKv1.encrypt_data data w = KitCli.encrypt_data data w.
Proof. reflexivity. Qed.

Lemma kit_get_user_data username key doc us w :
  kit_document w = PDict doc ->
  dict_lookup (KStr "users") doc = Some (PDict us) ->
  as_key username = Some key ->
  KitCli.get_user_data username w =
  (Ok (match dict_lookup key us with Some v => v | None => PDict [] end), w).
Proof.
  intros Hst Hus Hkey. destruct (kit_load w) as [_ Hl].
  unfold KitCli.get_user_data. rewrite run_bind, Hl, Hst.
  unfold py_getitem, py_get. cbn [as_key]. run. rewrite Hus. run.
  rewrite Hkey. reflexivity.
Qed.

Lemma lacks_username_lookup k us r :
  lacks_username us = true -> dict_lookup k us = Some r ->
  exists rd, r = PDict rd /\ dict_lookup (KStr "username") rd = None.
Proof.
  unfold lacks_username. induction us as [|[k0 v0] us IH]; simpl; intros H Hl.
  - discriminate.
  - apply andb_true_iff in H as [H0 Hus].
    destruct (key_eqb k k0).
    + injection Hl as <-. destruct v0 as [ | | | | |rd| ]; try discriminate.
      exists rd. split; [reflexivity|].
      apply mem_false_lookup. now apply negb_true_iff.
    + now apply IH.
Qed.

Lemma lacks_username_set k rd us :
  dict_mem (KStr "username") rd = false ->
  lacks_username us = true ->
  lacks_username (dict_set k (PDict rd) us) = true.
Proof.
  intros Hrd. unfold lacks_username.
  induction us as [|[k0 v0] us IH]; simpl; intros H.
  - now rewrite Hrd.
  - apply andb_true_iff in H as [H0 Hus].
    destruct (key_eqb k k0); simpl.
    + now rewrite Hrd, Hus.
    + now rewrite H0, IH.
Qed.

(** The line of the menu that computes the username, on a vault whose
    records have no [username] entry. *)
Lemma menu_session_without_username doc us w :
  kit_document w = PDict doc ->
  dict_lookup (KStr "users") doc = Some (PDict us) ->
  lacks_username us = true ->
  exists token, KitCli.menu_session w = (Ok (PNone, token), w).
Proof.
  intros Hst Hus Hlack. unfold KitCli.menu_session.
  rewrite !run_bind.
  rewrite (kit_get_user_data (PStr "current_user") (KStr "current_user")
             doc us w Hst Hus eq_refl).
  destruct (dict_lookup (KStr "current_user") us) as [r|] eqn:E.
  - destruct (lacks_username_lookup _ _ _ Hlack E) as (rd & -> & Hno).
    unfold py_get at 1. cbn [as_key]. run. rewrite Hno.
    rewrite (kit_get_user_data (PStr "current_user") (KStr "current_user")
               doc us w Hst Hus eq_refl), E.
    destruct (truthy (PDict rd)).
    + rewrite (kit_get_user_data (PStr "current_user") (KStr "current_user")
                 doc us w Hst Hus eq_refl), E.
      unfold py_get. cbn [as_key]. run. eexists. reflexivity.
    + eexists. reflexivity.
  - unfold py_get at 1. cbn [as_key dict_lookup]. run.
    rewrite (kit_get_user_data (PStr "current_user") (KStr "current_user")
               doc us w Hst Hus eq_refl), E.
    cbn [truthy]. eexists. reflexivity.
Qed.

Section WithLibraries.
Variable strip : string -> string.
Variable isoformat : Z -> string.
Variable b64encode : string -> string.

Lemma token_record_json_value t token :
  json_value token = true -> json_value (token_record isoformat t token) = true.
Proof. intros H. unfold token_record. rewrite json_value_PDict. cbn. now rewrite H. Qed.

Lemma kit_login_run doc us line password rest w :
  kit_document w = PDict doc ->
  dict_lookup (KStr "users") doc = Some (PDict us) ->
  stdin w = line :: password :: rest ->
  truthy (PStr (strip line)) = true ->
  truthy (PStr password) = true ->
  disk_ok w = true ->
  exists w1,
    KitCli.login strip isoformat b64encode w =
      (Ok (PStr (strip line), PStr (b64encode (strip line ++ ":" ++ password))), w1) /\
    kit_document w1 =
      PDict (dict_set (KStr "users")
               (PDict (dict_set (KStr (strip line))
                         (token_record isoformat (clock w + 8)
                            (PStr (b64encode (strip line ++ ":" ++ password))))
                         us)) doc) /\
    stdin w1 = rest /\ fernet w1 = fernet w.
Proof.
  intros Hst Hus Hin Hname Hpw Hdisk.
  pose proof (kit_document_json_value w) as Hdoc. rewrite Hst in Hdoc.
  assert (json_value (PDict us) = true) as Husj
    by exact (json_value_lookup (KStr "users") doc _ Hdoc Hus).
  set (token := PStr (b64encode (strip line ++ ":" ++ password))).
  set (record := token_record isoformat (clock w + 8) token).
  assert (json_value
            (PDict (dict_set (KStr "users")
                      (PDict (dict_set (KStr (strip line)) record us)) doc)) = true)
    as Hnew.
  { apply json_value_set; [|exact Hdoc]. apply json_value_set; [|exact Husj].
    now apply token_record_json_value. }
  destruct (roundtrip_json_value _ Hnew) as (jdoc & Hjdoc & Hback).
  unfold KitCli.login, KitCli.save_token.
  unfold print, input, loading_spinner.
  cbv beta iota delta [bind ret].
  cbn [stdin set_stdout set_stdin set_clock]. rewrite Hin. cbv beta iota.
  cbn [stdin set_stdout set_stdin set_clock].
  rewrite Hname, Hpw. cbn [andb].
  match goal with
  | |- context [KitCli.load_data ?W] =>
      rewrite (proj2 (kit_load W));
      rewrite (kit_document_same w W eq_refl eq_refl), Hst
  end.
  unfold now, py_getitem, py_setitem. cbn [as_key].
  cbv beta iota delta [bind ret raise or_raise].
  rewrite Hus. cbv beta iota.
  cbn [clock set_stdout set_stdin set_clock].
  fold token. fold record.
  unfold token_record in record. fold record in Hjdoc.
  unfold record in *. rewrite (kit_encrypt _ jdoc _ Hjdoc).
  cbn [disk_ok set_stdout set_stdin set_clock]. rewrite Hdisk.
  eexists. split; [reflexivity|]. split.
  - rewrite <- Hback.
    apply kit_document_of_token; [reflexivity|exact (dumps_parses _ _ Hjdoc)].
  - split; reflexivity.
Qed.

End WithLibraries.
End KitFacts.

Module Kit.
Import Runtime Builtins Props Samples RunFacts JsonFacts VaultFacts DictFacts.
Import StoredFacts KitFacts.
Local Open Scope list_scope.

(** X26.  In [tiktok_kit_cli.py] a login is forgotten by the menu.  On
    a vault whose user records have no [username] entry - as every
    record [save_token] writes - a login with a username and a password
    stores the record with the token under the username, and the line
    of [main_menu] that computes the username at the start of the next
    round ([get_user_data("current_user").get("username")]) yields
    [None]: the choices guarded by [and username] are not admitted.
    The records still have no [username] entry afterwards. *)
Theorem menu_forgets_who_logged_in
    (strip : string -> string)
    (isoformat : Z -> string) (b64encode : string -> string)
    (doc us : dict) (line password : string) (rest : list string) (w : world) :
  kit_document w = PDict doc ->
  dict_lookup (KStr "users") doc = Some (PDict us) ->
  lacks_username us = true ->
  stdin w = line :: password :: rest ->
  truthy (PStr (strip line)) = true ->
  truthy (PStr password) = true ->
  disk_ok w = true ->
  exists w1 session us1,
    KitCli.login strip isoformat b64encode w =
      (Ok (PStr (strip line), PStr (b64encode (strip line ++ ":" ++ password)%string)), w1) /\
    KitCli.get_user_data (PStr (strip line)) w1 =
      (Ok (token_record isoformat (clock w + 8)
             (PStr (b64encode (strip line ++ ":" ++ password)%string))), w1) /\
    KitCli.menu_session w1 = (Ok session, w1) /\
    KitCli.menu_guard (fst session) = false /\
    fst (py_getitem (kit_document w1) (PStr "users") w1) = Ok (PDict us1) /\
    lacks_username us1 = true.
Proof.
  intros Hst Hus Hlack Hin Hname Hpw Hdisk.
  destruct (kit_login_run strip isoformat b64encode doc us line password rest w
              Hst Hus Hin Hname Hpw Hdisk) as (w1 & Hrun & Hst1 & _).
  set (us1 := dict_set (KStr (strip line))
                (token_record isoformat (clock w + 8)
                   (PStr (b64encode (strip line ++ ":" ++ password)%string))) us) in *.
  assert (dict_lookup (KStr "users")
            (dict_set (KStr "users") (PDict us1) doc) = Some (PDict us1)) as Hus1
    by apply lookup_set_same.
  assert (lacks_username us1 = true) as Hlack1
    by (apply lacks_username_set; [reflexivity|exact Hlack]).
  destruct (menu_session_without_username _ us1 w1 Hst1 Hus1 Hlack1)
    as (token & Hmenu).
  exists w1, (PNone, token), us1. split; [exact Hrun|]. split.
  - rewrite (kit_get_user_data (PStr (strip line)) (KStr (strip line)) _ us1 w1
               Hst1 Hus1 eq_refl).
    unfold us1. now rewrite lookup_set_same.
  - split; [exact Hmenu|]. split; [reflexivity|]. split; [|exact Hlack1].
    rewrite Hst1. unfold py_getitem. cbn [as_key]. run. now rewrite Hus1.
Qed.

Lemma menu_forgets_who_logged_in_witness :
  exists w1 session,
    KitCli.login sample_strip sample_isoformat sample_b64encode
      (set_stdin [" alice "; "secret"; "2"] fresh_world) =
      (Ok (PStr "alice", PStr "b64(alice:secret)"), w1) /\
    KitCli.menu_session w1 = (Ok session, w1) /\
    KitCli.menu_guard (fst session) = false.
Proof.
  destruct (menu_forgets_who_logged_in sample_strip sample_isoformat
              sample_b64encode
              [(KStr "users", PDict []); (KStr "analyses", PList []);
               (KStr "payments", PDict [])]
              [] " alice " "secret" ["2"]
              (set_stdin [" alice "; "secret"; "2"] fresh_world)
              eq_refl eq_refl eq_refl eq_refl eq_refl eq_refl eq_refl)
    as (w1 & session & us1 & Hrun & _ & Hmenu & Hadm & _).
  exists w1, session. split; [exact Hrun|]. split; [exact Hmenu|exact Hadm].
Defined.

(** X27.  [tiktok_oauth_login] of [TTKv1.py] writes the username it
    asks for to the vault before anything else happens: when the user
    then gives no authorization code, the login returns with that
    username stored as the current user, although no session was
    created for it - the users of the vault are what they were and
    nothing was sent to the provider. *)
Theorem ttkv1_login_names_a_current_user_without_a_session
    (strip : string -> string) (isoformat : Z -> string)
    (doc creds : dict) (line enter code : string) (rest : list string)
    (w : world) :
  kit_document w = PDict doc ->
  creds_of doc = PDict creds ->
  truthy (dget "tiktok_app_id" creds) = true ->
  truthy (dget "tiktok_app_secret" creds) = true ->
  truthy (dget "current_user" doc) = false ->
  stdin w = line :: enter :: code :: rest ->
  truthy (PStr (strip code)) = false ->
  disk_ok w = true ->
  exists w',
    TTKv1.tiktok_oauth_login strip isoformat w = (Ok tt, w') /\
    kit_document w' =
      PDict (dict_set (KStr "current_user") (PStr (strip line)) doc) /\
    fst (py_getitem (kit_document w') (PStr "current_user") w') =
      Ok (PStr (strip line)) /\
    fst (py_get (kit_document w') (PStr "users") PNone w') =
      fst (py_get (kit_document w) (PStr "users") PNone w) /\
    posted w' = posted w /\ stdin w' = rest.
Proof.
  intros Hst Hcreds Hid Hsecret Hcu Hin Hcode Hdisk.
  pose proof (kit_document_json_value w) as Hdoc. rewrite Hst in Hdoc.
  assert (json_value (PDict (dict_set (KStr "current_user")
                               (PStr (strip line)) doc)) = true) as Hnew
    by now apply json_value_set.
  destruct (roundtrip_json_value _ Hnew) as (jdoc & Hjdoc & Hback).
  unfold TTKv1.tiktok_oauth_login, TTKv1.register_username.
  rewrite run_bind, (proj1 (kit_load w)), Hst.
  unfold creds_of, dget in *.
  unfold py_get at 1 2 3 4. cbn [as_key].
  cbv beta iota delta [bind ret raise or_raise].
  rewrite Hcreds. cbv beta iota.
  rewrite Hid, Hsecret. cbn [negb orb]. rewrite Hcu. cbn [negb].
  unfold input at 1. rewrite Hin. cbv beta iota.
  unfold py_setitem. cbn [as_key]. cbv beta iota delta [bind ret or_raise].
  rewrite ttkv1_encrypt, (kit_encrypt _ jdoc _ Hjdoc).
  cbn [disk_ok set_stdin]. rewrite Hdisk.
  unfold print, input, py_getitem. cbn [as_key].
  cbv beta iota delta [bind ret raise or_raise].
  destruct (dict_lookup (KStr "tiktok_app_id") creds) as [id|]; [|discriminate].
  cbv beta iota.
  cbn [data_file disk_ok fernet clock endpoint posted slept stdin stdout
       port_free httpd user_data set_stdout set_stdin set_data_file].
  rewrite Hcode. cbn [negb].
  eexists. split; [reflexivity|].
  assert (kit_document
            (set_data_file
               (Some (Fernet.Token (fernet w) (Fernet.JsonText jdoc))) w)
          = PDict (dict_set (KStr "current_user") (PStr (strip line)) doc))
    as Hst'.
  { rewrite <- Hback.
    apply kit_document_of_token; [reflexivity|exact (dumps_parses _ _ Hjdoc)]. }
  match goal with
  | |- kit_document ?W = _ /\ _ =>
      rewrite (kit_document_same
                 (set_data_file
                    (Some (Fernet.Token (fernet w) (Fernet.JsonText jdoc))) w)
                 W eq_refl eq_refl)
  end.
  rewrite Hst'. split; [reflexivity|]. split.
  - unfold py_getitem. cbn [as_key]. run. now rewrite lookup_set_same.
  - split; [|split; reflexivity].
    unfold py_get. cbn [as_key]. run.
    now rewrite lookup_set_other.
Qed.

Lemma ttkv1_login_witness :
  exists w',
    TTKv1.tiktok_oauth_login sample_strip sample_isoformat
      (set_stdin ["dave"; ""; "  "] (world_with configured_document fresh_world))
      = (Ok tt, w') /\
    fst (py_getitem (kit_document w') (PStr "current_user") w') = Ok (PStr "dave") /\
    fst (TTKv1.get_user_data (PStr "dave") w') = Ok (PDict []).
Proof.
  destruct (ttkv1_login_names_a_current_user_without_a_session sample_strip
              sample_isoformat
              [(KStr "users", PDict []);
               (KStr "analyses", PList []);
               (KStr "creds", sample_creds);
               (KStr "current_user", PNone)]
              [(KStr "tiktok_app_id", PStr "app");
               (KStr "tiktok_app_secret", PStr "secret");
               (KStr "tiktok_advertiser_id", PStr "adv")]
              "dave" "" "  " []
              (set_stdin ["dave"; ""; "  "]
                 (world_with configured_document fresh_world)))
    as (w' & Hrun & _ & Hcu & _); [vm_compute; reflexivity .. | ].
  exists w'. split; [exact Hrun|]. split; [exact Hcu|].
  vm_compute in Hrun. injection Hrun as <-. vm_compute. reflexivity.
Defined.

End Kit.

(* ================================================================= *)
(** * How [set_credentials] and the login can end *)

Module Endings.
Import Runtime Builtins Props Samples RunFacts JsonFacts VaultFacts DictFacts.
Import StoredFacts EndFacts LoginFacts.
Local Open Scope list_scope.

Ltac graceful_steps :=
  repeat first
    [ apply graceful_bind; [|intro]
    | apply graceful_load_data | apply graceful_encrypt_data
    | apply graceful_py_get | apply graceful_py_getitem
    | apply graceful_py_setitem | apply graceful_print
    | apply graceful_validate_input | apply graceful_input
    | apply graceful_ret
    | match goal with
      | |- graceful (if ?b then _ else _) => destruct b
      end ].

Ltac orderly_steps :=
  repeat first
    [ apply orderly_bind; [|intro]
    | apply orderly_wait_for_code
    | apply graceful_orderly;
      first [ apply graceful_load_data | apply graceful_encrypt_data
            | apply graceful_py_get | apply graceful_py_getitem
            | apply graceful_py_setitem | apply graceful_print
            | apply graceful_validate_input | apply graceful_input
            | apply graceful_ret | apply graceful_now
            | apply graceful_loading_spinner | apply graceful_requests_post
            | apply graceful_raise_for_status | apply graceful_resp_json
            | apply graceful_timedelta_seconds | apply graceful_datetime_add
            | apply graceful_deliver
            | apply graceful_start_local_server ]
    | match goal with
      | |- orderly (if ?b then _ else _) => destruct b
      end ].

Lemma graceful_env_or getenv name ask :
  graceful ask -> graceful (Eldoore.env_or getenv name ask).
Proof.
  intros H. unfold Eldoore.env_or.
  destruct (getenv name) as [v|]; [destruct (truthy (PStr v))|];
    graceful_steps; exact H.
Qed.

(** X28.  [set_credentials] never lets an exception out, whatever the
    environment, the vault and the lines typed (an exhausted terminal
    included): it returns, or the process ends with status 1 because
    the vault could not be written. *)
Theorem set_credentials_returns_or_exits
    (strip : string -> string) (getenv : string -> option string) (w : world) :
  fst (Eldoore.set_credentials strip getenv w) = Ok tt \/
  fst (Eldoore.set_credentials strip getenv w) = Exit 1.
Proof.
  unfold Eldoore.set_credentials. rewrite run_bind. unfold print at 1.
  cbv beta iota.
  apply (caught_and_printed _ (fun _ => Msg_set_credentials_error)).
  apply graceful_bind; [apply graceful_load_data|]. intros data.
  apply graceful_bind; [apply graceful_py_get|]. intros creds.
  apply graceful_bind; [apply graceful_print|]. intros _.
  repeat (apply graceful_bind;
          [first [ apply graceful_env_or;
                   first [apply graceful_validate_input | apply graceful_input]
                 | apply graceful_py_setitem
                 | apply graceful_py_get ]
          |intro]).
  graceful_steps.
Qed.

Lemma orderly_await_callback strip fuel arrivals creds :
  orderly (Eldoore.await_callback strip fuel arrivals creds).
Proof. unfold Eldoore.await_callback. orderly_steps. Qed.

Lemma orderly_complete_login isoformat data creds username srv :
  orderly (Eldoore.complete_login isoformat data creds username srv).
Proof.
  unfold Eldoore.complete_login.
  match goal with
  | |- orderly (if ?b then _ else _) => destruct b
  end; [apply graceful_orderly, graceful_print|].
  apply orderly_bind; [intros w; exact I|]. intros _.
  orderly_steps.
Qed.

Lemma caught_by_the_login (body : M unit) w :
  orderly body ->
  fst (try_except body Eldoore.login_handlers w) = Ok tt \/
  fst (try_except body Eldoore.login_handlers w) = Exit 1 \/
  fst (try_except body Eldoore.login_handlers w) = Polling.
Proof.
  intros Hb. unfold try_except. specialize (Hb w).
  destruct (body w) as [[[]|e|s|] w1]; simpl in *; auto.
  - unfold Eldoore.login_handlers.
    destruct (is_http_error e); [|destruct (is_request_exception e)]; auto.
  - right. left. now subst.
Qed.

(** X29.  Started on a vault that names no current user,
    [tiktok_oauth_login] never lets an exception out, whatever is
    typed, whatever reaches the listener and whatever the provider
    answers: it returns, or it is still waiting for the callback, or
    the process ends with status 1 because the vault could not be
    written. *)
Theorem login_returns_waits_or_exits
    (strip : string -> string)
    (fromisoformat : string -> option Z) (isoformat : Z -> string)
    (fuel : nat) (arrivals : nat -> list Eldoore.query)
    (doc creds : dict) (w : world) :
  stored w = PDict doc ->
  creds_of doc = PDict creds ->
  truthy (dget "current_user" doc) = false ->
  fst (Eldoore.tiktok_oauth_login strip fromisoformat isoformat fuel arrivals w) = Ok tt \/
  fst (Eldoore.tiktok_oauth_login strip fromisoformat isoformat fuel arrivals w) = Exit 1 \/
  fst (Eldoore.tiktok_oauth_login strip fromisoformat isoformat fuel arrivals w) = Polling.
Proof.
  intros Hst Hcreds Hcu.
  destruct (truthy (dget "tiktok_app_id" creds)) eqn:Hid.
  - rewrite (login_fresh strip fromisoformat isoformat fuel arrivals w doc creds
               Hst Hcreds Hid Hcu).
    apply caught_by_the_login.
    apply orderly_bind; [apply orderly_await_callback|]. intros callback.
    apply orderly_complete_login.
  - destruct (login_unconfigured strip fromisoformat isoformat fuel arrivals w
                doc creds Hst Hcreds Hid) as (w1 & _ & Hrun).
    left. now rewrite Hrun.
Qed.

Lemma login_returns_waits_or_exits_witness :
  fst (Eldoore.tiktok_oauth_login sample_strip sample_fromisoformat sample_isoformat 7
         no_requests abandoned_world) = Ok tt \/
  fst (Eldoore.tiktok_oauth_login sample_strip sample_fromisoformat sample_isoformat 7
         no_requests abandoned_world) = Exit 1 \/
  fst (Eldoore.tiktok_oauth_login sample_strip sample_fromisoformat sample_isoformat 7
         no_requests abandoned_world) = Polling.
Proof.
  apply (login_returns_waits_or_exits sample_strip sample_fromisoformat
           sample_isoformat 7 no_requests
           [(KStr "users", PDict []);
            (KStr "analyses", PList []);
            (KStr "creds", sample_creds);
            (KStr "current_user", PNone)]
           [(KStr "tiktok_app_id", PStr "app");
            (KStr "tiktok_app_secret", PStr "secret");
            (KStr "tiktok_advertiser_id", PStr "adv")]
           abandoned_world); vm_compute; reflexivity.
Defined.

End Endings.

(* ================================================================= *)
(** * Claims about the login, the refresh and the save *)

Module StateCheck.
Import Runtime Builtins Props Samples RunFacts VaultFacts.
Local Open Scope list_scope.




End StateCheck.

Module RetryBound.
Import Runtime Builtins Props Samples RunFacts VaultFacts RefreshFacts.
Local Open Scope list_scope.



End RetryBound.

Module Freshness.
Import Runtime Builtins Props Samples RunFacts VaultFacts RefreshFacts.
Local Open Scope list_scope.

(** C5 (the code at the failing input).  Bob's session expired in 2020
    and holds no refresh token.  [refresh_token_if_needed] answers
    [True], as it does for a session that is still valid: the
    [if refresh_token:] has no [else], so control falls through to the
    [return True] that ends the function.  Nothing is sent and nothing
    is written. *)
Theorem expired_session_without_refresh_token_is_reported_fresh :
  expired_at sample_fromisoformat
    (clock (world_with bob_document fresh_world)) expired_session = true /\
  has_refresh_token expired_session = false /\
  Eldoore.refresh_token_if_needed sample_fromisoformat sample_isoformat
    expired_session (world_with bob_document fresh_world) =
  (Ok true, set_user_data expired_session (world_with bob_document fresh_world)).
Proof.
  split; [reflexivity|]. split; [reflexivity|].
  now apply refresh_nothing_to_do.
Qed.

End Freshness.

Module CurrentUser.
Import Runtime Builtins Props Samples RunFacts.
Local Open Scope list_scope.


End CurrentUser.

Module Termination.
Import Runtime Builtins Props Samples RunFacts VaultFacts.
Local Open Scope list_scope.

(** C9 (the claim fails).  A save that cannot open the vault file, and
    a save of a document [json] cannot encode, end the process with
    status 1; so does a logout on a vault file that cannot be written,
    although the whole body of [logout] is inside a [try]. *)
Lemma failed_save_ends_the_process :
  fst (Eldoore.encrypt_data configured_document
         (mkWorld None false 0%nat 1700000000 [] [] [] [] [] true None PNone))
    = Exit 1 /\
  fst (Eldoore.encrypt_data (PDict [(KStr "when", PObj 0)]) fresh_world) = Exit 1 /\
  fst (Eldoore.logout (PStr "bob")
         (mkWorld (data_file (world_with bob_document fresh_world)) false 0%nat
                  1700000000 [] [] [] [] [] true None PNone)) = Exit 1.
Proof. repeat split; vm_compute; reflexivity. Qed.

(** C9 (amended).  A failure while the document is encoded or the vault
    file is opened during a save is not survived: [encrypt_data] prints
    its error line and ends the process with status 1, with the file as
    it was; it never lets an exception out.  Loading never ends the
    process and never raises. *)
Theorem failed_save_exits_with_status_1 (data : pyval) (w : world) :
  Json.dumps data = None \/ disk_ok w = false ->
  (exists w',
     Eldoore.encrypt_data data w = (Exit 1, w') /\
     stdout w' = stdout w ++ [Msg_encryption_error] /\
     data_file w' = data_file w) /\
  (forall data' w0, forall e, fst (Eldoore.encrypt_data data' w0) <> Raise e) /\
  (forall w0, exists v w1, Eldoore.load_data w0 = (Ok v, w1)).
Proof.
  intros H. split; [|split].
  - rewrite (eldoore_encrypt_fails data w H). eexists. repeat split.
  - intros data' w0 e.
    destruct (eldoore_encrypt_cases data' w0) as [(j & _ & _ & Hr)|(_ & Hr)];
      rewrite Hr; discriminate.
  - intros w0. destruct (eldoore_load_value w0) as (w1 & Hl & _). eauto.
Qed.

Lemma failed_save_witness :
  exists w',
    Eldoore.encrypt_data configured_document
      (mkWorld None false 0%nat 1700000000 [] [] [] [] [] true None PNone)
      = (Exit 1, w') /\
    stdout w' = [Msg_encryption_error] /\
    data_file w' = None.
Proof.
  destruct (failed_save_exits_with_status_1 configured_document
              (mkWorld None false 0%nat 1700000000 [] [] [] [] [] true None PNone))
    as [(w' & Hrun & Ho & Hf) _].
  - right. reflexivity.
  - exists w'. split; [exact Hrun|]. split; [exact Ho|exact Hf].
Defined.

End Termination.

Module Ownership.
Import Runtime Builtins Props Samples RunFacts JsonFacts VaultFacts DictFacts.
Import RefreshFacts RefreshSuccess StoredFacts.
Local Open Scope list_scope.



End Ownership.
